(** * Multiplayer coordination over a shared blob store

    A shallow embedding of the room synchronisation layer (SyncManager),
  the room lifecycle manager (MultiplayerManager), the seat and role
  assignment (game-sync) and the host's game-end check (HostController),
  followed by the properties established about them.

    Conventions of the embedding:
  - JavaScript numbers that hold counters and timestamps are [Z], the
    integers among the doubles; where the code adds to such a number the
    sum is rounded as JavaScript rounds it ([Number.add]);
    array indices and loop bounds are [nat];
  - the remote store, the clock, the timer table of the runtime and the
    trace of observable effects (storage calls, sleeps, callbacks)
    are threaded explicitly in a [World];
  - an [async] method is either run to completion in one piece (when no
    other code interleaves) or split at its [await] into a "begin" and a
    "resume" half (for the polling loop, where interleaving matters). *)

From stdpp Require Import gmap strings list fin_maps pretty.
From Stdlib Require Import ZArith Lia Sorted.

Local Open Scope Z_scope.

(** ** JavaScript numbers

    A [number] is an IEEE 754 double. The room version, the timestamps and
    the intervals hold integers, which are modelled by their value in [Z];
    fractions, NaN and the infinities (beyond [2 ^ 1024]) are left out. A
    double has 53 bits of mantissa: every integer up to [2 ^ 53] in
    magnitude is a double, and beyond that only the multiples of a power of
    two are. *)
Module Number.

(** [Number.MAX_SAFE_INTEGER + 1] *)
Definition two53 : Z := 9007199254740992.

Definition MAX_SAFE_INTEGER : Z := two53 - 1.

(** [z] rounded to the nearest double, ties to the even mantissa: with
    [|z| = q * 2 ^ e + r] for a 53-bit [q], the mantissa is [q], or [q + 1]
    when [r] is more than half of [2 ^ e], or exactly half with [q] odd. *)
Definition round (z : Z) : Z :=
  let n := Z.abs z in
  if n <? two53 then z
  else
    let e := Z.log2 n - 52 in
    let q := Z.shiftr n e in
    let r := n - Z.shiftl q e in
    let half := Z.shiftl 1 (e - 1) in
    let q' := if (half <? r) || ((r =? half) && Z.odd q) then q + 1 else q in
    Z.sgn z * Z.shiftl q' e.

(** [a + b] on numbers. *)
Definition add (a b : Z) : Z := round (a + b).

(** The sums that JavaScript computes exactly. *)
Definition safe (z : Z) : Prop := - two53 < z < two53.

End Number.

Arguments Number.round : simpl never.
Arguments Number.add : simpl never.

(** ** Data model: lib/storage/interface (as used by the sources) *)

Inductive RoomStatus := waiting | playing | ended.

#[global] Instance RoomStatus_eq_dec : EqDecision RoomStatus.
Proof. solve_decision. Defined.

Module Player.
Record t := mk {
  id : string;
  name : string;
  isHost : bool;
  isReady : bool;
  isOnline : bool;
  lastSeen : Z }.

Definition with_isHost (b : bool) (p : t) : t :=
  mk (id p) (name p) b (isReady p) (isOnline p) (lastSeen p).
Definition with_isReady (b : bool) (p : t) : t :=
  mk (id p) (name p) (isHost p) b (isOnline p) (lastSeen p).
Definition with_online (b : bool) (now : Z) (p : t) : t :=
  mk (id p) (name p) (isHost p) (isReady p) b now.
End Player.

#[global] Instance Player_eq_dec : EqDecision Player.t.
Proof. solve_decision. Defined.

(** ** Game state: types/game (the fields the multiplayer code touches) *)

Inductive Role := Werewolf | Seer | Witch | Hunter | Guard | Villager.

#[global] Instance Role_eq_dec : EqDecision Role.
Proof. solve_decision. Defined.

Inductive Alignment := village | wolf.

#[global] Instance Alignment_eq_dec : EqDecision Alignment.
Proof. solve_decision. Defined.

Inductive Phase :=
| SETUP | NIGHT_START
| NIGHT_GUARD_ACTION | NIGHT_WOLF_ACTION | NIGHT_WITCH_ACTION | NIGHT_SEER_ACTION
| NIGHT_RESOLVE | DAY_START | DAY_BADGE_SIGNUP
| DAY_SPEECH | DAY_BADGE_SPEECH | DAY_PK_SPEECH
| DAY_VOTE | DAY_BADGE_ELECTION | DAY_RESOLVE | GAME_END.

#[global] Instance Phase_eq_dec : EqDecision Phase.
Proof. solve_decision. Defined.

Inductive Difficulty := easy | normal | hard.

#[global] Instance Difficulty_eq_dec : EqDecision Difficulty.
Proof. solve_decision. Defined.

Module GamePlayer.
  (** [role] is an option: [roles[index]] past the end of the role array
    is [undefined] in the source. *)
Record t := mk {
  playerId : string;
  seat : nat;
  displayName : string;
  alive : bool;
  role : option Role;
  alignment : Alignment;
  isHuman : bool }.
End GamePlayer.

#[global] Instance GamePlayer_eq_dec : EqDecision GamePlayer.t.
Proof. solve_decision. Defined.

Module GameState.
Record t := mk {
  phase : Phase;
  day : Z;
  players : list GamePlayer.t;
  currentSpeakerSeat : option nat;
  winner : option Alignment;
  difficulty : Difficulty }.

Definition with_winner (w : Alignment) (g : t) : t :=
  mk (phase g) (day g) (players g) (currentSpeakerSeat g) (Some w) (difficulty g).
Definition with_phase (p : Phase) (g : t) : t :=
  mk p (day g) (players g) (currentSpeakerSeat g) (winner g) (difficulty g).
End GameState.

#[global] Instance GameState_eq_dec : EqDecision GameState.t.
Proof. solve_decision. Defined.

Module RoomState.
Record t := mk {
  id : string;
  version : Z;
  hostId : string;
  status : RoomStatus;
  players : list Player.t;
  gameState : option GameState.t;
  createdAt : Z;
  updatedAt : Z }.

Definition with_status (s : RoomStatus) (r : t) : t :=
  mk (id r) (version r) (hostId r) s (players r) (gameState r)
     (createdAt r) (updatedAt r).
Definition with_players (ps : list Player.t) (r : t) : t :=
  mk (id r) (version r) (hostId r) (status r) ps (gameState r)
     (createdAt r) (updatedAt r).
Definition with_gameState (g : option GameState.t) (r : t) : t :=
  mk (id r) (version r) (hostId r) (status r) (players r) g
     (createdAt r) (updatedAt r).
  (** [{ ...room, version: room.version + 1, updatedAt: now }] *)
Definition bump (now : Z) (r : t) : t :=
  mk (id r) (Number.add (version r) 1) (hostId r) (status r) (players r) (gameState r)
     (createdAt r) now.
End RoomState.

#[global] Instance RoomState_eq_dec : EqDecision RoomState.t.
Proof. solve_decision. Defined.

(** ** Observable effects *)

(** What the client hears through its callbacks (MultiplayerCallbacks). *)
Inductive Callback :=
| OnRoomUpdate (room : RoomState.t)
| OnPlayerJoin (p : Player.t)
| OnPlayerLeave (playerId : string)
| OnGameStart
| OnGameEnd
| OnError (msg : string).

#[global] Instance Callback_eq_dec : EqDecision Callback.
Proof. solve_decision. Defined.

Inductive Event :=
| GetRoomCall (roomId : string) (result : option RoomState.t)
| SaveRoomCall (room : RoomState.t) (ok : bool)
| DeleteRoomCall (roomId : string) (ok : bool)
| Slept (ms : Z)
| ConsoleError (msg : string)
| Called (c : Callback).

#[global] Instance Event_eq_dec : EqDecision Event.
Proof. solve_decision. Defined.

(** ** The storage interface (IGameStorage) and two implementations *)

Class IGameStorage (S : Type) := {
  getRoom : string -> S -> option RoomState.t * S;
  saveRoom : RoomState.t -> S -> bool * S;
  deleteRoom : string -> S -> bool * S }.

(** A store in which every request succeeds: one JSON object per room id. *)
#[global] Instance MemStorage : IGameStorage (gmap string RoomState.t) := {
  getRoom rid m := (m !! rid, m);
  saveRoom r m := (true, <[RoomState.id r := r]> m);
  deleteRoom rid m := (true, delete rid m) }.

(** A store whose first [failing] writes are refused ([saveRoom] answers
    [false] and nothing is written); later writes succeed. *)
Record FlakyStore := mkFlaky {
  objects : gmap string RoomState.t;
  failing : nat }.

#[global] Instance FlakyStorage : IGameStorage FlakyStore := {
  getRoom rid s := (objects s !! rid, s);
  saveRoom r s :=
    match failing s with
    | O => (true, mkFlaky (<[RoomState.id r := r]> (objects s)) O)
    | S k => (false, mkFlaky (objects s) k)
    end;
  deleteRoom rid s := (true, mkFlaky (delete rid (objects s)) (failing s)) }.

(** ** The world a client runs in *)

Record World (S : Type) := mkWorld {
  store : S;
  clock : Z;   (* Date.now() *)
  timers : gmap nat (RoomStatus * Z);
    (* pending setTimeout(() => this.poll(status), interval) *)
  nextTimer : nat;
  log : list Event }.

Arguments mkWorld {S}.
Arguments store {S}.
Arguments clock {S}.
Arguments timers {S}.
Arguments nextTimer {S}.
Arguments log {S}.

Section WorldOps.
Context {S : Type} `{IGameStorage S}.

Definition emit (es : list Event) (w : World S) : World S :=
  mkWorld (store w) (clock w) (timers w) (nextTimer w) (log w ++ es).

(** Callbacks run: what they were called with is appended to the trace. *)
Definition call (cs : list Callback) (w : World S) : World S :=
  emit (map Called cs) w.

Definition storageGet (rid : string) (w : World S) : option RoomState.t * World S :=
  let '(r, s) := getRoom rid (store w) in
  (r, mkWorld s (clock w) (timers w) (nextTimer w) (log w ++ [GetRoomCall rid r])).

Definition storageSave (r : RoomState.t) (w : World S) : bool * World S :=
  let '(ok, s) := saveRoom r (store w) in
  (ok, mkWorld s (clock w) (timers w) (nextTimer w) (log w ++ [SaveRoomCall r ok])).

Definition storageDelete (rid : string) (w : World S) : bool * World S :=
  let '(ok, s) := deleteRoom rid (store w) in
  (ok, mkWorld s (clock w) (timers w) (nextTimer w) (log w ++ [DeleteRoomCall rid ok])).

(** [await new Promise(resolve => setTimeout(resolve, ms))] *)
Definition sleep (ms : Z) (w : World S) : World S :=
  mkWorld (store w) (clock w + ms) (timers w) (nextTimer w) (log w ++ [Slept ms]).

Definition setTimeout (st : RoomStatus) (ms : Z) (w : World S) : nat * World S :=
  (nextTimer w,
   mkWorld (store w) (clock w) (<[nextTimer w := (st, ms)]> (timers w))
           (Datatypes.S (nextTimer w)) (log w)).

Definition clearTimeout (t : nat) (w : World S) : World S :=
  mkWorld (store w) (clock w) (delete t (timers w)) (nextTimer w) (log w).
End WorldOps.

(** ** lib/multiplayer/types: SyncConfig *)

Record SyncConfig := mkSyncConfig {
  waitingInterval : Z;
  playingInterval : Z;
  idleInterval : Z }.

Definition DEFAULT_SYNC_CONFIG : SyncConfig := mkSyncConfig 1000 500 3000.

(** ** lib/multiplayer/sync: SyncManager *)

Definition Observer := RoomState.t -> list Callback.

(** How an awaited [getRoom] settles: with a room or [null], or by
    rejecting (the [catch] branches of [poll]). *)
Inductive FetchResult :=
| Resolved (r : option RoomState.t)
| Rejected.

Module SyncManager.
Record t := mk {
  roomId : string;
  config : SyncConfig;
  intervalId : option nat;
  lastVersion : Z;
  onUpdate : option Observer;
    (** polls suspended at [await this.storage.getRoom], each with the
        [status] argument it was called with *)
  inflight : list RoomStatus }.

Definition new (rid : string) : t :=
  mk rid DEFAULT_SYNC_CONFIG None 0 None [].

Definition setOnUpdate (cb : Observer) (sm : t) : t :=
  mk (roomId sm) (config sm) (intervalId sm) (lastVersion sm) (Some cb) (inflight sm).

Definition with_intervalId (i : option nat) (sm : t) : t :=
  mk (roomId sm) (config sm) i (lastVersion sm) (onUpdate sm) (inflight sm).
Definition with_lastVersion (v : Z) (sm : t) : t :=
  mk (roomId sm) (config sm) (intervalId sm) v (onUpdate sm) (inflight sm).
Definition with_inflight (l : list RoomStatus) (sm : t) : t :=
  mk (roomId sm) (config sm) (intervalId sm) (lastVersion sm) (onUpdate sm) l.

(** [this.onUpdate?.(room)] *)
Definition notify (sm : t) (room : RoomState.t) : list Callback :=
  match onUpdate sm with
  | Some cb => cb room
  | None => []
  end.

Definition getInterval (sm : t) (st : RoomStatus) : Z :=
  match st with
  | waiting => waitingInterval (config sm)
  | playing => playingInterval (config sm)
  | ended => idleInterval (config sm)
  end.

Section WithStorage.
Context {S : Type} `{IGameStorage S}.

Definition stop (sm : t) (w : World S) : t * World S :=
  match intervalId sm with
  | Some i => (with_intervalId None sm, clearTimeout i w)
  | None => (sm, w)
  end.

(** The loop of [updateWithLock]: [left] iterations remain, [i] is the
    loop counter. *)
Fixpoint updateWithLock_loop (updater : RoomState.t -> RoomState.t)
    (left : nat) (i : nat) (sm : t) (w : World S)
    : option RoomState.t * t * World S :=
  match left with
  | O => (None, sm, emit [ConsoleError "[SyncManager] Update failed after retries"] w)
  | Datatypes.S left' =>
      let '(room, w1) := storageGet (roomId sm) w in
      match room with
      | None => (None, sm, w1)
      | Some room =>
          let updated := updater (RoomState.bump (clock w1) room) in
          let '(success, w2) := storageSave updated w1 in
          if success then
            let sm' := with_lastVersion (RoomState.version updated) sm in
            (Some updated, sm', call (notify sm' updated) w2)
          else
            updateWithLock_loop updater left' (Datatypes.S i) sm
              (sleep (100 * (Z.of_nat i + 1)) w2)
      end
  end.

Definition updateWithLock (updater : RoomState.t -> RoomState.t)
    (maxRetries : nat) (sm : t) (w : World S)
    : option RoomState.t * t * World S :=
  updateWithLock_loop updater maxRetries 0 sm w.

(** [refresh]: the storage call cannot reject here, so the [catch]
    branch has no counterpart. *)
Definition refresh (sm : t) (w : World S) : option RoomState.t * t * World S :=
  let '(room, w1) := storageGet (roomId sm) w in
  match room with
  | Some r =>
      let sm' := with_lastVersion (RoomState.version r) sm in
      (Some r, sm', call (notify sm' r) w1)
  | None => (None, sm, w1)
  end.

(** [poll] is split at its [await]: [poll_begin] runs up to the call of
    [getRoom] and leaves the continuation suspended; [poll_resume] runs
    the continuation of the oldest suspended poll once its fetch has
    settled with [res]. *)
Definition poll_begin (st : RoomStatus) (sm : t) : t :=
  with_inflight (inflight sm ++ [st]) sm.

Definition poll_resume (res : FetchResult) (sm : t) (w : World S) : t * World S :=
  match inflight sm with
  | [] => (sm, w)
  | st :: rest =>
      let sm0 := with_inflight rest sm in
      let '(sm1, st1, w1) :=
        match res with
        | Resolved (Some room) =>
            if lastVersion sm0 <? RoomState.version room then
              let sm' := with_lastVersion (RoomState.version room) sm0 in
              (sm', RoomState.status room, call (notify sm' room) w)
            else (sm0, st, w)
        | Resolved None => (sm0, st, w)
        | Rejected => (sm0, st, emit [ConsoleError "[SyncManager] Poll error:"] w)
        end in
      let interval := getInterval sm1 st1 in
      let '(tid, w2) := setTimeout st1 interval w1 in
      (with_intervalId (Some tid) sm1, w2)
  end.

(** The runtime fires timer [tid]: its callback is [() => this.poll(status)]. *)
Definition timer_fires (tid : nat) (sm : t) (w : World S) : t * World S :=
  match timers w !! tid with
  | Some (st, _) => (poll_begin st sm, clearTimeout tid w)
  | None => (sm, w)
  end.

Definition start (initialStatus : RoomStatus) (sm : t) (w : World S) : t * World S :=
  let '(sm1, w1) := stop sm w in
  (poll_begin initialStatus sm1, w1).

(** One whole poll with nothing interleaved: the suspended poll's fetch
    is answered from the store as it is now. *)
Definition poll_settle (sm : t) (w : World S) : t * World S :=
  match inflight sm with
  | [] => (sm, w)
  | _ :: _ =>
      let '(r, w1) := storageGet (roomId sm) w in
      poll_resume (Resolved r) sm w1
  end.

(** A sync tick: the scheduled timer (if any) fires and the poll it
    starts, or the one already suspended, runs to its end. *)
Definition tick (sm : t) (w : World S) : t * World S :=
  let '(sm1, w1) :=
    match intervalId sm with
    | Some tid => timer_fires tid sm w
    | None => (sm, w)
    end in
  poll_settle sm1 w1.

(** The polling loop over several rounds: in each round the suspended
    poll's fetch settles with the next result, the poll reschedules itself,
    and the timer it set fires. *)
Fixpoint pollRounds (results : list FetchResult) (sm : t) (w : World S)
    : t * World S :=
  match results with
  | [] => (sm, w)
  | res :: rest =>
      let '(sm1, w1) := poll_resume res sm w in
      let '(sm2, w2) :=
        match intervalId sm1 with
        | Some tid => timer_fires tid sm1 w1
        | None => (sm1, w1)
        end in
      pollRounds rest sm2 w2
  end.
End WithStorage.
End SyncManager.

(** ** lib/multiplayer/manager: MultiplayerManager *)

(** [!s] for an optional string: [null], [undefined] and the empty
    string are falsy. *)
Definition falsy (s : option string) : bool :=
  match s with
  | Some s => String.eqb s EmptyString
  | None => true
  end.

(** The string in a field that has been checked to be set. *)
Definition theString (s : option string) : string := default EmptyString s.

Module MultiplayerManager.
Record t := mk {
  storage : bool;   (* [this.storage] is set; the store itself is in the [World] *)
  sync : option SyncManager.t;
  roomId : option string;
  playerId : string;
  playerName : option string;
  isHost : bool }.

Definition with_sync (s : option SyncManager.t) (m : t) : t :=
  mk (storage m) s (roomId m) (playerId m) (playerName m) (isHost m).
Definition with_isHost (b : bool) (m : t) : t :=
  mk (storage m) (sync m) (roomId m) (playerId m) (playerName m) b.

(** The constructor, with the identity read from local storage. *)
Definition new (pid : string) (pname : option string) : t :=
  mk false None None pid pname false.

(** [initialize]: [success] is the outcome of the connection test and
    [rid] the room id derived from the storage configuration. *)
Definition initialize (success : bool) (rid : string) (m : t) : t :=
  mk true (sync m) (if success then Some rid else roomId m)
     (playerId m) (playerName m) (isHost m).

(** [savePlayerName] also writes the name to the browser's local storage,
    which the [World] does not hold. *)
Definition setPlayerName (n : string) (m : t) : t :=
  mk (storage m) (sync m) (roomId m) (playerId m) (Some n) (isHost m).

Definition getRoomId (m : t) : option string := roomId m.

Definition getIsHost (m : t) : bool := isHost m.

(** The callback [startSync] installs on the sync manager; it closes over
    the room the sync was started with. *)
Definition syncObserver (room : RoomState.t) : Observer := fun updatedRoom =>
  OnRoomUpdate updatedRoom ::
  (if decide (RoomState.status room = RoomState.status updatedRoom) then []
   else match RoomState.status updatedRoom with
        | playing => [OnGameStart]
        | ended => [OnGameEnd]
        | waiting => []
        end).

Section WithStorage.
Context {S : Type} `{IGameStorage S}.

Definition startSync (room : RoomState.t) (m : t) (w : World S) : t * World S :=
  if negb (storage m) || falsy (roomId m) then (m, w)
  else
    let sm := SyncManager.setOnUpdate (syncObserver room)
                (SyncManager.new (theString (roomId m))) in
    let '(sm1, w1) := SyncManager.start (RoomState.status room) sm w in
    (with_sync (Some sm1) m, w1).

(** [this.sync.updateWithLock(updater)] with the default [maxRetries = 3];
    callers have checked that [this.sync] is set. *)
Definition lockedUpdate (updater : RoomState.t -> RoomState.t) (m : t) (w : World S)
    : option RoomState.t * t * World S :=
  match sync m with
  | Some sm =>
      let '(r, sm1, w1) := SyncManager.updateWithLock updater 3 sm w in
      (r, with_sync (Some sm1) m, w1)
  | None => (None, m, w)
  end.

Definition createRoom (playerNameArg : option string) (m : t) (w : World S)
    : option RoomState.t * t * World S :=
  if negb (storage m) || falsy (roomId m) then
    (None, m, call [OnError "存储未初始化"] w)
  else
    let rid := theString (roomId m) in
    let m := if falsy playerNameArg then m
             else setPlayerName (theString playerNameArg) m in
    if falsy (playerName m) then
      (None, m, call [OnError "请设置玩家名称"] w)
    else
      let '(existing, w1) := storageGet rid w in
      if match existing with
         | Some e => negb (bool_decide (RoomState.status e = ended))
         | None => false
         end
      then (None, m, call [OnError "房间已存在，请直接加入"] w1)
      else
        let now := clock w1 in
        let room :=
          RoomState.mk rid 1 (playerId m) waiting
            [Player.mk (playerId m) (theString (playerName m)) true true true now]
            None now now in
        let '(success, w2) := storageSave room w1 in
        if negb success then (None, m, call [OnError "创建房间失败"] w2)
        else
          let m := with_isHost true m in
          let '(m, w3) := startSync room m w2 in
          (Some room, m, call [OnRoomUpdate room] w3).

(** [Date.now()] inside the updater reads the clock that has just stamped
    [updatedAt] on its argument. *)
Definition updateOnlineStatus (online : bool) (m : t) (w : World S) : t * World S :=
  match sync m with
  | None => (m, w)
  | Some _ =>
      let '(_, m1, w1) :=
        lockedUpdate (fun room =>
          RoomState.with_players
            (map (fun p => if String.eqb (Player.id p) (playerId m)
                           then Player.with_online online (RoomState.updatedAt room) p
                           else p)
                 (RoomState.players room)) room) m w in
      (m1, w1)
  end.

Definition joinRoom (playerNameArg : option string) (m : t) (w : World S)
    : option RoomState.t * t * World S :=
  if negb (storage m) || falsy (roomId m) then
    (None, m, call [OnError "存储未初始化"] w)
  else
    let rid := theString (roomId m) in
    let m := if falsy playerNameArg then m
             else setPlayerName (theString playerNameArg) m in
    if falsy (playerName m) then
      (None, m, call [OnError "请设置玩家名称"] w)
    else
      let '(room, w1) := storageGet rid w in
      match room with
      | None => createRoom None m w1
      | Some room =>
          match find (fun p => String.eqb (Player.id p) (playerId m))
                     (RoomState.players room) with
          | Some existingPlayer =>
              let m := with_isHost (Player.isHost existingPlayer) m in
              let '(m, w2) := startSync room m w1 in
              let '(m, w3) := updateOnlineStatus true m w2 in
              (Some room, m, w3)
          | None =>
              if bool_decide (RoomState.status room = playing) then
                (None, m, call [OnError "游戏已开始，无法加入"] w1)
              else
                let newPlayer :=
                  Player.mk (playerId m) (theString (playerName m))
                            false false true (clock w1) in
                let updatedRoom :=
                  RoomState.mk (RoomState.id room) (Number.add (RoomState.version room) 1)
                    (RoomState.hostId room) (RoomState.status room)
                    (RoomState.players room ++ [newPlayer])
                    (RoomState.gameState room) (RoomState.createdAt room)
                    (clock w1) in
                let '(success, w2) := storageSave updatedRoom w1 in
                if negb success then (None, m, call [OnError "加入房间失败"] w2)
                else
                  let m := with_isHost false m in
                  let '(m, w3) := startSync updatedRoom m w2 in
                  (Some updatedRoom, m,
                   call [OnRoomUpdate updatedRoom; OnPlayerJoin newPlayer] w3)
          end
      end.

(** [updatedPlayers[0].isHost = true] *)
Definition markFirstHost (ps : list Player.t) : list Player.t :=
  match ps with
  | p :: rest => Player.with_isHost true p :: rest
  | [] => []
  end.

Definition leaveRoom (m : t) (w : World S) : t * World S :=
  match sync m with
  | None => (m, w)
  | Some sm =>
      if negb (storage m) || falsy (roomId m) then (m, w)
      else
        let rid := theString (roomId m) in
        let '(sm1, w1) := SyncManager.stop sm w in
        let m := with_sync (Some sm1) m in
        let '(room, w2) := storageGet rid w1 in
        match room with
        | None => (m, w2)
        | Some room =>
            let updatedPlayers :=
              filter (fun p => Player.id p ≠ playerId m) (RoomState.players room) in
            let transfer :=
              isHost m && bool_decide (0 < length updatedPlayers)%nat in
            let updatedPlayers :=
              if transfer then markFirstHost updatedPlayers else updatedPlayers in
            let newHostId :=
              if transfer
              then from_option Player.id (RoomState.hostId room) (head updatedPlayers)
              else RoomState.hostId room in
            let w3 :=
              if bool_decide (length updatedPlayers = 0%nat) then
                snd (storageDelete rid w2)
              else
                snd (storageSave
                       (RoomState.mk (RoomState.id room) (Number.add (RoomState.version room) 1)
                          newHostId (RoomState.status room) updatedPlayers
                          (RoomState.gameState room) (RoomState.createdAt room)
                          (clock w2)) w2) in
            (with_isHost false (with_sync None m),
             call [OnPlayerLeave (playerId m)] w3)
        end
  end.

Definition setReady (ready : bool) (m : t) (w : World S) : t * World S :=
  match sync m with
  | None => (m, w)
  | Some _ =>
      let '(_, m1, w1) :=
        lockedUpdate (fun room =>
          RoomState.with_players
            (map (fun p => if String.eqb (Player.id p) (playerId m)
                           then Player.with_isReady ready p else p)
                 (RoomState.players room)) room) m w in
      (m1, w1)
  end.

(** The updater of [startGame]. *)
Definition startGameUpdater (room : RoomState.t) : RoomState.t :=
  let allReady := forallb Player.isReady (RoomState.players room) in
  if negb allReady then room
  else RoomState.with_status playing room.

Definition startGame (m : t) (w : World S) : bool * t * World S :=
  if negb (isHost m) || negb (bool_decide (is_Some (sync m))) then
    (false, m, call [OnError "只有房主才能开始游戏"] w)
  else
    let '(room, m1, w1) := lockedUpdate startGameUpdater m w in
    if match room with
       | Some r => bool_decide (RoomState.status r = playing)
       | None => false
       end
    then (true, m1, call [OnGameStart] w1)
    else (false, m1, call [OnError "还有玩家未准备"] w1).

Definition updateGameState (g : GameState.t) (m : t) (w : World S) : bool * t * World S :=
  if negb (isHost m) || negb (bool_decide (is_Some (sync m))) then (false, m, w)
  else
    let '(room, m1, w1) := lockedUpdate (RoomState.with_gameState (Some g)) m w in
    (bool_decide (is_Some room), m1, w1).

Definition endGame (m : t) (w : World S) : t * World S :=
  if negb (isHost m) || negb (bool_decide (is_Some (sync m))) then (m, w)
  else
    let '(_, m1, w1) := lockedUpdate (RoomState.with_status ended) m w in
    (m1, call [OnGameEnd] w1).

Definition refresh (m : t) (w : World S) : option RoomState.t * t * World S :=
  match sync m with
  | Some sm =>
      let '(r, sm1, w1) := SyncManager.refresh sm w in
      (r, with_sync (Some sm1) m, w1)
  | None => (None, m, w)
  end.

(** A tick of this client's polling loop. *)
Definition syncTick (m : t) (w : World S) : t * World S :=
  match sync m with
  | Some sm =>
      let '(sm1, w1) := SyncManager.tick sm w in
      (with_sync (Some sm1) m, w1)
  | None => (m, w)
  end.

(** [reconnect]. The manager's [config] field is not part of the record:
    [hasConfig] tells whether it is set (it is from [initialize] on, and
    [destroy] does not clear it). No storage call rejects here, so the
    [catch] branch has no counterpart. *)
Definition reconnect (hasConfig : bool) (m : t) (w : World S) : bool * t * World S :=
  if negb hasConfig || falsy (roomId m) then
    (false, m, call [OnError "无法重连：配置丢失"] w)
  else
    let m := mk true (sync m) (roomId m) (playerId m) (playerName m) (isHost m) in
    let '(room, w1) := storageGet (theString (roomId m)) w in
    match room with
    | None => (false, m, call [OnError "房间不存在或已关闭"] w1)
    | Some room =>
        match find (fun p => String.eqb (Player.id p) (playerId m))
                   (RoomState.players room) with
        | None =>
            let '(r, m1, w2) := joinRoom None m w1 in
            (bool_decide (is_Some r), m1, w2)
        | Some player =>
            let m := with_isHost (Player.isHost player) m in
            let '(m, w2) := startSync room m w1 in
            let '(m, w3) := updateOnlineStatus true m w2 in
            (true, m, w3)
        end
    end.


End WithStorage.
End MultiplayerManager.

(** ** store/multiplayer-atoms: the derived host flag

    [room?.hostId === playerId] over the room atom and the player-id atom. *)
Definition isHostAtom (room : option RoomState.t) (playerId : string) : bool :=
  match room with
  | Some r => String.eqb (RoomState.hostId r) playerId
  | None => false
  end.

(** ** lib/multiplayer/game-sync: seats, roles and the initial game state *)

Record SeatMapping := mkSeatMapping {
  multiPlayerId : string;
  multiPlayerName : string;
  gameSeat : nat;
  gamePlayerId : string }.

#[global] Instance SeatMapping_eq_dec : EqDecision SeatMapping.
Proof. solve_decision. Defined.

(** The source of [Math.random()]: the raw outcome of its [k]-th call.
    [Math.floor(Math.random() * n)] takes every value of [0..n-1] and no
    other; it is modelled as the raw outcome reduced modulo [n]. *)
Definition Random := nat -> nat.

Definition randomBelow (rnd : Random) (k n : nat) : nat := (rnd k mod n)%nat.

Module GameSync.

(** The mapping pushed for the participant at [index]. *)
Definition mappingFor (index : nat) (mp : Player.t) : SeatMapping :=
  mkSeatMapping (Player.id mp) (Player.name mp) (index + 1)
    ("player-" +:+ pretty (index + 1)%nat).

(** The [forEach] of [createSeatMappings], from [index] on. *)
Fixpoint createSeatMappings_from (index : nat) (multiPlayers : list Player.t)
    (playerCount : nat) : list SeatMapping :=
  match multiPlayers with
  | [] => []
  | mp :: rest =>
      (if bool_decide (index < playerCount)%nat then [mappingFor index mp] else [])
      ++ createSeatMappings_from (S index) rest playerCount
  end.

Definition createSeatMappings (multiPlayers : list Player.t) (playerCount : nat)
    : list SeatMapping :=
  createSeatMappings_from 0 multiPlayers playerCount.

Definition getAlignment (role : option Role) : Alignment :=
  if bool_decide (role = Some Werewolf) then wolf else village.

(** [[result[i], result[j]] = [result[j], result[i]]] for indices inside
    the array (the only ones the shuffle produces). *)
Definition swap {A} (i j : nat) (result : list A) : list A :=
  match result !! i, result !! j with
  | Some x, Some y => <[j := x]> (<[i := y]> result)
  | _, _ => result
  end.

(** The loop of [shuffleArray], at index [i], before the [k]-th draw. *)
Fixpoint shuffle_loop {A} (rnd : Random) (k : nat) (i : nat) (result : list A)
    : list A :=
  match i with
  | O => result
  | S i' =>
      let j := randomBelow rnd k (i + 1) in
      shuffle_loop rnd (S k) i' (swap i j result)
  end.

Definition shuffleArray {A} (rnd : Random) (array : list A) : list A :=
  shuffle_loop rnd 0 (length array - 1) array.

Definition configs : gmap nat (list Role) :=
  list_to_map [
    (4%nat, [Werewolf; Seer; Villager; Villager]);
    (5%nat, [Werewolf; Seer; Witch; Villager; Villager]);
    (6%nat, [Werewolf; Werewolf; Seer; Witch; Villager; Villager]);
    (7%nat, [Werewolf; Werewolf; Seer; Witch; Hunter; Villager; Villager]);
    (8%nat, [Werewolf; Werewolf; Seer; Witch; Hunter; Guard; Villager; Villager]);
    (9%nat, [Werewolf; Werewolf; Werewolf; Seer; Witch; Hunter; Guard;
             Villager; Villager]);
    (10%nat, [Werewolf; Werewolf; Werewolf; Seer; Witch; Hunter; Guard;
              Villager; Villager; Villager]);
    (11%nat, [Werewolf; Werewolf; Werewolf; Seer; Witch; Hunter; Guard;
              Villager; Villager; Villager; Villager]);
    (12%nat, [Werewolf; Werewolf; Werewolf; Werewolf; Seer; Witch; Hunter; Guard;
              Villager; Villager; Villager; Villager])
  ].

(** [Math.min(Math.max(playerCount, 4), 12)] *)
Definition clampCount (playerCount : nat) : nat :=
  Nat.min (Nat.max playerCount 4) 12.

(** [configs[count] || configs[6]], before the shuffle *)
Definition selectRoles (playerCount : nat) : list Role :=
  match configs !! clampCount playerCount with
  | Some roles => roles
  | None => default [] (configs !! 6%nat)
  end.

Definition assignRoles (rnd : Random) (playerCount : nat) : list Role :=
  shuffleArray rnd (selectRoles playerCount).

Definition humanPlayer (roles : list Role) (index : nat) (mapping : SeatMapping)
    : GamePlayer.t :=
  let role := roles !! index in
  GamePlayer.mk (gamePlayerId mapping) (gameSeat mapping) (multiPlayerName mapping)
                true role (getAlignment role) true.

Definition aiPlayer (roles : list Role) (i : nat) : GamePlayer.t :=
  let seat := (i + 1)%nat in
  let role := Some (default Villager (roles !! i)) in
  GamePlayer.mk ("ai-" +:+ pretty seat) seat ("AI玩家" +:+ pretty seat)
                true role (getAlignment role) false.

(** [baseState] is the result of [createInitialGameState()] of
    lib/game-master; [difficulty] is [options?.difficulty]. *)
Definition createMultiplayerGameState (rnd : Random) (baseState : GameState.t)
    (multiPlayers : list Player.t) (seatMappings : list SeatMapping)
    (difficulty : option Difficulty) : GameState.t :=
  let playerCount := length multiPlayers in
  let roles := assignRoles rnd playerCount in
  let players := imap (humanPlayer roles) seatMappings in
  let totalSeats := Nat.max playerCount 6 in
  let players :=
    players ++ map (aiPlayer roles) (seq (length players) (totalSeats - length players)) in
  GameState.mk SETUP (GameState.day baseState) players
    (GameState.currentSpeakerSeat baseState) (GameState.winner baseState)
    (default normal difficulty).

End GameSync.

(** ** lib/multiplayer/host-controller: HostController *)

Module HostController.
Record t := mk {
  isRunning : bool;
  currentGameState : option GameState.t;
  aiActionTimeout : option nat }.

Definition isWolf (p : GamePlayer.t) : bool :=
  bool_decide (GamePlayer.role p = Some Werewolf).

(** [checkGameEnd] returns its verdict and the controller, whose game
    state it updates in place with the winner. *)
Definition checkGameEnd (hc : t) : bool * t :=
  match currentGameState hc with
  | None => (false, hc)
  | Some g =>
      let alivePlayers := List.filter GamePlayer.alive (GameState.players g) in
      let aliveWolves := List.filter isWolf alivePlayers in
      let aliveVillagers := List.filter (fun p => negb (isWolf p)) alivePlayers in
      if Nat.eqb (length aliveWolves) 0 then
        (true, mk (isRunning hc) (Some (GameState.with_winner village g))
                  (aiActionTimeout hc))
      else if Nat.leb (length aliveVillagers) (length aliveWolves) then
        (true, mk (isRunning hc) (Some (GameState.with_winner wolf g))
                  (aiActionTimeout hc))
      else (false, hc)
  end.

(** *** The vote handler and its suspension points

    The calls the controller makes on its configuration. *)
Inductive ConfigCall :=
| AIAction (playerId : string) (action : string)
| PhaseChange (p : Phase)
| GameStateUpdate (g : GameState.t).

(** Where the chain of handlers is suspended. A [delay] is parked on the
    timer it has set; a call on the configuration is parked until its
    promise settles. *)
Inductive Parked :=
| Idle
| VoteDelay (tid : nat) (todo : list GamePlayer.t)
| VoteAction (todo : list GamePlayer.t)
| VoteLastDelay (tid : nat)
| TransitionUpdate
| TransitionDelay (tid : nat)
| OtherHandler (p : Phase).

(** The controller with the runtime around it: the timers still pending,
    the next timer id, and the calls made on the configuration so far. *)
Record Running := mkRunning {
  controller : t;
  parked : Parked;
  pending : gset nat;
  nextId : nat;
  calls : list ConfigCall }.

(** [this.delay(ms)]: sets the timer and remembers it in [aiActionTimeout]. *)
Definition delay (park : nat -> Parked) (r : Running) : Running :=
  let tid := nextId r in
  mkRunning (mk (isRunning (controller r)) (currentGameState (controller r)) (Some tid))
            (park tid) ({[tid]} ∪ pending r) (S tid) (calls r).

Definition stop (r : Running) : Running :=
  let hc := controller r in
  match aiActionTimeout hc with
  | Some tid =>
      mkRunning (mk false (currentGameState hc) None) (parked r)
                (pending r ∖ {[tid]}) (nextId r) (calls r)
  | None =>
      mkRunning (mk false (currentGameState hc) (aiActionTimeout hc)) (parked r)
                (pending r) (nextId r) (calls r)
  end.

(** The loop of [handleVote] with [todo] still to act. *)
Definition voteLoop (todo : list GamePlayer.t) (r : Running) : Running :=
  match todo with
  | _ :: _ => delay (fun tid => VoteDelay tid todo) r
  | [] => delay VoteLastDelay r
  end.

Definition handleVote (r : Running) : Running :=
  match currentGameState (controller r) with
  | None => mkRunning (controller r) Idle (pending r) (nextId r) (calls r)
  | Some g =>
      let aiPlayers :=
        List.filter (fun p => negb (GamePlayer.isHuman p) && GamePlayer.alive p)
                    (GameState.players g) in
      voteLoop aiPlayers r
  end.

Definition processPhase (r : Running) : Running :=
  let hc := controller r in
  match currentGameState hc with
  | Some g =>
      if negb (isRunning hc) then
        mkRunning hc Idle (pending r) (nextId r) (calls r)
      else
        match GameState.phase g with
        | DAY_VOTE | DAY_BADGE_ELECTION => handleVote r
        | GAME_END => stop (mkRunning hc Idle (pending r) (nextId r) (calls r))
        | DAY_BADGE_SIGNUP => mkRunning hc Idle (pending r) (nextId r) (calls r)
        | p => mkRunning hc (OtherHandler p) (pending r) (nextId r) (calls r)
        end
  | None => mkRunning hc Idle (pending r) (nextId r) (calls r)
  end.

(** [transitionTo(phase)] up to its first [await]. *)
Definition transitionTo (phase : Phase) (r : Running) : Running :=
  let hc := controller r in
  match currentGameState hc with
  | None => mkRunning hc Idle (pending r) (nextId r) (calls r)
  | Some g =>
      let g' := GameState.with_phase phase g in
      mkRunning (mk (isRunning hc) (Some g') (aiActionTimeout hc)) TransitionUpdate
                (pending r) (nextId r)
                (calls r ++ [PhaseChange phase; GameStateUpdate g'])
  end.

Definition start (initialState : GameState.t) (r : Running) : Running :=
  processPhase
    (mkRunning (mk true (Some initialState) (aiActionTimeout (controller r)))
               (parked r) (pending r) (nextId r) (calls r)).

(** The runtime fires timer [tid], if it is still pending: the handler
    parked on it goes on to its next suspension point. *)
Definition timerFires (tid : nat) (r : Running) : Running :=
  if bool_decide (tid ∈ pending r) then
    let r1 := mkRunning (controller r) (parked r) (pending r ∖ {[tid]})
                        (nextId r) (calls r) in
    match parked r with
    | VoteDelay t (player :: rest) =>
        if bool_decide (t = tid) then
          mkRunning (controller r1) (VoteAction rest) (pending r1) (nextId r1)
                    (calls r1 ++ [AIAction (GamePlayer.playerId player) "vote"])
        else r1
    | VoteLastDelay t =>
        if bool_decide (t = tid) then transitionTo DAY_RESOLVE r1 else r1
    | TransitionDelay t =>
        if bool_decide (t = tid) then processPhase r1 else r1
    | _ => r1
    end
  else r.

(** The promise of the call the handler is parked on settles. *)
Definition callSettles (r : Running) : Running :=
  match parked r with
  | VoteAction rest => voteLoop rest r
  | TransitionUpdate => delay TransitionDelay r
  | _ => r
  end.
End HostController.

(** ** lib/multiplayer/game-sync: the action queue *)

Inductive GameAction :=
| Speech (playerId : string) (content : string)
| Vote (playerId : string) (targetSeat : nat)
| NightAction (playerId : string) (targetSeat : option nat) (action : option string)
| ReadyAction (playerId : string)
| SkipAction (playerId : string).

#[global] Instance GameAction_eq_dec : EqDecision GameAction.
Proof. solve_decision. Defined.

Definition actionPlayerId (a : GameAction) : string :=
  match a with
  | Speech p _ | Vote p _ | NightAction p _ _ | ReadyAction p | SkipAction p => p
  end.

Record MultiplayerGameData := mkGameData {
  gd_gameState : GameState.t;
  pendingActions : list GameAction;
  lastActionTime : Z;
  gd_hostId : string }.

Module ActionQueue.

(** [now] is [Date.now()]. *)
Definition applyAction (now : Z) (gameData : MultiplayerGameData) (action : GameAction)
    : MultiplayerGameData :=
  mkGameData (gd_gameState gameData) (pendingActions gameData ++ [action]) now
             (gd_hostId gameData).

Definition checkAllActionsComplete (gameState : GameState.t)
    (pending : list GameAction) (requiredPlayerIds : list string) : bool :=
  let actionPlayerIds : gset string := list_to_set (map actionPlayerId pending) in
  forallb (fun id => bool_decide (id ∈ actionPlayerIds)) requiredPlayerIds.

Definition withRole (r : Role) (p : GamePlayer.t) : bool :=
  bool_decide (GamePlayer.role p = Some r).

Definition getRequiredPlayers (gameState : GameState.t) : list string :=
  let alivePlayers := List.filter GamePlayer.alive (GameState.players gameState) in
  match GameState.phase gameState with
  | NIGHT_WOLF_ACTION =>
      map GamePlayer.playerId (List.filter (withRole Werewolf) alivePlayers)
  | NIGHT_SEER_ACTION =>
      map GamePlayer.playerId (List.filter (withRole Seer) alivePlayers)
  | NIGHT_WITCH_ACTION =>
      map GamePlayer.playerId (List.filter (withRole Witch) alivePlayers)
  | NIGHT_GUARD_ACTION =>
      map GamePlayer.playerId (List.filter (withRole Guard) alivePlayers)
  | DAY_SPEECH | DAY_BADGE_SPEECH | DAY_PK_SPEECH =>
      match GameState.currentSpeakerSeat gameState with
      | None => []
      | Some speaker =>
          match find (fun p => Nat.eqb (GamePlayer.seat p) speaker) alivePlayers with
          | Some speakerPlayer => [GamePlayer.playerId speakerPlayer]
          | None => []
          end
      end
  | DAY_VOTE | DAY_BADGE_ELECTION => map GamePlayer.playerId alivePlayers
  | _ => []
  end.

End ActionQueue.

(** ** HostController: which simulated players a phase makes act *)

Module HostTurns.

(** [roleMap[phase]] *)
Definition roleMap (phase : Phase) : option Role :=
  match phase with
  | NIGHT_GUARD_ACTION => Some Guard
  | NIGHT_WOLF_ACTION => Some Werewolf
  | NIGHT_WITCH_ACTION => Some Witch
  | NIGHT_SEER_ACTION => Some Seer
  | _ => None
  end.

Definition getAIPlayersForPhase (hc : HostController.t) (phase : Phase)
    : list GamePlayer.t :=
  match HostController.currentGameState hc with
  | None => []
  | Some g =>
      match roleMap phase with
      | None => []
      | Some requiredRole =>
          List.filter
            (fun p => negb (GamePlayer.isHuman p) && GamePlayer.alive p
                      && bool_decide (GamePlayer.role p = Some requiredRole))
            (GameState.players g)
      end
  end.

(** The simulated players [handleVote] makes vote. *)
Definition votingAIPlayers (g : GameState.t) : list GamePlayer.t :=
  List.filter (fun p => negb (GamePlayer.isHuman p) && GamePlayer.alive p)
              (GameState.players g).

(** The phase a handler hands to [transitionTo] when it runs to its end
    (delays and simulated actions left aside), with the controller as
    [checkGameEnd] leaves it; [None] where the handler makes no
    transition. [getNextNightPhase] is the function of store/game-machine. *)
Definition handlerTarget (getNextNightPhase : Phase -> GameState.t -> Phase)
    (hc : HostController.t) : option Phase * HostController.t :=
  match HostController.currentGameState hc with
  | None => (None, hc)
  | Some g =>
      match GameState.phase g with
      | SETUP => (Some NIGHT_START, hc)
      | NIGHT_START => (Some (getNextNightPhase NIGHT_START g), hc)
      | NIGHT_GUARD_ACTION | NIGHT_WOLF_ACTION | NIGHT_WITCH_ACTION
      | NIGHT_SEER_ACTION => (Some (getNextNightPhase (GameState.phase g) g), hc)
      | NIGHT_RESOLVE =>
          let '(over, hc1) := HostController.checkGameEnd hc in
          if over then (Some GAME_END, hc1) else (Some DAY_START, hc1)
      | DAY_START =>
          if Z.eqb (GameState.day g) 1 then (Some DAY_BADGE_SIGNUP, hc)
          else (Some DAY_SPEECH, hc)
      | DAY_SPEECH | DAY_BADGE_SPEECH | DAY_PK_SPEECH =>
          match GameState.currentSpeakerSeat g with
          | None => (Some DAY_VOTE, hc)
          | Some _ => (None, hc)
          end
      | DAY_VOTE | DAY_BADGE_ELECTION => (Some DAY_RESOLVE, hc)
      | DAY_RESOLVE =>
          let '(over, hc1) := HostController.checkGameEnd hc in
          if over then (Some GAME_END, hc1) else (Some NIGHT_START, hc1)
      | GAME_END | DAY_BADGE_SIGNUP => (None, hc)
      end
  end.

End HostTurns.

(** ** store/multiplayer-atoms: the derived atoms

    Each derived atom is a function of the atoms it reads. *)

Module Atoms.

Definition roomIdAtom (room : option RoomState.t) : option string :=
  RoomState.id <$> room.

Definition currentMultiPlayerAtom (room : option RoomState.t) (playerId : string)
    : option Player.t :=
  room ≫= fun r => find (fun p => String.eqb (Player.id p) playerId) (RoomState.players r).

Definition multiPlayersAtom (room : option RoomState.t) : list Player.t :=
  from_option RoomState.players [] room.

Definition roomStatusAtom (room : option RoomState.t) : RoomStatus :=
  from_option RoomState.status waiting room.

Definition allReadyAtom (room : option RoomState.t) : bool :=
  match room with
  | None => false
  | Some r => forallb Player.isReady (RoomState.players r)
  end.

Definition multiplayerGameStateAtom (room : option RoomState.t) : option GameState.t :=
  room ≫= RoomState.gameState.

Definition currentGameSeatAtom (playerId : string) (mappings : list SeatMapping)
    : option nat :=
  gameSeat <$> find (fun m => String.eqb (multiPlayerId m) playerId) mappings.

Definition canStartGameAtom (room : option RoomState.t) (playerId : string) : bool :=
  isHostAtom room playerId && allReadyAtom room
  && Nat.leb 2 (length (multiPlayersAtom room)).

Definition isWaitingForOthersAtom (isMultiplayer : bool) (room : option RoomState.t)
    : bool :=
  match room with
  | Some r => isMultiplayer && bool_decide (RoomState.status r = waiting)
  | None => false
  end.

Definition currentTurnPlayerAtom (room : option RoomState.t)
    (mappings : list SeatMapping) : option SeatMapping :=
  match multiplayerGameStateAtom room with
  | None => None
  | Some gameState =>
      match GameState.currentSpeakerSeat gameState with
      | None => None
      | Some currentSeat =>
          find (fun m => Nat.eqb (gameSeat m) currentSeat) mappings
      end
  end.

Definition isMyTurnAtom (room : option RoomState.t) (mappings : list SeatMapping)
    (playerId : string) : bool :=
  match currentTurnPlayerAtom room mappings with
  | Some currentTurn => String.eqb (multiPlayerId currentTurn) playerId
  | None => false
  end.

End Atoms.

(** ** Reading a trace *)

Definition isGet (e : Event) : bool :=
  match e with GetRoomCall _ _ => true | _ => false end.

Definition isSave (e : Event) : bool :=
  match e with SaveRoomCall _ _ => true | _ => false end.

Definition isFailedSave (e : Event) : bool :=
  match e with SaveRoomCall _ false => true | _ => false end.

Definition sleptMs (e : Event) : option Z :=
  match e with Slept ms => Some ms | _ => None end.

Definition calledWith (e : Event) : option Callback :=
  match e with Called c => Some c | _ => None end.

Definition gets (tr : list Event) : nat := length (List.filter isGet tr).
Definition saves (tr : list Event) : nat := length (List.filter isSave tr).
Definition failedSaves (tr : list Event) : nat := length (List.filter isFailedSave tr).
Definition sleeps (tr : list Event) : list Z := omap sleptMs tr.
Definition callbacks (tr : list Event) : list Callback := omap calledWith tr.

(** The waits of [k] consecutive failed attempts starting at loop counter
    [i]: [100 * (i + 1)], [100 * (i + 2)], ... *)
Definition backoff (i k : nat) : list Z :=
  map (fun a => 100 * (Z.of_nat a + 1)) (seq i k).

(** ** Sample data for the scenarios below *)

Definition alice : Player.t := Player.mk "p-alice" "Alice" true true true 0.
Definition bob : Player.t := Player.mk "p-bob" "Bob" false false true 0.

(** A lobby at version 5: Alice hosts and is ready, Bob is not ready. *)
Definition lobby5 : RoomState.t :=
  RoomState.mk "ROOM-1" 5 "p-alice" waiting [alice; bob] None 0 0.

(** A sync manager on that room whose observer records each room it is
    handed. *)
Definition recorder : Observer := fun room => [OnRoomUpdate room].

Definition sync1 : SyncManager.t :=
  SyncManager.setOnUpdate recorder (SyncManager.new "ROOM-1").

(** The store holds [lobby5] and refuses its next [k] writes. *)
Definition flakyWorld (k : nat) : World FlakyStore :=
  mkWorld (mkFlaky {["ROOM-1" := lobby5]} k) 1000 ∅ 1 [].

(** The store holds [r] and accepts every write. *)
Definition memWorld (r : RoomState.t) : World (gmap string RoomState.t) :=
  mkWorld {[RoomState.id r := r]} 1000 ∅ 1 [].

(** An updater that hands back its argument with the version rewound. *)
Definition rewindVersion (r : RoomState.t) : RoomState.t :=
  RoomState.mk (RoomState.id r) 0 (RoomState.hostId r) (RoomState.status r)
    (RoomState.players r) (RoomState.gameState r) (RoomState.createdAt r)
    (RoomState.updatedAt r).

(** A finished game left in the store at version 5. *)
Definition finished5 : RoomState.t :=
  RoomState.mk "ROOM-1" 5 "p-alice" ended [alice; bob] None 0 0.

(** A client that has initialised its storage but is in no room yet. *)
Definition freshClient (pid pname : string) : MultiplayerManager.t :=
  MultiplayerManager.initialize true "ROOM-1" (MultiplayerManager.new pid (Some pname)).

(** [lobby5] after a locked update at clock 1000 that starts the game. *)
Definition started6 : RoomState.t :=
  RoomState.mk "ROOM-1" 6 "p-alice" playing [alice; bob] None 0 1000.

(** ** The host invariant *)

(** Exactly one player carries [isHost], and it is the player named by
    [hostId]. *)
Definition hostInvariant (r : RoomState.t) : bool :=
  match List.filter Player.isHost (RoomState.players r) with
  | [h] => String.eqb (Player.id h) (RoomState.hostId r)
  | _ => false
  end.

(** ** Three clients on one store

    Each client is its own [MultiplayerManager.t]; they are run one call at
    a time against one [World], whose store they share. Timer ids come from
    one counter, which keeps the timers of different clients apart. *)

Definition emptyWorld : World (gmap string RoomState.t) := mkWorld ∅ 1000 ∅ 1 [].

Definition clientA : MultiplayerManager.t := freshClient "p-alice" "Alice".
Definition clientB : MultiplayerManager.t := freshClient "p-bob" "Bob".
Definition clientC : MultiplayerManager.t := freshClient "p-carol" "Carol".

(** Alice creates the room, Bob and Carol join, Alice (the host) leaves:
    the clients of Bob and Carol and the world at that point. *)
Definition afterHostLeft
    : MultiplayerManager.t * MultiplayerManager.t * World (gmap string RoomState.t) :=
  let '(_, a, w) := MultiplayerManager.createRoom None clientA emptyWorld in
  let '(_, b, w) := MultiplayerManager.joinRoom None clientB w in
  let '(_, c, w) := MultiplayerManager.joinRoom None clientC w in
  let '(_, w) := MultiplayerManager.leaveRoom a w in
  (b, c, w).

(** Then Bob, to whom the room has passed, leaves as well. *)
Definition afterSuccessorLeft : World (gmap string RoomState.t) :=
  let '(b, _, w) := afterHostLeft in
  (MultiplayerManager.leaveRoom b w).2.

(** ** Starting the game *)

(** Alice creates the room and Bob joins; Bob has not pressed ready. *)
Definition lobbyOfTwo
    : MultiplayerManager.t * MultiplayerManager.t * World (gmap string RoomState.t) :=
  let '(_, a, w) := MultiplayerManager.createRoom None clientA emptyWorld in
  let '(_, b, w) := MultiplayerManager.joinRoom None clientB w in
  (a, b, w).

(** The same lobby with everybody ready, in a store that refuses writes. *)
Definition readyLobby : RoomState.t :=
  RoomState.mk "ROOM-1" 2 "p-alice" waiting
    [alice; Player.with_isReady true bob] None 1000 1000.

Definition refusingWorld : World FlakyStore :=
  mkWorld (mkFlaky {["ROOM-1" := readyLobby]} 3) 1000 ∅ 1 [].

(** ** Counting the living *)

Fixpoint countWhere {A} (f : A -> bool) (l : list A) : nat :=
  match l with
  | [] => 0
  | x :: l => ((if f x then 1 else 0) + countWhere f l)%nat
  end.

Definition aliveWolfCount (g : GameState.t) : nat :=
  countWhere (fun p => GamePlayer.alive p && HostController.isWolf p)
             (GameState.players g).

Definition aliveOtherCount (g : GameState.t) : nat :=
  countWhere (fun p => GamePlayer.alive p && negb (HostController.isWolf p))
             (GameState.players g).

(** A seated player with the given role and life. *)
Definition seated (seat : nat) (role : Role) (alive : bool) : GamePlayer.t :=
  GamePlayer.mk ("player-" +:+ pretty seat) seat ("P" +:+ pretty seat) alive
    (Some role) (GameSync.getAlignment (Some role)) true.

Definition gameOf (ps : list GamePlayer.t) : GameState.t :=
  GameState.mk NIGHT_RESOLVE 1 ps None None normal.

(** Two wolves and two others alive, one villager dead. *)
Definition twoVersusTwo : GameState.t :=
  gameOf [seated 1 Werewolf true; seated 2 Seer true; seated 3 Werewolf true;
          seated 4 Villager false; seated 5 Villager true].

(** No wolf alive. *)
Definition wolvesGone : GameState.t :=
  gameOf [seated 1 Werewolf false; seated 2 Seer true; seated 3 Villager true].

(** One wolf against five others. *)
Definition oneVersusFive : GameState.t :=
  gameOf [seated 1 Werewolf true; seated 2 Seer true; seated 3 Witch true;
          seated 4 Villager true; seated 5 Villager true; seated 6 Hunter true].

Definition controllerOn (g : GameState.t) : HostController.t :=
  HostController.mk true (Some g) None.

(** ** Participants and role counts *)

Definition participant (k : nat) : Player.t :=
  Player.mk ("p-" +:+ pretty k) ("N" +:+ pretty k) (bool_decide (k = 1%nat))
            true true 0.

(** The first [n] participants, in join order. *)
Definition participants (n : nat) : list Player.t := map participant (seq 1 n).

Definition roleCount (r : Role) (ps : list GamePlayer.t) : nat :=
  countWhere (fun p => bool_decide (GamePlayer.role p = Some r)) ps.

Definition rolesCount (r : Role) (roles : list Role) : nat :=
  countWhere (fun x => bool_decide (x = r)) roles.

Definition blankGame : GameState.t := GameState.mk SETUP 0 [] None None normal.

(** ** The successor host *)

(** After Alice has left, Bob's polling loop ticks, and Bob and Carol press
    ready: Bob's client and the world. *)
Definition successorReady
    : MultiplayerManager.t * World (gmap string RoomState.t) :=
  let '(b, c, w) := afterHostLeft in
  let '(b, w) := MultiplayerManager.syncTick b w in
  let '(b, w) := MultiplayerManager.setReady true b w in
  let '(c, w) := MultiplayerManager.setReady true c w in
  let '(b, w) := MultiplayerManager.syncTick b w in
  (b, w).

(** The room Bob's client was last told about. *)
Definition lastRoomSeen (tr : list Event) : option RoomState.t :=
  last (omap (fun c => match c with OnRoomUpdate r => Some r | _ => None end)
             (callbacks tr)).

(** ** Stopping in mid-poll *)

(** The sync manager is started: its first poll is waiting for its fetch. *)
Definition pollInFlight : SyncManager.t * World (gmap string RoomState.t) :=
  SyncManager.start waiting sync1 (memWorld lobby5).

(** [stop()] is called at that moment. *)
Definition stoppedInFlight : SyncManager.t * World (gmap string RoomState.t) :=
  SyncManager.stop pollInFlight.1 pollInFlight.2.

(** Then the fetch comes back with the room. *)
Definition resumedAfterStop : SyncManager.t * World (gmap string RoomState.t) :=
  SyncManager.poll_resume (Resolved (Some lobby5)) stoppedInFlight.1 stoppedInFlight.2.

(** And the timer the resumed poll has set fires. *)
Definition firedAfterStop : SyncManager.t * World (gmap string RoomState.t) :=
  SyncManager.timer_fires 1 resumedAfterStop.1 resumedAfterStop.2.

(** By contrast: the first poll completes, and [stop()] is called while
    the next one is only scheduled. *)
Definition stoppedWhileScheduled : SyncManager.t * World (gmap string RoomState.t) :=
  let '(sm, w) := SyncManager.poll_resume (Resolved (Some lobby5))
                    pollInFlight.1 pollInFlight.2 in
  SyncManager.stop sm w.

(** The versions of the rooms the observer was handed, in order. *)
Definition reportedVersions (tr : list Event) : list Z :=
  omap (fun e => match e with
                 | Called (OnRoomUpdate r) => Some (RoomState.version r)
                 | _ => None
                 end) tr.

(** The versions a polling loop that has seen version [seen] is to report
    over the fetch results, as the specification words it: each fetched
    room whose version is strictly above the last-seen one, which then
    becomes the last-seen version. *)
Fixpoint newerVersions (seen : Z) (results : list FetchResult) : list Z :=
  match results with
  | [] => []
  | Resolved (Some room) :: rest =>
      if seen <? RoomState.version room
      then RoomState.version room :: newerVersions (RoomState.version room) rest
      else newerVersions seen rest
  | _ :: rest => newerVersions seen rest
  end.

(** The lobby as an older and as a newer copy. *)
Definition lobbyAt (v : Z) : RoomState.t :=
  RoomState.mk "ROOM-1" v "p-alice" waiting [alice; bob] None 0 0.

(** A sync manager that has seen version 5 and whose poll is in flight. *)
Definition syncAt5 : SyncManager.t :=
  SyncManager.poll_begin waiting (SyncManager.with_lastVersion 5 sync1).

(** ** Stopping the host controller in mid-vote *)

(** A vote is on; seat 1 is a human, seat 2 a simulated player. *)
Definition voteGame : GameState.t :=
  GameState.mk DAY_VOTE 1
    [GamePlayer.mk "player-1" 1 "Alice" true (Some Seer) village true;
     GamePlayer.mk "ai-2" 2 "AI-2" true (Some Werewolf) wolf false;
     GamePlayer.mk "ai-3" 3 "AI-3" false (Some Villager) village false]
    None None normal.

Definition hostIdle : HostController.Running :=
  HostController.mkRunning (HostController.mk false None None) HostController.Idle ∅ 1 [].

(** [start]: the vote handler waits before the simulated player acts. *)
Definition voteStarted : HostController.Running :=
  HostController.start voteGame hostIdle.

(** The wait is over and the simulated player's action has been requested. *)
Definition voteActionInFlight : HostController.Running :=
  HostController.timerFires 1 voteStarted.

(** [stop()] is called at that moment; then the action's promise settles,
    and the timers set from then on fire in turn. *)
Definition voteStoppedInFlight : HostController.Running :=
  HostController.stop voteActionInFlight.

Definition voteAfterStop : HostController.Running :=
  HostController.timerFires 2 (HostController.callSettles voteStoppedInFlight).

Definition voteChainEnds : HostController.Running :=
  HostController.timerFires 3 (HostController.callSettles voteAfterStop).

(** [lobby5] once Carol has joined at clock 1000. *)
Definition lobby6WithCarol : RoomState.t :=
  RoomState.mk "ROOM-1" 6 "p-alice" waiting
    [alice; bob; Player.mk "p-carol" "Carol" false false true 1000] None 0 1000.

(** The room Carol creates over the finished one. *)
Definition carolsRoom : RoomState.t :=
  RoomState.mk "ROOM-1" 1 "p-carol" waiting
    [Player.mk "p-carol" "Carol" true true true 1000] None 1000 1000.

(** The room of [lobbyOfTwo], as stored. *)
Definition lobbyOfTwoRoom : RoomState.t :=
  RoomState.mk "ROOM-1" 2 "p-alice" waiting
    [Player.mk "p-alice" "Alice" true true true 1000;
     Player.mk "p-bob" "Bob" false false true 1000] None 1000 1000.

(** ** An undisturbed vote

    The timer the controller set last runs out. *)
Definition fireCurrent (r : HostController.Running) : HostController.Running :=
  match HostController.aiActionTimeout (HostController.controller r) with
  | Some tid => HostController.timerFires tid r
  | None => r
  end.

(** One simulated player's turn in [handleVote]: the delay before it runs
    out, the action is requested, and the action's promise settles. *)
Definition voteTurn (r : HostController.Running) : HostController.Running :=
  HostController.callSettles (fireCurrent r).

Fixpoint voteTurns (n : nat) (r : HostController.Running) : HostController.Running :=
  match n with
  | O => r
  | Datatypes.S n => voteTurns n (voteTurn r)
  end.

Definition voteCall (p : GamePlayer.t) : HostController.ConfigCall :=
  HostController.AIAction (GamePlayer.playerId p) "vote".

(** ** Sample data for the further properties *)

(** The sync manager a client holds. *)
Definition syncOf (m : MultiplayerManager.t) : SyncManager.t :=
  default (SyncManager.new EmptyString) (MultiplayerManager.sync m).

(** The room a store holds under [ROOM-1]. *)
Definition storedRoom (w : World (gmap string RoomState.t)) : RoomState.t :=
  default lobby5 (store w !! "ROOM-1").

(** A game in a speech phase in which seat 2 speaks, and rooms that carry
    it and the vote of [voteGame]. *)
Definition speechGame : GameState.t :=
  GameState.mk DAY_SPEECH 1 [seated 1 Seer true; seated 2 Werewolf true]
    (Some 2%nat) None normal.

Definition speechRoom : RoomState.t :=
  RoomState.mk "ROOM-1" 7 "p-alice" playing [alice; bob] (Some speechGame) 0 0.

Definition voteRoom : RoomState.t :=
  RoomState.mk "ROOM-1" 8 "p-alice" playing [alice; bob] (Some voteGame) 0 0.

(** The wolves' night: seat 1 is a human, seats 2 and 3 are simulated. *)
Definition wolfNight : GameState.t :=
  GameState.mk NIGHT_WOLF_ACTION 1
    [GamePlayer.mk "player-1" 1 "Alice" true (Some Seer) village true;
     GamePlayer.mk "ai-2" 2 "AI-2" true (Some Werewolf) wolf false;
     GamePlayer.mk "ai-3" 3 "AI-3" true (Some Villager) village false]
    None None normal.

(** A queue with no action yet, and one with the vote of the simulated
    player. *)
Definition emptyQueue : MultiplayerGameData := mkGameData voteGame [] 0 "p-alice".

Definition oneVote : MultiplayerGameData :=
  mkGameData voteGame [Vote "ai-2" 1] 0 "p-alice".

(** The first poll of [pollInFlight] has completed and the next one is
    scheduled. *)
Definition pollScheduled : SyncManager.t * World (gmap string RoomState.t) :=
  SyncManager.poll_resume (Resolved (Some lobby5)) pollInFlight.1 pollInFlight.2.

(** The two clients of [lobbyOfTwo] and the world they share. *)
Definition hostClient : MultiplayerManager.t := lobbyOfTwo.1.1.
Definition guestClient : MultiplayerManager.t := lobbyOfTwo.1.2.
Definition lobbyWorld : World (gmap string RoomState.t) := lobbyOfTwo.2.

(** Carol's client holding a sync manager on the room without being a
    member. *)
Definition strangerClient : MultiplayerManager.t :=
  MultiplayerManager.with_sync (Some (syncOf guestClient)) clientC.

(** Alice has created the room and is alone in it. *)
Definition aliceAlone : MultiplayerManager.t * World (gmap string RoomState.t) :=
  let '(_, a, w) := MultiplayerManager.createRoom None clientA emptyWorld in (a, w).

(** [lobbyOfTwo] once Bob has pressed ready: Alice's client and the world. *)
Definition readyToStart : MultiplayerManager.t * World (gmap string RoomState.t) :=
  let '(a, b, w) := lobbyOfTwo in
  let '(_, w) := MultiplayerManager.setReady true b w in
  (a, w).

(** A finished game, as a controller would hold it. *)
Definition overGame : GameState.t := GameState.with_phase GAME_END twoVersusTwo.

(** A stand-in for [getNextNightPhase] that always answers [NIGHT_RESOLVE]. *)
Definition straightToResolve (_ : Phase) (_ : GameState.t) : Phase := NIGHT_RESOLVE.

(** How often [onGameStart] was called. *)
Definition gameStarts (tr : list Event) : nat :=
  length (List.filter (fun c => match c with OnGameStart => true | _ => false end)
                      (callbacks tr)).

(** The room of a running game at version [v]. *)
Definition playingAt (v : Z) : RoomState.t :=
  RoomState.mk "ROOM-1" v "p-alice" playing [alice; bob] None 0 0.

(** Bob's sync manager as [startSync] sets it up on the lobby. *)
Definition watcher : SyncManager.t :=
  syncOf (MultiplayerManager.startSync lobby5 clientB (memWorld lobby5)).1.

(** A client that has initialised its storage and has no name yet. *)
Definition namelessClient : MultiplayerManager.t :=
  MultiplayerManager.initialize true "ROOM-1" (MultiplayerManager.new "p-dora" None).

(** Closes a decidable goal by evaluating its decision procedure. *)
Ltac by_computation := apply (bool_decide_unpack _); vm_compute; exact I.

(** * Properties *)

Section SyncFacts.
Context {S : Type} `{IGameStorage S}.

Lemma sleeps_app (a b : list Event) : sleeps (a ++ b) = sleeps a ++ sleeps b.
Proof. unfold sleeps. apply omap_app. Qed.

Lemma sleeps_called (cs : list Callback) : sleeps (map Called cs) = [].
Proof. induction cs as [|c cs IH]; [done | exact IH]. Qed.

Lemma gets_app (a b : list Event) : gets (a ++ b) = (gets a + gets b)%nat.
Proof. unfold gets. by rewrite List.filter_app, length_app. Qed.

Lemma saves_app (a b : list Event) : saves (a ++ b) = (saves a + saves b)%nat.
Proof. unfold saves. by rewrite List.filter_app, length_app. Qed.

Lemma failedSaves_app (a b : list Event) :
  failedSaves (a ++ b) = (failedSaves a + failedSaves b)%nat.
Proof. unfold failedSaves. by rewrite List.filter_app, length_app. Qed.

Lemma gets_called (cs : list Callback) : gets (map Called cs) = 0%nat.
Proof. induction cs as [|c cs IH]; [done | exact IH]. Qed.

Lemma saves_called (cs : list Callback) : saves (map Called cs) = 0%nat.
Proof. induction cs as [|c cs IH]; [done | exact IH]. Qed.

Lemma failedSaves_called (cs : list Callback) : failedSaves (map Called cs) = 0%nat.
Proof. induction cs as [|c cs IH]; [done | exact IH]. Qed.

Lemma backoff_cons (i k : nat) :
  backoff i (Datatypes.S k) = 100 * (Z.of_nat i + 1) :: backoff (Datatypes.S i) k.
Proof. reflexivity. Qed.

Lemma backoff_lookup (i k j : nat) :
  (j < k)%nat → backoff i k !! j = Some (100 * (Z.of_nat (i + j) + 1)).
Proof.
  intros Hj. unfold backoff. rewrite list_lookup_fmap, lookup_seq_lt by done. done.
Qed.

Lemma backoff_increasing (i k : nat) : StronglySorted Z.lt (backoff i k).
Proof.
  revert i. induction k as [|k IH]; intros i; [constructor|].
  rewrite backoff_cons. constructor; [apply IH|].
  apply Forall_forall. intros x Hx. unfold backoff in Hx.
  apply list_elem_of_fmap in Hx as (a & -> & Ha). apply elem_of_seq in Ha. lia.
Qed.

(** What one run of the retry loop adds to the trace: one fetch per
    attempt, one write per attempt that found the room, one wait per refused
    write; the run ends with the first accepted write, with the first fetch
    that finds no room, or when [left] writes have been refused. *)
Lemma updateWithLock_loop_attempts updater left i sm (w : World S) :
  ∃ tr, log (SyncManager.updateWithLock_loop updater left i sm w).2 = log w ++ tr
    ∧ (failedSaves tr ≤ left)%nat
    ∧ gets tr = Nat.min left (Datatypes.S (failedSaves tr))
    ∧ saves tr
      = (failedSaves tr
         + match (SyncManager.updateWithLock_loop updater left i sm w).1.1 with
           | Some _ => 1
           | None => 0
           end)%nat
    ∧ sleeps tr = backoff i (failedSaves tr)
    ∧ ((SyncManager.updateWithLock_loop updater left i sm w).1.1 = None
       ↔ failedSaves tr = left ∨ ∃ rid, GetRoomCall rid None ∈ tr).
Proof.
  revert i w. induction left as [|left IH]; intros i w; simpl.
  - exists [ConsoleError "[SyncManager] Update failed after retries"].
    split_and!; try done. split; [by left | done].
  - unfold storageGet.
    destruct (getRoom (SyncManager.roomId sm) (store w)) as [[room|] s1] eqn:Hget.
    + cbn [clock]. unfold storageSave; cbn [store clock timers nextTimer log].
      destruct (saveRoom _ s1) as [[|] s2] eqn:Hsave.
      * eexists ([GetRoomCall _ _; SaveRoomCall _ true] ++ map Called _).
        cbn [fst snd]. unfold call, emit; cbn [log].
        rewrite <- !app_assoc. split; [reflexivity|].
        rewrite gets_app, saves_app, failedSaves_app, sleeps_app,
          gets_called, saves_called, failedSaves_called, sleeps_called.
        cbn. split_and!; try done; try lia.
        split; [done|]. intros [Hx | (rid & Hin)]; [done|]. exfalso.
        apply elem_of_cons in Hin as [Hin|Hin]; [discriminate|].
        apply elem_of_cons in Hin as [Hin|Hin]; [discriminate|].
        apply list_elem_of_fmap in Hin as (c & Hc & _). discriminate.
      * match goal with |- context [SyncManager.updateWithLock_loop _ _ _ _ ?w'] =>
          destruct (IH (Datatypes.S i) w')
            as (tr & Hlog & Hf & Hg & Hs & Hsl & Hnone) end.
        unfold sleep in *; cbn [log] in *.
        eexists ([GetRoomCall _ _; SaveRoomCall _ false; Slept _] ++ tr).
        split; [rewrite Hlog; rewrite <- !app_assoc; reflexivity|].
        rewrite gets_app, saves_app, failedSaves_app, sleeps_app.
        change (gets [GetRoomCall _ _; SaveRoomCall _ false; Slept _]) with 1%nat.
        change (saves [GetRoomCall _ _; SaveRoomCall _ false; Slept _]) with 1%nat.
        change (failedSaves [GetRoomCall _ _; SaveRoomCall _ false; Slept _]) with 1%nat.
        cbn [Nat.add]. rewrite backoff_cons, Hsl.
        split_and!; try lia; try done.
        rewrite Hnone. split.
        -- intros [Hx | (rid & Hin)]; [left; lia|].
           right. exists rid. apply elem_of_app. by right.
        -- intros [Hx | (rid & Hin)]; [left; lia|].
           right. exists rid.
           apply elem_of_app in Hin as [Hin|Hin]; [|done].
           exfalso. repeat (apply elem_of_cons in Hin as [Hin|Hin]; [discriminate|]).
           by apply elem_of_nil in Hin.
    + exists [GetRoomCall (SyncManager.roomId sm) None]. cbn.
      split_and!; try done; try lia.
      split; [|done]. intros _. right. exists (SyncManager.roomId sm).
      apply list_elem_of_here.
Qed.

End SyncFacts.

(** ** The version written by a locked update *)

Section LockedUpdateFacts.
Context {S : Type} `{IGameStorage S}.

(** A successful run ends with a fetch, the accepted write of the updater's
    result on the bumped copy, and the observer's callbacks. *)
Lemma updateWithLock_loop_success updater left i sm (w : World S) r :
  (SyncManager.updateWithLock_loop updater left i sm w).1.1 = Some r →
  ∃ pre fetched now,
    log (SyncManager.updateWithLock_loop updater left i sm w).2
      = log w ++ pre
          ++ [GetRoomCall (SyncManager.roomId sm) (Some fetched); SaveRoomCall r true]
          ++ map Called (SyncManager.notify
                           (SyncManager.updateWithLock_loop updater left i sm w).1.2 r)
    ∧ r = updater (RoomState.bump now fetched)
    ∧ SyncManager.lastVersion
        (SyncManager.updateWithLock_loop updater left i sm w).1.2 = RoomState.version r.
Proof.
  revert i w. induction left as [|left IH]; intros i w; simpl; [discriminate|].
  unfold storageGet.
  destruct (getRoom (SyncManager.roomId sm) (store w)) as [[room|] s1]; [|discriminate].
  cbn [clock]. unfold storageSave; cbn [store clock timers nextTimer log].
  destruct (saveRoom _ s1) as [[|] s2].
  - cbn [fst snd]. intros [= <-]. exists [], room, (clock w).
    unfold call, emit; cbn [log]. rewrite <- !app_assoc. by split_and!.
  - intros Hr. destruct (IH _ _ Hr) as (pre & fetched & now & Hlog & Hupd & Hlast).
    exists ([GetRoomCall (SyncManager.roomId sm) (Some room);
             SaveRoomCall (updater (RoomState.bump (clock w) room)) false;
             Slept (100 * (Z.of_nat i + 1))] ++ pre), fetched, now.
    split_and!; [|done|done].
    rewrite Hlog. unfold sleep; cbn [log]. by rewrite <- !app_assoc.
Qed.

End LockedUpdateFacts.

(** ** The retry loop of [updateWithLock] *)

(** Against the store that refuses its next [k] writes: the loop makes
    [k + 1] attempts if it is allowed as many, waiting after each refused
    write, and its last write lands; otherwise it makes [left] attempts and
    gives up. *)
Lemma updateWithLock_loop_flaky updater left :
  ∀ k i sm (w : World FlakyStore) room,
    objects (store w) !! SyncManager.roomId sm = Some room →
    failing (store w) = k →
    let run := SyncManager.updateWithLock_loop updater left i sm w in
    sleeps (log run.2) = sleeps (log w) ++ backoff i (Nat.min k left)
    ∧ gets (log run.2) = (gets (log w) + Nat.min (Datatypes.S k) left)%nat
    ∧ saves (log run.2) = (saves (log w) + Nat.min (Datatypes.S k) left)%nat
    ∧ failedSaves (log run.2) = (failedSaves (log w) + Nat.min k left)%nat
    ∧ ((k < left)%nat →
       let r := updater (RoomState.bump (clock w + foldr Z.add 0 (backoff i k)) room) in
       run.1.1 = Some r
       ∧ objects (store run.2) = <[RoomState.id r := r]> (objects (store w))
       ∧ failing (store run.2) = 0%nat)
    ∧ ((left ≤ k)%nat →
       run.1.1 = None
       ∧ objects (store run.2) = objects (store w)
       ∧ failing (store run.2) = (k - left)%nat).
Proof.
  induction left as [|left IH]; intros k i sm w room Hroom Hk.
  - simpl. rewrite sleeps_app, gets_app, saves_app, failedSaves_app.
    rewrite !Nat.min_0_r. cbn. rewrite app_nil_r, !Nat.add_0_r.
    split_and!; try done; [lia|]. intros _. split_and!; [done..|lia].
  - destruct w as [[objs f] c t nt l]. simpl in Hroom, Hk. subst f.
    cbn [SyncManager.updateWithLock_loop]. unfold storageGet.
    cbn [getRoom FlakyStorage store objects]. rewrite Hroom.
    cbn [clock]. unfold storageSave. cbn [saveRoom FlakyStorage store failing].
    destruct k as [|k].
    + cbn [fst snd store clock log objects failing timers nextTimer].
      unfold call, emit. cbn [log store].
      rewrite !sleeps_app, !gets_app, !saves_app, !failedSaves_app,
        sleeps_called, gets_called, saves_called, failedSaves_called.
      cbn. rewrite !app_nil_r, Z.add_0_r.
      split_and!; try done; try lia.
    + cbn [fst snd store clock log objects failing timers nextTimer].
      match goal with |- context [SyncManager.updateWithLock_loop _ _ _ _ ?w'] =>
        pose proof (IH k (Datatypes.S i) sm w' room Hroom eq_refl) as Hrest;
        destruct (SyncManager.updateWithLock_loop updater left (Datatypes.S i) sm w')
          as [[res sm'] w2] end.
      unfold sleep in Hrest. cbn [fst snd log store clock objects failing] in Hrest.
      destruct Hrest as (Hsl & Hg & Hs & Hf & Hok & Hno).
      cbn [fst snd]. rewrite Hsl, Hg, Hs, Hf.
      rewrite !sleeps_app, !gets_app, !saves_app, !failedSaves_app.
      cbn [Nat.min]. rewrite backoff_cons. cbn.
      rewrite <- !app_assoc. split_and!; try done; try lia.
      * intros Hlt. destruct Hok as (Hr & Hst & Hfl); [lia|].
        rewrite Hr, Hst, Hfl. split_and!; try done.
        -- by rewrite Z.add_assoc.
        -- by rewrite Z.add_assoc.
      * intros Hle. destruct Hno as (Hr & Hst & Hfl); [lia|].
        rewrite Hr, Hst, Hfl. done.
Qed.

(** C1. [updateWithLock] answers null when a fetch finds no room. Every
    attempt starts with a fetch and, if the room is there, writes the
    updater's result on the bumped copy; each refused write is followed by
    a wait and, while attempts remain, by a new attempt. The waits are
    100 ms times the attempt number, so they increase. No more than
    [maxRetries] attempts are made, and the answer is null exactly when all
    of them were refused or a fetch found no room. Against a store that
    refuses its first [k] writes the call makes [k + 1] attempts and its
    last write lands if [k < maxRetries], and makes [maxRetries] attempts
    and answers null otherwise: with two refused writes, a room when
    [maxRetries >= 3] and null when [maxRetries = 2]. *)
Theorem updateWithLock_bounded_retry :
  (∀ (S : Type) (HS : IGameStorage S) updater maxRetries sm (w : World S),
     let run := SyncManager.updateWithLock updater maxRetries sm w in
     ∃ tr, log run.2 = log w ++ tr
       ∧ ((getRoom (SyncManager.roomId sm) (store w)).1 = None →
          run.1.1 = None
          ∧ ((0 < maxRetries)%nat → tr = [GetRoomCall (SyncManager.roomId sm) None]))
       ∧ (run.1.1 = None
          ↔ failedSaves tr = maxRetries ∨ ∃ rid, GetRoomCall rid None ∈ tr)
       ∧ (failedSaves tr ≤ maxRetries)%nat
       ∧ gets tr = Nat.min maxRetries (Datatypes.S (failedSaves tr))
       ∧ saves tr = (failedSaves tr + match run.1.1 with Some _ => 1 | None => 0 end)%nat
       ∧ sleeps tr = backoff 0 (failedSaves tr)
       ∧ (∀ r, run.1.1 = Some r →
          ∃ pre fetched now,
            tr = pre ++ [GetRoomCall (SyncManager.roomId sm) (Some fetched);
                         SaveRoomCall r true]
                     ++ map Called (SyncManager.notify run.1.2 r)
            ∧ r = updater (RoomState.bump now fetched)))
  ∧ (∀ k j, (j < k)%nat →
       backoff 0 k !! j = Some (100 * (Z.of_nat j + 1))
       ∧ StronglySorted Z.lt (backoff 0 k))
  ∧ (∀ updater maxRetries sm (w : World FlakyStore) room k,
       objects (store w) !! SyncManager.roomId sm = Some room →
       failing (store w) = k →
       let run := SyncManager.updateWithLock updater maxRetries sm w in
       sleeps (log run.2) = sleeps (log w) ++ backoff 0 (Nat.min k maxRetries)
       ∧ gets (log run.2) = (gets (log w) + Nat.min (Datatypes.S k) maxRetries)%nat
       ∧ saves (log run.2) = (saves (log w) + Nat.min (Datatypes.S k) maxRetries)%nat
       ∧ failedSaves (log run.2) = (failedSaves (log w) + Nat.min k maxRetries)%nat
       ∧ ((k < maxRetries)%nat →
          let r := updater (RoomState.bump (clock w + foldr Z.add 0 (backoff 0 k))
                              room) in
          run.1.1 = Some r
          ∧ objects (store run.2) = <[RoomState.id r := r]> (objects (store w))
          ∧ failing (store run.2) = 0%nat)
       ∧ ((maxRetries ≤ k)%nat →
          run.1.1 = None
          ∧ objects (store run.2) = objects (store w)
          ∧ failing (store run.2) = (k - maxRetries)%nat))
  ∧ (∀ updater maxRetries sm (w : World FlakyStore) room,
       objects (store w) !! SyncManager.roomId sm = Some room →
       failing (store w) = 2%nat →
       ((3 ≤ maxRetries)%nat →
        is_Some (SyncManager.updateWithLock updater maxRetries sm w).1.1)
       ∧ (maxRetries = 2%nat →
          (SyncManager.updateWithLock updater maxRetries sm w).1.1 = None)).
Proof.
  split_and!.
  - intros S HS updater maxRetries sm w run.
    destruct (updateWithLock_loop_attempts updater maxRetries 0 sm w)
      as (tr & Hlog & Hf & Hg & Hs & Hsl & Hnone).
    exists tr. subst run. unfold SyncManager.updateWithLock.
    split_and!; try done.
    + intros Habsent. revert Hlog.
      destruct maxRetries as [|n]; [intros _; split; [done | lia]|]. simpl.
      unfold storageGet. destruct (getRoom _ (store w)) as [r s1].
      simpl in Habsent. subst r. simpl. intros Hlog. split; [done|]. intros _.
      by apply app_inv_head in Hlog.
    + intros r Hr.
      destruct (updateWithLock_loop_success updater maxRetries 0 sm w r Hr)
        as (pre & fetched & now & Hlog' & Hupd & _).
      exists pre, fetched, now. split; [|done].
      rewrite Hlog in Hlog'. by apply app_inv_head in Hlog'.
  - intros k j Hj. split; [|apply backoff_increasing].
    by rewrite backoff_lookup.
  - intros updater maxRetries sm w room k Hroom Hk.
    by apply updateWithLock_loop_flaky.
  - intros updater maxRetries sm w room Hroom Hfail.
    pose proof (updateWithLock_loop_flaky updater maxRetries 2 0 sm w room Hroom Hfail)
      as (_ & _ & _ & _ & Hok & Hno).
    unfold SyncManager.updateWithLock. split.
    + intros Hn. destruct Hok as (-> & _); [lia | eauto].
    + intros ->. by destruct Hno as (-> & _).
Qed.

Lemma updateWithLock_bounded_retry_witness :
  ((SyncManager.updateWithLock (RoomState.with_status playing) 3 sync1
      (flakyWorld 2)).1.1
   = Some (RoomState.mk "ROOM-1" 6 "p-alice" playing [alice; bob] None 0 1300)
   ∧ sleeps (log (SyncManager.updateWithLock (RoomState.with_status playing) 3 sync1
                    (flakyWorld 2)).2) = [100; 200]
   ∧ gets (log (SyncManager.updateWithLock (RoomState.with_status playing) 3 sync1
                  (flakyWorld 2)).2) = 3%nat
   ∧ saves (log (SyncManager.updateWithLock (RoomState.with_status playing) 3 sync1
                   (flakyWorld 2)).2) = 3%nat)
  ∧ is_Some (SyncManager.updateWithLock (RoomState.with_status playing) 3 sync1
               (flakyWorld 2)).1.1
  ∧ (SyncManager.updateWithLock (RoomState.with_status playing) 2 sync1
       (flakyWorld 2)).1.1 = None
  ∧ ((SyncManager.updateWithLock (RoomState.with_status playing) 2 sync1
        (flakyWorld 5)).1.1 = None
     ∧ failing (store (SyncManager.updateWithLock (RoomState.with_status playing) 2
                         sync1 (flakyWorld 5)).2) = 3%nat)
  ∧ (SyncManager.updateWithLock (RoomState.with_status playing) 3 sync1
       emptyWorld).1.1 = None
  ∧ backoff 0 3 !! 2%nat = Some 300.
Proof.
  destruct updateWithLock_bounded_retry as (Hany & Hwaits & Hflaky & Htwo).
  refine (conj _ (conj _ (conj _ (conj _ (conj _ _))))).
  - destruct (Hflaky (RoomState.with_status playing) 3%nat sync1 (flakyWorld 2) lobby5
                2%nat eq_refl eq_refl) as (Hsl & Hg & Hs & _ & Hok & _).
    destruct Hok as (Hr & _); [lia|].
    exact (conj Hr (conj Hsl (conj Hg Hs))).
  - apply (Htwo (RoomState.with_status playing) 3%nat sync1 (flakyWorld 2) lobby5);
      [reflexivity | reflexivity | lia].
  - apply (Htwo (RoomState.with_status playing) 2%nat sync1 (flakyWorld 2) lobby5);
      reflexivity.
  - destruct (Hflaky (RoomState.with_status playing) 2%nat sync1 (flakyWorld 5) lobby5
                5%nat eq_refl eq_refl) as (_ & _ & _ & _ & _ & Hno).
    destruct Hno as (Hr & _ & Hfl); [lia|]. exact (conj Hr Hfl).
  - destruct (Hany _ MemStorage (RoomState.with_status playing) 3%nat sync1 emptyWorld)
      as (tr & _ & Habsent & _).
    apply Habsent. reflexivity.
  - apply (Hwaits 3%nat 2%nat). lia.
Defined.

Example updateWithLock_flaky_trace :
  sleeps (log (SyncManager.updateWithLock (RoomState.with_status playing) 3 sync1
                 (flakyWorld 2)).2) = [100; 200]
  ∧ saves (log (SyncManager.updateWithLock (RoomState.with_status playing) 3 sync1
                  (flakyWorld 2)).2) = 3%nat.
Proof. split; vm_compute; reflexivity. Qed.


(** ** JavaScript addition *)

Lemma add_safe a b : Number.safe (a + b) → Number.add a b = a + b.
Proof.
  unfold Number.safe, Number.add, Number.round. intros Hsafe.
  destruct (Z.ltb_spec (Z.abs (a + b)) Number.two53) as [_|Hge]; [done|lia].
Qed.

Lemma add_stalls : Number.add Number.two53 1 = Number.two53.
Proof. reflexivity. Qed.

Lemma createRoom_write {S : Type} `{IGameStorage S} nameArg m (w : World S) r :
  (MultiplayerManager.createRoom nameArg m w).1.1 = Some r →
  RoomState.version r = 1
  ∧ ∃ post,
      log (MultiplayerManager.createRoom nameArg m w).2
      = log w ++ [GetRoomCall (theString (MultiplayerManager.roomId m))
                    (getRoom (theString (MultiplayerManager.roomId m)) (store w)).1;
                  SaveRoomCall r true] ++ post.
Proof.
  unfold MultiplayerManager.createRoom.
  destruct (negb (MultiplayerManager.storage m) || falsy (MultiplayerManager.roomId m));
    [discriminate|].
  set (m1 := if falsy nameArg then m else _).
  destruct (falsy (MultiplayerManager.playerName m1)); [discriminate|].
  unfold storageGet.
  destruct (getRoom _ (store w)) as [fetched s1]. cbn [fst].
  destruct (match fetched with Some e => _ | None => false end); [discriminate|].
  unfold storageSave; cbn [store clock timers nextTimer log].
  destruct (saveRoom _ s1) as [[|] s2]; cbn [negb]; [|discriminate].
  unfold MultiplayerManager.startSync. cbn [MultiplayerManager.storage
    MultiplayerManager.roomId MultiplayerManager.with_isHost].
  destruct (negb (MultiplayerManager.storage m1) || falsy (MultiplayerManager.roomId m1)).
  - cbn. intros [= <-]. split; [done|]. rewrite <- !app_assoc. eauto.
  - unfold SyncManager.start, SyncManager.stop. cbn. intros [= <-].
    split; [done|]. rewrite <- !app_assoc. eauto.
Qed.

Lemma joinRoom_new_member_write {S : Type} `{IGameStorage S} nameArg m (w : World S) room r :
  (getRoom (theString (MultiplayerManager.roomId m)) (store w)).1 = Some room →
  find (fun p => String.eqb (Player.id p) (MultiplayerManager.playerId m))
       (RoomState.players room) = None →
  (MultiplayerManager.joinRoom nameArg m w).1.1 = Some r →
  RoomState.version r = Number.add (RoomState.version room) 1
  ∧ ∃ post, log (MultiplayerManager.joinRoom nameArg m w).2
            = log w ++ [GetRoomCall (theString (MultiplayerManager.roomId m)) (Some room);
                        SaveRoomCall r true] ++ post.
Proof.
  intros Hget Hfind. unfold MultiplayerManager.joinRoom.
  destruct (negb (MultiplayerManager.storage m) || falsy (MultiplayerManager.roomId m));
    [discriminate|].
  set (m1 := if falsy nameArg then m else _).
  assert (Hpid : MultiplayerManager.playerId m1 = MultiplayerManager.playerId m)
    by (subst m1; by destruct (falsy nameArg)).
  assert (Hrid : MultiplayerManager.roomId m1 = MultiplayerManager.roomId m)
    by (subst m1; by destruct (falsy nameArg)).
  destruct (falsy (MultiplayerManager.playerName m1)); [discriminate|].
  unfold storageGet.
  destruct (getRoom _ (store w)) as [fetched s1]. simpl in Hget. subst fetched.
  rewrite Hpid, Hfind.
  destruct (bool_decide (RoomState.status room = playing)); [discriminate|].
  unfold storageSave; cbn [store clock timers nextTimer log].
  destruct (saveRoom _ s1) as [[|] s2]; cbn [negb]; [|discriminate].
  unfold MultiplayerManager.startSync. cbn [MultiplayerManager.storage
    MultiplayerManager.roomId MultiplayerManager.with_isHost].
  destruct (negb (MultiplayerManager.storage m1) || falsy (MultiplayerManager.roomId m1)).
  - cbn. intros [= <-]. split; [done|]. rewrite <- !app_assoc. eauto.
  - unfold SyncManager.start, SyncManager.stop. cbn. intros [= <-].
    split; [done|]. rewrite <- !app_assoc. eauto.
Qed.

Lemma stop_store_log {S : Type} `{IGameStorage S} sm (w : World S) :
  store (SyncManager.stop sm w).2 = store w ∧ log (SyncManager.stop sm w).2 = log w
  ∧ clock (SyncManager.stop sm w).2 = clock w.
Proof. unfold SyncManager.stop. by destruct (SyncManager.intervalId sm). Qed.

Lemma leaveRoom_write {S : Type} `{IGameStorage S} m (w : World S) room :
  is_Some (MultiplayerManager.sync m) →
  negb (MultiplayerManager.storage m) || falsy (MultiplayerManager.roomId m) = false →
  (getRoom (theString (MultiplayerManager.roomId m)) (store w)).1 = Some room →
  filter (fun p => Player.id p ≠ MultiplayerManager.playerId m)
         (RoomState.players room) ≠ [] →
  ∃ r ok,
    log (MultiplayerManager.leaveRoom m w).2
      = log w ++ [GetRoomCall (theString (MultiplayerManager.roomId m)) (Some room);
                  SaveRoomCall r ok;
                  Called (OnPlayerLeave (MultiplayerManager.playerId m))]
    ∧ RoomState.version r = Number.add (RoomState.version room) 1.
Proof.
  intros [sm Hsm] Hinit Hget Hrest. unfold MultiplayerManager.leaveRoom.
  rewrite Hsm, Hinit.
  destruct (SyncManager.stop sm w) as [sm1 w1] eqn:Hstop.
  destruct (stop_store_log sm w) as (Hst & Hlg & _). rewrite Hstop in Hst, Hlg.
  simpl in Hst, Hlg. unfold storageGet. rewrite Hst.
  destruct (getRoom _ (store w)) as [fetched s1]. simpl in Hget. subst fetched.
  cbn [MultiplayerManager.playerId MultiplayerManager.isHost MultiplayerManager.with_sync].
  set (rest := filter _ (RoomState.players room)) in *.
  assert (Hlen : (0 < length rest)%nat) by (destruct rest; [done | simpl; lia]).
  assert (Hmark : (0 < length (MultiplayerManager.markFirstHost rest))%nat)
    by (destruct rest; [done | simpl; lia]).
  set (ups := if _ && _ then MultiplayerManager.markFirstHost rest else rest).
  assert (Hups : bool_decide (length ups = 0%nat) = false).
  { apply bool_decide_eq_false. subst ups.
    destruct (MultiplayerManager.isHost m && _); lia. }
  rewrite Hups. unfold storageSave; cbn [store clock timers nextTimer log].
  destruct (saveRoom _ s1) as [ok s2] eqn:Hsave. cbn [snd].
  eexists _, ok. unfold call, emit; cbn [log map]. rewrite Hlg.
  rewrite <- !app_assoc. split; [reflexivity | reflexivity].
Qed.

(** C2 (as the code has it). A successful [updateWithLock] whose updater
    leaves the version of its argument alone returns and writes a room whose
    version is the sum, as JavaScript computes it, of the fetched version
    and 1; the direct writes of [joinRoom] (new member) and of [leaveRoom]
    (somebody remains) carry that sum of the version they read. The sum is
    the version plus exactly 1 as long as it stays below [2 ^ 53] in
    magnitude; at [2 ^ 53] it is the version itself. [createRoom] writes
    and returns version 1 whatever it read. *)
Theorem version_bumped_by_writes :
  (∀ (S : Type) (HS : IGameStorage S) updater maxRetries sm (w : World S) r,
     (∀ x, RoomState.version (updater x) = RoomState.version x) →
     (SyncManager.updateWithLock updater maxRetries sm w).1.1 = Some r →
     ∃ pre fetched post,
       log (SyncManager.updateWithLock updater maxRetries sm w).2
         = log w ++ pre
             ++ [GetRoomCall (SyncManager.roomId sm) (Some fetched); SaveRoomCall r true]
             ++ post
       ∧ RoomState.version r = Number.add (RoomState.version fetched) 1)
  ∧ (∀ (S : Type) (HS : IGameStorage S) nameArg m (w : World S) room r,
       (getRoom (theString (MultiplayerManager.roomId m)) (store w)).1 = Some room →
       find (fun p => String.eqb (Player.id p) (MultiplayerManager.playerId m))
            (RoomState.players room) = None →
       (MultiplayerManager.joinRoom nameArg m w).1.1 = Some r →
       RoomState.version r = Number.add (RoomState.version room) 1
       ∧ ∃ post, log (MultiplayerManager.joinRoom nameArg m w).2
                 = log w ++ [GetRoomCall (theString (MultiplayerManager.roomId m))
                               (Some room);
                             SaveRoomCall r true] ++ post)
  ∧ (∀ (S : Type) (HS : IGameStorage S) m (w : World S) room,
       is_Some (MultiplayerManager.sync m) →
       negb (MultiplayerManager.storage m) || falsy (MultiplayerManager.roomId m) = false →
       (getRoom (theString (MultiplayerManager.roomId m)) (store w)).1 = Some room →
       filter (fun p => Player.id p ≠ MultiplayerManager.playerId m)
              (RoomState.players room) ≠ [] →
       ∃ r ok,
         log (MultiplayerManager.leaveRoom m w).2
           = log w ++ [GetRoomCall (theString (MultiplayerManager.roomId m)) (Some room);
                       SaveRoomCall r ok;
                       Called (OnPlayerLeave (MultiplayerManager.playerId m))]
         ∧ RoomState.version r = Number.add (RoomState.version room) 1)
  ∧ (∀ v, Number.safe (v + 1) → Number.add v 1 = v + 1)
  ∧ Number.add Number.two53 1 = Number.two53
  ∧ (∀ (S : Type) (HS : IGameStorage S) nameArg m (w : World S) r,
       (MultiplayerManager.createRoom nameArg m w).1.1 = Some r →
       RoomState.version r = 1
       ∧ ∃ post,
           log (MultiplayerManager.createRoom nameArg m w).2
           = log w ++ [GetRoomCall (theString (MultiplayerManager.roomId m))
                         (getRoom (theString (MultiplayerManager.roomId m))
                                  (store w)).1;
                       SaveRoomCall r true] ++ post).
Proof.
  split_and!.
  - intros S HS updater maxRetries sm w r Hkeep Hr.
    destruct (updateWithLock_loop_success updater maxRetries 0 sm w r Hr)
      as (pre & fetched & now & Hlog & Hupd & _).
    exists pre, fetched. eexists. split; [exact Hlog|].
    rewrite Hupd, Hkeep. reflexivity.
  - intros S HS. apply joinRoom_new_member_write.
  - intros S HS. apply leaveRoom_write.
  - intros v. apply add_safe.
  - apply add_stalls.
  - intros S HS. apply createRoom_write.
Qed.

Lemma version_bumped_by_writes_witness :
  (∃ pre fetched post,
     log (SyncManager.updateWithLock (RoomState.with_status playing) 3 sync1
            (memWorld lobby5)).2
       = log (memWorld lobby5) ++ pre
           ++ [GetRoomCall (SyncManager.roomId sync1) (Some fetched);
               SaveRoomCall started6 true]
           ++ post
     ∧ RoomState.version started6 = Number.add (RoomState.version fetched) 1)
  ∧ RoomState.version lobby6WithCarol = Number.add (RoomState.version lobby5) 1
  ∧ (∃ r ok,
       log (MultiplayerManager.leaveRoom lobbyOfTwo.1.2 lobbyOfTwo.2).2
         = log lobbyOfTwo.2
             ++ [GetRoomCall (theString (MultiplayerManager.roomId lobbyOfTwo.1.2))
                   (Some lobbyOfTwoRoom);
                 SaveRoomCall r ok;
                 Called (OnPlayerLeave (MultiplayerManager.playerId lobbyOfTwo.1.2))]
       ∧ RoomState.version r = Number.add (RoomState.version lobbyOfTwoRoom) 1)
  ∧ Number.add 5 1 = 6
  ∧ (RoomState.version carolsRoom = 1
     ∧ ∃ post,
         log (MultiplayerManager.createRoom None clientC (memWorld finished5)).2
         = log (memWorld finished5)
             ++ [GetRoomCall "ROOM-1" (Some finished5); SaveRoomCall carolsRoom true]
             ++ post).
Proof.
  destruct version_bumped_by_writes
    as (Hlock & Hjoin & Hleave & Hsafe & _ & Hcreate).
  refine (conj _ (conj _ (conj _ (conj _ _)))).
  - apply (Hlock _ MemStorage (RoomState.with_status playing) 3%nat sync1
             (memWorld lobby5) started6).
    + intros x. reflexivity.
    + vm_compute. reflexivity.
  - apply (Hjoin _ MemStorage None clientC (memWorld lobby5) lobby5 lobby6WithCarol).
    + vm_compute. reflexivity.
    + vm_compute. reflexivity.
    + vm_compute. reflexivity.
  - apply (Hleave _ MemStorage lobbyOfTwo.1.2 lobbyOfTwo.2 lobbyOfTwoRoom).
    + eexists. vm_compute. reflexivity.
    + vm_compute. reflexivity.
    + vm_compute. reflexivity.
    + vm_compute. discriminate.
  - apply (Hsafe 5). unfold Number.safe, Number.two53. lia.
  - apply (Hcreate _ MemStorage None clientC (memWorld finished5) carolsRoom).
    vm_compute. reflexivity.
Defined.

(** At [2 ^ 53] the increment is lost: a room stored at that version is
    written back at the same version. *)
Example version_stalls_at_two53 :
  RoomState.version <$>
    (SyncManager.updateWithLock (RoomState.with_status playing) 3 sync1
       (memWorld (lobbyAt Number.two53))).1.1 = Some Number.two53
  ∧ RoomState.version <$>
      store (SyncManager.updateWithLock (RoomState.with_status playing) 3 sync1
               (memWorld (lobbyAt Number.two53))).2 !! "ROOM-1" = Some Number.two53
  ∧ Number.add (Number.two53 + 2) 1 = Number.two53 + 4
  ∧ Number.add (Number.two53 - 1) 1 = Number.two53
  ∧ Number.add (- Number.two53) (-1) = - Number.two53.
Proof. split_and!; vm_compute; reflexivity. Qed.

(** C2 as stated fails twice: an updater may overwrite the version it is
    handed (here the room fetched at version 5 is written back at version
    0, not 6), and [createRoom] over a finished room read at version 5
    writes version 1. *)
Lemma version_bump_counterexample :
  RoomState.version <$>
    (SyncManager.updateWithLock rewindVersion 3 sync1 (memWorld lobby5)).1.1 = Some 0
  ∧ RoomState.version <$>
      store (SyncManager.updateWithLock rewindVersion 3 sync1 (memWorld lobby5)).2
        !! "ROOM-1" = Some 0
  ∧ RoomState.version <$> store (memWorld lobby5) !! "ROOM-1" = Some 5
  ∧ RoomState.version <$> store (memWorld finished5) !! "ROOM-1" = Some 5
  ∧ RoomState.version <$>
      (MultiplayerManager.createRoom None (freshClient "p-carol" "Carol")
         (memWorld finished5)).1.1 = Some 1
  ∧ RoomState.version <$>
      store (MultiplayerManager.createRoom None (freshClient "p-carol" "Carol")
               (memWorld finished5)).2 !! "ROOM-1" = Some 1.
Proof. split_and!; vm_compute; reflexivity. Qed.

(** ** The host invariant under [leaveRoom] *)

Lemma only_host_is_hostId room p :
  hostInvariant room = true → p ∈ RoomState.players room → Player.isHost p = true →
  Player.id p = RoomState.hostId room.
Proof.
  unfold hostInvariant. intros Hinv Hin Hhost.
  assert (Hf : In p (List.filter Player.isHost (RoomState.players room))).
  { apply filter_In. split; [by apply list_elem_of_In | done]. }
  destruct (List.filter Player.isHost (RoomState.players room)) as [|h [|h' l]];
    try discriminate.
  destruct Hf as [->|[]]. by apply String.eqb_eq.
Qed.

Lemma filter_none {A} (f : A → bool) (l : list A) :
  (∀ x, x ∈ l → f x = false) → List.filter f l = [].
Proof.
  induction l as [|x l IH]; intros Hall; [done|]. simpl.
  rewrite (Hall x) by apply list_elem_of_here.
  apply IH. intros y Hy. apply Hall. by apply list_elem_of_further.
Qed.

(** When the leaving client's host flag is right (it is host and the room
    says so), the write that removes it also makes the first remaining
    player host, and the host invariant carries over. *)
Lemma leaveRoom_transfers_host {S : Type} `{IGameStorage S} m (w : World S) room :
  is_Some (MultiplayerManager.sync m) →
  negb (MultiplayerManager.storage m) || falsy (MultiplayerManager.roomId m) = false →
  (getRoom (theString (MultiplayerManager.roomId m)) (store w)).1 = Some room →
  MultiplayerManager.isHost m = true →
  RoomState.hostId room = MultiplayerManager.playerId m →
  hostInvariant room = true →
  ∀ first rest,
    filter (fun p => Player.id p ≠ MultiplayerManager.playerId m)
           (RoomState.players room) = first :: rest →
    ∃ r ok,
      log (MultiplayerManager.leaveRoom m w).2
        = log w ++ [GetRoomCall (theString (MultiplayerManager.roomId m)) (Some room);
                    SaveRoomCall r ok;
                    Called (OnPlayerLeave (MultiplayerManager.playerId m))]
      ∧ RoomState.players r = Player.with_isHost true first :: rest
      ∧ RoomState.hostId r = Player.id first
      ∧ RoomState.version r = Number.add (RoomState.version room) 1
      ∧ hostInvariant r = true.
Proof.
  intros [sm Hsm] Hinit Hget Hflag Hhost Hinv first rest Hrest.
  assert (Hnone : List.filter Player.isHost rest = []).
  { apply filter_none. intros p Hp.
    assert (Hin : p ∈ filter (fun p => Player.id p ≠ MultiplayerManager.playerId m)
                         (RoomState.players room))
      by (rewrite Hrest; by apply list_elem_of_further).
    apply list_elem_of_filter in Hin as [Hne Hin].
    destruct (Player.isHost p) eqn:Hp'; [|done].
    exfalso. apply Hne. rewrite <- Hhost. by apply only_host_is_hostId. }
  unfold MultiplayerManager.leaveRoom. rewrite Hsm, Hinit.
  destruct (SyncManager.stop sm w) as [sm1 w1] eqn:Hstop.
  destruct (stop_store_log sm w) as (Hst & Hlg & _). rewrite Hstop in Hst, Hlg.
  simpl in Hst, Hlg. unfold storageGet. rewrite Hst.
  destruct (getRoom _ (store w)) as [fetched s1]. simpl in Hget. subst fetched.
  cbn [MultiplayerManager.playerId MultiplayerManager.isHost MultiplayerManager.with_sync].
  rewrite Hrest, Hflag. cbn [length MultiplayerManager.markFirstHost andb].
  assert (Hpos : bool_decide (0 < Datatypes.S (length rest))%nat = true)
    by (apply bool_decide_eq_true_2; lia).
  rewrite !Hpos. cbn [length head from_option].
  rewrite bool_decide_eq_false_2 by done.
  unfold storageSave; cbn [store clock timers nextTimer log].
  destruct (saveRoom _ s1) as [ok s2] eqn:Hsave. cbn [snd].
  eexists _, ok. unfold call, emit; cbn [log map]. rewrite Hlg, <- !app_assoc.
  split_and!; try reflexivity.
  unfold hostInvariant. cbn [RoomState.players RoomState.hostId List.filter
    Player.with_isHost Player.isHost Player.id].
  rewrite Hnone. apply String.eqb_refl.
Qed.

(** C3, at a failing input. Alice creates the room, Bob and Carol join and
    Alice leaves: the room passes to Bob in that one write and the host
    invariant holds. Bob's client still carries the host flag it cached
    when it joined ([false]); when Bob leaves, [leaveRoom] consults that
    flag, transfers nothing, and the room is written with Carol as a
    non-host and [hostId] still naming Bob. *)
Theorem successor_host_leaves_room_hostless :
  store afterHostLeft.2 !! "ROOM-1"
    = Some (RoomState.mk "ROOM-1" 4 "p-bob" waiting
              [Player.mk "p-bob" "Bob" true false true 1000;
               Player.mk "p-carol" "Carol" false false true 1000] None 1000 1000)
  ∧ hostInvariant <$> store afterHostLeft.2 !! "ROOM-1" = Some true
  ∧ MultiplayerManager.getIsHost afterHostLeft.1.1 = false
  ∧ store afterSuccessorLeft !! "ROOM-1"
    = Some (RoomState.mk "ROOM-1" 5 "p-bob" waiting
              [Player.mk "p-carol" "Carol" false false true 1000] None 1000 1000)
  ∧ hostInvariant <$> store afterSuccessorLeft !! "ROOM-1" = Some false.
Proof. split_and!; vm_compute; reflexivity. Qed.

(** ** [startGame] *)

Lemma startGameUpdater_cases room :
  (forallb Player.isReady (RoomState.players room) = true →
   MultiplayerManager.startGameUpdater room = RoomState.with_status playing room)
  ∧ (forallb Player.isReady (RoomState.players room) = false →
     MultiplayerManager.startGameUpdater room = room).
Proof. unfold MultiplayerManager.startGameUpdater. split; by intros ->. Qed.

(** A client whose own host flag is down is refused before any storage
    call is made. *)
Lemma startGame_needs_host_flag {S : Type} `{IGameStorage S} m (w : World S) :
  MultiplayerManager.isHost m = false →
  MultiplayerManager.startGame m w
  = (false, m, call [OnError "只有房主才能开始游戏"] w).
Proof. intros Hflag. unfold MultiplayerManager.startGame. by rewrite Hflag. Qed.

(** [startGame] answers [true] only after an accepted write of a room in
    status [playing]; the room it fetched had everybody ready, or was in
    status [playing] already. *)
Lemma startGame_true_inv {S : Type} `{IGameStorage S} m (w : World S) :
  (MultiplayerManager.startGame m w).1.1 = true →
  ∃ fetched r,
    GetRoomCall (theString (SyncManager.roomId <$> MultiplayerManager.sync m))
                (Some fetched) ∈ log (MultiplayerManager.startGame m w).2
    ∧ SaveRoomCall r true ∈ log (MultiplayerManager.startGame m w).2
    ∧ RoomState.status r = playing
    ∧ RoomState.version r = Number.add (RoomState.version fetched) 1
    ∧ (forallb Player.isReady (RoomState.players fetched) = true
       ∨ RoomState.status fetched = playing).
Proof.
  unfold MultiplayerManager.startGame.
  destruct (negb (MultiplayerManager.isHost m) || _); [discriminate|].
  unfold MultiplayerManager.lockedUpdate.
  destruct (MultiplayerManager.sync m) as [sm|]; [|discriminate].
  unfold SyncManager.updateWithLock.
  pose proof (updateWithLock_loop_success MultiplayerManager.startGameUpdater 3 0 sm w)
    as Hsucc.
  destruct (SyncManager.updateWithLock_loop _ 3 0 sm w) as [[res sm1] w1].
  simpl in Hsucc. destruct res as [r|]; [|discriminate].
  destruct (Hsucc r eq_refl) as (pre & fetched & now & Hlog & Hr & _).
  destruct (bool_decide (RoomState.status r = playing)) eqn:Hplay; [|discriminate].
  apply bool_decide_eq_true in Hplay. intros _. exists fetched, r.
  cbn [fst snd]. unfold call, emit; cbn [log]. rewrite Hlog.
  split_and!; try done.
  - simpl. rewrite !elem_of_app, !elem_of_cons. eauto 10.
  - rewrite !elem_of_app, !elem_of_cons. eauto 10.
  - rewrite Hr. unfold MultiplayerManager.startGameUpdater.
    by destruct (negb _).
  - rewrite Hr in Hplay. unfold MultiplayerManager.startGameUpdater in Hplay.
    destruct (forallb _ _) eqn:Hall; [by left | right; exact Hplay].
Qed.

(** C4, at a failing input. With Bob not ready, the host's [startGame]
    answers [false] and the status stays [waiting], but the room is written
    back at version 3 (it was read at version 2) and every observer is
    notified. With everybody ready and a store that refuses the writes,
    [startGame] answers the same [false] with the same message as for
    unready players. *)
Theorem startGame_refusal_writes_and_conflates :
  RoomState.version <$> store lobbyOfTwo.2 !! "ROOM-1" = Some 2
  ∧ (MultiplayerManager.startGame lobbyOfTwo.1.1 lobbyOfTwo.2).1.1 = false
  ∧ RoomState.status <$>
      store (MultiplayerManager.startGame lobbyOfTwo.1.1 lobbyOfTwo.2).2 !! "ROOM-1"
    = Some waiting
  ∧ RoomState.version <$>
      store (MultiplayerManager.startGame lobbyOfTwo.1.1 lobbyOfTwo.2).2 !! "ROOM-1"
    = Some 3
  ∧ saves (drop (length (log lobbyOfTwo.2))
             (log (MultiplayerManager.startGame lobbyOfTwo.1.1 lobbyOfTwo.2).2)) = 1%nat
  ∧ last (callbacks (log (MultiplayerManager.startGame lobbyOfTwo.1.1 lobbyOfTwo.2).2))
    = Some (OnError "还有玩家未准备")
  ∧ forallb Player.isReady (RoomState.players readyLobby) = true
  ∧ (MultiplayerManager.startGame lobbyOfTwo.1.1 refusingWorld).1.1 = false
  ∧ failedSaves (log (MultiplayerManager.startGame lobbyOfTwo.1.1 refusingWorld).2) = 3%nat
  ∧ callbacks (log (MultiplayerManager.startGame lobbyOfTwo.1.1 refusingWorld).2)
    = [OnError "还有玩家未准备"].
Proof. split_and!; vm_compute; reflexivity. Qed.

(** ** The game-end check *)

Lemma length_filter_filter {A} (f g : A → bool) (l : list A) :
  length (List.filter f (List.filter g l)) = countWhere (fun x => g x && f x) l.
Proof.
  induction l as [|x l IH]; [done|]. simpl.
  destruct (g x); simpl; [|exact IH].
  destruct (f x); simpl; by rewrite IH.
Qed.

Lemma checkGameEnd_unfold hc g :
  HostController.currentGameState hc = Some g →
  HostController.checkGameEnd hc =
    if Nat.eqb (aliveWolfCount g) 0 then
      (true, HostController.mk (HostController.isRunning hc)
               (Some (GameState.with_winner village g))
               (HostController.aiActionTimeout hc))
    else if Nat.leb (aliveOtherCount g) (aliveWolfCount g) then
      (true, HostController.mk (HostController.isRunning hc)
               (Some (GameState.with_winner wolf g))
               (HostController.aiActionTimeout hc))
    else (false, hc).
Proof.
  intros Hg. unfold HostController.checkGameEnd. rewrite Hg.
  by rewrite !length_filter_filter.
Qed.

(** C5. Over the living players: with no wolf the check answers [true]
    and records the village as winner; otherwise, with at least as many
    wolves as others, it answers [true] and records the wolves; otherwise it
    answers [false] and records nothing. So 2 wolves against 2 others end
    the game for the wolves, and 1 wolf against 5 others does not end it. *)
Theorem checkGameEnd_verdict hc g :
  HostController.currentGameState hc = Some g →
  (aliveWolfCount g = 0%nat →
     HostController.checkGameEnd hc
     = (true, HostController.mk (HostController.isRunning hc)
                (Some (GameState.with_winner village g))
                (HostController.aiActionTimeout hc)))
  ∧ (aliveWolfCount g ≠ 0%nat → (aliveOtherCount g ≤ aliveWolfCount g)%nat →
     HostController.checkGameEnd hc
     = (true, HostController.mk (HostController.isRunning hc)
                (Some (GameState.with_winner wolf g))
                (HostController.aiActionTimeout hc)))
  ∧ (aliveWolfCount g ≠ 0%nat → (aliveWolfCount g < aliveOtherCount g)%nat →
     HostController.checkGameEnd hc = (false, hc))
  ∧ (aliveWolfCount g = 2%nat → aliveOtherCount g = 2%nat →
     (HostController.checkGameEnd hc).1 = true
     ∧ (HostController.currentGameState (HostController.checkGameEnd hc).2
          ≫= GameState.winner) = Some wolf)
  ∧ (aliveWolfCount g = 0%nat →
     (HostController.checkGameEnd hc).1 = true
     ∧ (HostController.currentGameState (HostController.checkGameEnd hc).2
          ≫= GameState.winner) = Some village)
  ∧ (aliveWolfCount g = 1%nat → aliveOtherCount g = 5%nat →
     (HostController.checkGameEnd hc).1 = false
     ∧ (HostController.checkGameEnd hc).2 = hc).
Proof.
  intros Hg. rewrite (checkGameEnd_unfold hc g Hg). split_and!.
  - by intros ->.
  - intros Hw Hle. apply Nat.eqb_neq in Hw as ->. by apply Nat.leb_le in Hle as ->.
  - intros Hw Hlt. apply Nat.eqb_neq in Hw as ->.
    by apply Nat.leb_gt in Hlt as ->.
  - by intros -> ->.
  - by intros ->.
  - by intros -> ->.
Qed.

Lemma checkGameEnd_verdict_witness :
  ((HostController.checkGameEnd (controllerOn twoVersusTwo)).1 = true
   ∧ (HostController.currentGameState
        (HostController.checkGameEnd (controllerOn twoVersusTwo)).2
        ≫= GameState.winner) = Some wolf)
  ∧ ((HostController.checkGameEnd (controllerOn wolvesGone)).1 = true
     ∧ (HostController.currentGameState
          (HostController.checkGameEnd (controllerOn wolvesGone)).2
          ≫= GameState.winner) = Some village)
  ∧ ((HostController.checkGameEnd (controllerOn oneVersusFive)).1 = false
     ∧ (HostController.checkGameEnd (controllerOn oneVersusFive)).2
       = controllerOn oneVersusFive).
Proof.
  refine (conj _ (conj _ _)).
  - destruct (checkGameEnd_verdict (controllerOn twoVersusTwo) twoVersusTwo eq_refl)
      as (_ & _ & _ & Hwolf & _).
    apply Hwolf; reflexivity.
  - destruct (checkGameEnd_verdict (controllerOn wolvesGone) wolvesGone eq_refl)
      as (_ & _ & _ & _ & Hvillage & _).
    apply Hvillage; reflexivity.
  - destruct (checkGameEnd_verdict (controllerOn oneVersusFive) oneVersusFive eq_refl)
      as (_ & _ & _ & _ & _ & Hgoes).
    apply Hgoes; reflexivity.
Defined.

Example checkGameEnd_samples :
  HostController.checkGameEnd (controllerOn wolvesGone)
    = (true, controllerOn (GameState.with_winner village wolvesGone))
  ∧ HostController.checkGameEnd (controllerOn oneVersusFive)
    = (false, controllerOn oneVersusFive)
  ∧ HostController.checkGameEnd (HostController.mk true None None)
    = (false, HostController.mk true None None).
Proof. split_and!; reflexivity. Qed.

(** ** Seats *)

Lemma createSeatMappings_from_imap index mps n :
  GameSync.createSeatMappings_from index mps n
  = imap (fun k mp => GameSync.mappingFor (index + k) mp) (take (n - index) mps).
Proof.
  revert index. induction mps as [|mp rest IH]; intros index; simpl.
  - by rewrite take_nil.
  - rewrite IH. case_bool_decide as Hlt.
    + replace (n - index)%nat with (S (n - S index)) by lia.
      simpl. rewrite Nat.add_0_r. f_equal.
      apply imap_ext. intros k x _. simpl. f_equal. lia.
    + replace (n - index)%nat with 0%nat by lia.
      replace (n - S index)%nat with 0%nat by lia. by rewrite take_0.
Qed.

Lemma createSeatMappings_imap mps n :
  GameSync.createSeatMappings mps n = imap GameSync.mappingFor (take n mps).
Proof.
  unfold GameSync.createSeatMappings. rewrite createSeatMappings_from_imap.
  by rewrite Nat.sub_0_r.
Qed.

Lemma createSeatMappings_length mps n :
  length (GameSync.createSeatMappings mps n) = Nat.min n (length mps).
Proof. by rewrite createSeatMappings_imap, length_imap, length_take. Qed.

Lemma createSeatMappings_lookup mps n i :
  GameSync.createSeatMappings mps n !! i
  = if bool_decide (i < n)%nat then GameSync.mappingFor i <$> mps !! i else None.
Proof.
  rewrite createSeatMappings_imap, list_lookup_imap.
  case_bool_decide.
  - by rewrite lookup_take_lt.
  - by rewrite lookup_take_ge by lia.
Qed.

(** ** The shuffle *)

Lemma swap_Permutation {A} i j (l : list A) : GameSync.swap i j l ≡ₚ l.
Proof.
  unfold GameSync.swap.
  destruct (l !! i) as [x|] eqn:Hi; [|done].
  destruct (l !! j) as [y|] eqn:Hj; [|done].
  by apply Permutation_insert_swap.
Qed.

Lemma shuffle_loop_Permutation {A} rnd k i (l : list A) :
  GameSync.shuffle_loop rnd k i l ≡ₚ l.
Proof.
  revert k l. induction i as [|i IH]; intros k l; simpl; [done|].
  by rewrite IH, swap_Permutation.
Qed.

Lemma shuffleArray_Permutation {A} rnd (l : list A) : GameSync.shuffleArray rnd l ≡ₚ l.
Proof. apply shuffle_loop_Permutation. Qed.

(** Every index the loop draws lies inside the array, so each step does
    exchange two cells. *)
Lemma randomBelow_lt rnd k n : (0 < n)%nat → (randomBelow rnd k n < n)%nat.
Proof. intros Hn. unfold randomBelow. apply Nat.mod_upper_bound. lia. Qed.

Lemma countWhere_Permutation {A} (f : A → bool) (l l' : list A) :
  l ≡ₚ l' → countWhere f l = countWhere f l'.
Proof.
  induction 1 as [|x l l' _ IH|x y l|l l' l'' _ IH1 _ IH2]; simpl; lia.
Qed.

Lemma countWhere_app {A} (f : A → bool) (l l' : list A) :
  countWhere f (l ++ l') = (countWhere f l + countWhere f l')%nat.
Proof. induction l as [|x l IH]; simpl; [done | rewrite IH; lia]. Qed.

Lemma countWhere_fmap {A B} (f : B → bool) (g : A → B) (l : list A) :
  countWhere f (g <$> l) = countWhere (f ∘ g) l.
Proof. induction l as [|x l IH]; csimpl; [done | by rewrite IH]. Qed.

(** ** The role table *)

Lemma configs_rows_sized k row :
  GameSync.configs !! k = Some row → length row = k.
Proof.
  intros Hrow.
  destruct (decide (k < 13)%nat) as [Hk|Hk].
  - do 13 (destruct k as [|k]; [vm_compute in Hrow; by simplify_eq|]). lia.
  - exfalso. unfold GameSync.configs in Hrow.
    apply elem_of_list_to_map_2 in Hrow.
    repeat (apply elem_of_cons in Hrow as [Hrow|Hrow]; [simplify_eq; lia|]).
    by apply elem_of_nil in Hrow.
Qed.

Lemma clampCount_range n :
  (4 ≤ GameSync.clampCount n ≤ 12)%nat
  ∧ ((4 ≤ n ≤ 12)%nat → GameSync.clampCount n = n)
  ∧ ((n < 4)%nat → GameSync.clampCount n = 4%nat)
  ∧ ((12 < n)%nat → GameSync.clampCount n = 12%nat).
Proof. unfold GameSync.clampCount. lia. Qed.

Lemma configs_defined_on_range k :
  (4 ≤ k ≤ 12)%nat → is_Some (GameSync.configs !! k).
Proof.
  intros Hk.
  do 4 (destruct k as [|k]; [lia|]).
  do 9 (destruct k as [|k]; [vm_compute; eauto|]). lia.
Qed.

Lemma selectRoles_row n :
  GameSync.configs !! GameSync.clampCount n = Some (GameSync.selectRoles n)
  ∧ length (GameSync.selectRoles n) = GameSync.clampCount n.
Proof.
  destruct (configs_defined_on_range (GameSync.clampCount n)) as [row Hrow].
  { apply clampCount_range. }
  unfold GameSync.selectRoles. rewrite Hrow. split; [done|].
  by apply configs_rows_sized.
Qed.

Lemma assignRoles_Permutation rnd n :
  GameSync.assignRoles rnd n ≡ₚ GameSync.selectRoles n.
Proof. apply shuffleArray_Permutation. Qed.

Lemma assignRoles_length rnd n :
  length (GameSync.assignRoles rnd n) = GameSync.clampCount n.
Proof. rewrite (assignRoles_Permutation rnd n). apply selectRoles_row. Qed.

(** ** The initial game state *)

Section InitialState.
Variables (rnd : Random) (baseState : GameState.t) (mps : list Player.t)
          (n : nat) (difficulty : option Difficulty).

Let roles := GameSync.assignRoles rnd (length mps).
Let ms := GameSync.createSeatMappings mps n.
Let total := Nat.max (length mps) 6.
Let g := GameSync.createMultiplayerGameState rnd baseState mps ms difficulty.

Lemma initial_players_split :
  GameState.players g
  = imap (GameSync.humanPlayer roles) ms
    ++ map (GameSync.aiPlayer roles) (seq (length ms) (total - length ms)).
Proof. subst g. unfold GameSync.createMultiplayerGameState. simpl. by rewrite length_imap. Qed.

Lemma initial_mappings_length : length ms = Nat.min n (length mps).
Proof. apply createSeatMappings_length. Qed.

Lemma initial_players_length : length (GameState.players g) = total.
Proof.
  rewrite initial_players_split, length_app, length_imap, length_map, length_seq.
  rewrite initial_mappings_length. subst total. lia.
Qed.

Lemma initial_players_lookup i :
  GameState.players g !! i
  = if bool_decide (i < Nat.min n (length mps))%nat
    then GameSync.humanPlayer roles i ∘ GameSync.mappingFor i <$> mps !! i
    else if bool_decide (i < total)%nat then Some (GameSync.aiPlayer roles i)
    else None.
Proof.
  rewrite initial_players_split. case_bool_decide as Hi.
  - rewrite lookup_app_l by (rewrite length_imap, initial_mappings_length; lia).
    rewrite list_lookup_imap. subst ms. rewrite createSeatMappings_lookup.
    rewrite bool_decide_eq_true_2 by lia. by destruct (mps !! i).
  - rewrite lookup_app_r by (rewrite length_imap, initial_mappings_length; lia).
    rewrite length_imap, list_lookup_fmap, initial_mappings_length.
    case_bool_decide as Ht.
    + rewrite lookup_seq_lt by lia. simpl. do 2 f_equal. lia.
    + rewrite lookup_seq_ge by lia. done.
Qed.

Lemma initial_seats : map GamePlayer.seat (GameState.players g) = seq 1 total.
Proof.
  apply list_eq. intros i. rewrite list_lookup_fmap, initial_players_lookup.
  case_bool_decide as Hi.
  - destruct (lookup_lt_is_Some_2 mps i) as [mp Hmp]; [lia|]. rewrite Hmp. simpl.
    rewrite lookup_seq_lt by (subst total; lia). f_equal. lia.
  - case_bool_decide as Ht.
    + simpl. rewrite lookup_seq_lt by lia. f_equal. lia.
    + by rewrite lookup_seq_ge by lia.
Qed.

Lemma initial_alive p : p ∈ GameState.players g → GamePlayer.alive p = true.
Proof.
  intros [i Hi]%list_elem_of_lookup. rewrite initial_players_lookup in Hi.
  repeat case_bool_decide; simplify_eq/=; [|done].
  destruct (mps !! i); by simplify_eq/=.
Qed.

(** The first [min n (length mps)] players are the participants, in join
    order, under their own names. *)
Lemma initial_humans i mp :
  (i < n)%nat → mps !! i = Some mp →
  ∃ p, GameState.players g !! i = Some p
    ∧ GamePlayer.displayName p = Player.name mp
    ∧ GamePlayer.seat p = S i
    ∧ GamePlayer.isHuman p = true
    ∧ GamePlayer.role p = roles !! i.
Proof.
  intros Hi Hmp. rewrite initial_players_lookup.
  rewrite bool_decide_eq_true_2 by (apply lookup_lt_Some in Hmp; lia).
  rewrite Hmp. eexists. split; [done|]. simpl. split_and!; try done. lia.
Qed.

(** With at most 12 participants nobody is left without a role: the
    players carry the shuffled row, followed by Villagers for the seats
    past the end of the row. *)
Lemma initial_roles :
  (length mps ≤ 12)%nat →
  map GamePlayer.role (GameState.players g)
  = Some <$> (roles ++ replicate (total - GameSync.clampCount (length mps)) Villager).
Proof.
  intros Hlen. apply list_eq. intros i.
  rewrite !list_lookup_fmap, initial_players_lookup.
  assert (Hr : length roles = GameSync.clampCount (length mps))
    by apply assignRoles_length.
  assert (Hc : GameSync.clampCount (length mps) = Nat.max (length mps) 4)
    by (unfold GameSync.clampCount; lia).
  case_bool_decide as Hi.
  - destruct (lookup_lt_is_Some_2 mps i) as [mp Hmp]; [lia|]. rewrite Hmp. simpl.
    rewrite lookup_app_l by lia.
    destruct (lookup_lt_is_Some_2 roles i) as [r Hri]; [lia|]. by rewrite Hri.
  - case_bool_decide as Ht; simpl.
    + destruct (decide (i < length roles)%nat) as [Hlt|Hge].
      * rewrite lookup_app_l by lia.
        destruct (lookup_lt_is_Some_2 roles i) as [r Hri]; [lia|]. by rewrite Hri.
      * rewrite lookup_app_r by lia. rewrite (lookup_ge_None_2 roles i) by lia.
        rewrite lookup_replicate_2 by (subst total; lia). done.
    + rewrite lookup_ge_None_2; [done|].
      rewrite length_app, length_replicate. subst total. lia.
Qed.

End InitialState.

Lemma roleCount_of_roles r (ps : list GamePlayer.t) (roles : list Role) :
  map GamePlayer.role ps = Some <$> roles →
  roleCount r ps = rolesCount r roles.
Proof.
  intros Hroles. unfold roleCount, rolesCount.
  change (fun p => bool_decide (GamePlayer.role p = Some r))
    with ((fun x => bool_decide (x = Some r)) ∘ GamePlayer.role).
  rewrite <- (countWhere_fmap (fun x => bool_decide (x = Some r)) GamePlayer.role ps).
  change (map GamePlayer.role ps) with (GamePlayer.role <$> ps) in Hroles.
  rewrite Hroles, countWhere_fmap.
  clear. induction roles as [|x roles IH]; [done|]. simpl. rewrite IH. f_equal.
  destruct (decide (x = r)) as [->|Hne].
  - by rewrite !bool_decide_eq_true_2.
  - rewrite !bool_decide_eq_false_2; [done|done|congruence].
Qed.

(** C6. Ten participants, seated by [createSeatMappings] and handed to
    [createMultiplayerGameState]: ten players, seats 1 to 10 in join order
    under the participants' names, all alive and human, and, whatever the
    shuffle draws, the roles of the 10-player row: 3 werewolves, 1 seer,
    1 witch, 1 hunter, 1 guard and 3 villagers. *)
Theorem ten_participants_round_trip rnd baseState mps difficulty :
  length mps = 10%nat →
  let g := GameSync.createMultiplayerGameState rnd baseState mps
             (GameSync.createSeatMappings mps 10) difficulty in
  length (GameState.players g) = 10%nat
  ∧ map GamePlayer.seat (GameState.players g) = [1; 2; 3; 4; 5; 6; 7; 8; 9; 10]%nat
  ∧ map GamePlayer.displayName (GameState.players g) = map Player.name mps
  ∧ (∀ p, p ∈ GameState.players g →
       GamePlayer.alive p = true ∧ GamePlayer.isHuman p = true)
  ∧ map GamePlayer.role (GameState.players g)
      ≡ₚ Some <$> [Werewolf; Werewolf; Werewolf; Seer; Witch; Hunter; Guard;
                   Villager; Villager; Villager]
  ∧ roleCount Werewolf (GameState.players g) = 3%nat
  ∧ roleCount Seer (GameState.players g) = 1%nat
  ∧ roleCount Witch (GameState.players g) = 1%nat
  ∧ roleCount Hunter (GameState.players g) = 1%nat
  ∧ roleCount Guard (GameState.players g) = 1%nat
  ∧ roleCount Villager (GameState.players g) = 3%nat.
Proof.
  intros Hlen g.
  pose proof (initial_players_length rnd baseState mps 10 difficulty) as Hpl.
  pose proof (initial_seats rnd baseState mps 10 difficulty) as Hseats.
  pose proof (initial_roles rnd baseState mps 10 difficulty) as Hroles.
  pose proof (initial_players_lookup rnd baseState mps 10 difficulty) as Hlook.
  fold g in Hpl, Hseats, Hroles, Hlook. rewrite Hlen in Hpl, Hseats, Hroles, Hlook.
  clearbody g.
  specialize (Hroles ltac:(lia)).
  change (Nat.max 10 6 - GameSync.clampCount 10)%nat with 0%nat in Hroles.
  cbn [replicate] in Hroles. rewrite app_nil_r in Hroles.
  pose proof (assignRoles_Permutation rnd 10) as Hperm.
  assert (Hrow : GameSync.selectRoles 10
                 = [Werewolf; Werewolf; Werewolf; Seer; Witch; Hunter; Guard;
                    Villager; Villager; Villager]) by (vm_compute; reflexivity).
  rewrite Hrow in Hperm.
  assert (Hcount : ∀ r, roleCount r (GameState.players g)
                        = rolesCount r [Werewolf; Werewolf; Werewolf; Seer; Witch;
                                        Hunter; Guard; Villager; Villager; Villager]).
  { intros r. rewrite (roleCount_of_roles r _ _ Hroles).
    by apply countWhere_Permutation. }
  split_and!; try (rewrite Hcount; reflexivity).
  - exact Hpl.
  - exact Hseats.
  - apply list_eq. intros i. rewrite !list_lookup_fmap, Hlook.
    case_bool_decide as Hi.
    + destruct (lookup_lt_is_Some_2 mps i) as [mp Hmp]; [lia|]. by rewrite Hmp.
    + rewrite bool_decide_eq_false_2 by lia.
      by rewrite (lookup_ge_None_2 mps i) by lia.
  - intros p [i Hi]%list_elem_of_lookup. rewrite Hlook in Hi.
    case_bool_decide as Hlt.
    + destruct (mps !! i); by simplify_eq/=.
    + rewrite bool_decide_eq_false_2 in Hi by lia. done.
  - rewrite Hroles. by apply fmap_Permutation.
Qed.

Lemma ten_participants_round_trip_witness :
  map GamePlayer.seat
    (GameState.players
       (GameSync.createMultiplayerGameState (fun k => (7 * k + 3)%nat) blankGame
          (participants 10) (GameSync.createSeatMappings (participants 10) 10) None))
  = [1; 2; 3; 4; 5; 6; 7; 8; 9; 10]%nat
  ∧ roleCount Werewolf
      (GameState.players
         (GameSync.createMultiplayerGameState (fun k => (7 * k + 3)%nat) blankGame
            (participants 10) (GameSync.createSeatMappings (participants 10) 10) None))
    = 3%nat.
Proof.
  destruct (ten_participants_round_trip (fun k => (7 * k + 3)%nat) blankGame
              (participants 10) None eq_refl)
    as (_ & Hseats & _ & _ & _ & Hwolves & _).
  split; [exact Hseats | exact Hwolves].
Defined.

Example shuffled_roles_sample :
  GameSync.assignRoles (fun k => (7 * k + 3)%nat) 10
  = [Werewolf; Werewolf; Witch; Hunter; Guard; Villager; Villager; Villager;
     Werewolf; Seer].
Proof. vm_compute. reflexivity. Qed.

(** C7 (as the code has it). The game has [max(playerCount, 6)] seats. The
    roles are a shuffle of the table row for the participant count (not
    the seat count) clamped to 4..12; every row holds as many roles as its
    key. With at most 12 participants, the players carry that shuffled row
    in seat order and every seat past the end of the row is a Villager. *)
Theorem roles_follow_participant_count :
  (∀ rnd baseState mps n difficulty,
     length (GameState.players
               (GameSync.createMultiplayerGameState rnd baseState mps
                  (GameSync.createSeatMappings mps n) difficulty))
     = Nat.max (length mps) 6)
  ∧ (∀ rnd playerCount,
       GameSync.configs !! GameSync.clampCount playerCount
         = Some (GameSync.selectRoles playerCount)
       ∧ GameSync.assignRoles rnd playerCount ≡ₚ GameSync.selectRoles playerCount)
  ∧ (∀ playerCount,
       (4 ≤ GameSync.clampCount playerCount ≤ 12)%nat
       ∧ ((4 ≤ playerCount ≤ 12)%nat → GameSync.clampCount playerCount = playerCount)
       ∧ ((playerCount < 4)%nat → GameSync.clampCount playerCount = 4%nat)
       ∧ ((12 < playerCount)%nat → GameSync.clampCount playerCount = 12%nat))
  ∧ (∀ k row, GameSync.configs !! k = Some row → length row = k)
  ∧ (∀ rnd baseState mps n difficulty,
       (length mps ≤ 12)%nat →
       map GamePlayer.role
         (GameState.players
            (GameSync.createMultiplayerGameState rnd baseState mps
               (GameSync.createSeatMappings mps n) difficulty))
       = Some <$> (GameSync.assignRoles rnd (length mps)
                   ++ replicate (Nat.max (length mps) 6
                                 - GameSync.clampCount (length mps)) Villager)).
Proof.
  split_and!.
  - intros. apply initial_players_length.
  - intros rnd playerCount. split.
    + apply selectRoles_row.
    + apply assignRoles_Permutation.
  - apply clampCount_range.
  - apply configs_rows_sized.
  - intros. by apply initial_roles.
Qed.

Lemma roles_follow_participant_count_witness :
  map GamePlayer.role
    (GameState.players
       (GameSync.createMultiplayerGameState (fun _ => 0%nat) blankGame
          (participants 4) (GameSync.createSeatMappings (participants 4) 4) None))
  = Some <$> (GameSync.assignRoles (fun _ => 0%nat) (length (participants 4))
              ++ replicate (Nat.max (length (participants 4)) 6
                            - GameSync.clampCount (length (participants 4))) Villager)
  ∧ length (GameSync.selectRoles 4) = 4%nat
  ∧ GameSync.clampCount 9 = 9%nat
  ∧ GameSync.clampCount 2 = 4%nat
  ∧ GameSync.clampCount 15 = 12%nat.
Proof.
  destruct roles_follow_participant_count as (_ & _ & Hclamp & Hrows & Hroles).
  split_and!.
  - apply Hroles. vm_compute. lia.
  - apply (Hrows 4%nat). vm_compute. reflexivity.
  - apply (Hclamp 9%nat). lia.
  - apply (Hclamp 2%nat). lia.
  - apply (Hclamp 15%nat). lia.
Defined.

(** C7 as stated fails below six participants: four participants play on
    six seats, yet the roles are those of the 4-player row (one werewolf)
    padded with villagers, while the row for six seats has two werewolves. *)
Lemma roles_for_seat_count_counterexample :
  length (GameState.players
            (GameSync.createMultiplayerGameState (fun _ => 0%nat) blankGame
               (participants 4) (GameSync.createSeatMappings (participants 4) 4) None))
  = 6%nat
  ∧ map GamePlayer.role
      (GameState.players
         (GameSync.createMultiplayerGameState (fun _ => 0%nat) blankGame
            (participants 4) (GameSync.createSeatMappings (participants 4) 4) None))
    = Some <$> [Seer; Villager; Villager; Werewolf; Villager; Villager]
  ∧ roleCount Werewolf
      (GameState.players
         (GameSync.createMultiplayerGameState (fun _ => 0%nat) blankGame
            (participants 4) (GameSync.createSeatMappings (participants 4) 4) None))
    = 1%nat
  ∧ GameSync.configs !! 6%nat
    = Some [Werewolf; Werewolf; Seer; Witch; Villager; Villager]
  ∧ rolesCount Werewolf (default [] (GameSync.configs !! 6%nat)) = 2%nat.
Proof. split_and!; vm_compute; reflexivity. Qed.

(** ** Who is host *)

(** The manager's host flag is out of reach of the polling loop and of
    [refresh]: whatever room they deliver, the flag stays as it was. *)
Lemma syncTick_keeps_host_flag {S : Type} `{IGameStorage S} m (w : World S) :
  MultiplayerManager.getIsHost (MultiplayerManager.syncTick m w).1
  = MultiplayerManager.getIsHost m
  ∧ MultiplayerManager.getIsHost (MultiplayerManager.refresh m w).1.2
    = MultiplayerManager.getIsHost m.
Proof.
  unfold MultiplayerManager.syncTick, MultiplayerManager.refresh.
  destruct (MultiplayerManager.sync m) as [sm|]; [|done].
  destruct (SyncManager.tick sm w) as [sm1 w1].
  by destruct (SyncManager.refresh sm w) as [[r sm2] w2].
Qed.

(** C8, at a failing input. Alice (host) leaves; the room names Bob as
    host, Bob's polling loop delivers that room to his client, and the
    derived flag of the store atoms says Bob is host. The manager's own
    flag was cached when Bob joined and is still [false]: with everybody
    ready, Bob's [startGame] is refused as coming from a non-host and the
    room stays [waiting]. *)
Theorem successor_host_is_refused :
  RoomState.hostId <$> store successorReady.2 !! "ROOM-1" = Some "p-bob"
  ∧ RoomState.hostId <$> lastRoomSeen (log successorReady.2) = Some "p-bob"
  ∧ isHostAtom (lastRoomSeen (log successorReady.2)) "p-bob" = true
  ∧ MultiplayerManager.getIsHost successorReady.1 = false
  ∧ (forallb Player.isReady ∘ RoomState.players) <$> store successorReady.2 !! "ROOM-1"
    = Some true
  ∧ (MultiplayerManager.startGame successorReady.1 successorReady.2).1.1 = false
  ∧ drop (length (log successorReady.2))
         (log (MultiplayerManager.startGame successorReady.1 successorReady.2).2)
    = [Called (OnError "只有房主才能开始游戏")]
  ∧ RoomState.status <$>
      store (MultiplayerManager.startGame successorReady.1 successorReady.2).2
        !! "ROOM-1"
    = Some waiting.
Proof. split_and!; vm_compute; reflexivity. Qed.

(** ** Stopping the polling loop *)

(** [stop()] does cancel a poll that is only scheduled: the timer is gone
    and, if the runtime were to fire it all the same, nothing would run. *)
Lemma stop_cancels_scheduled_poll {S : Type} `{IGameStorage S} sm (w : World S) tid :
  SyncManager.intervalId sm = Some tid →
  SyncManager.intervalId (SyncManager.stop sm w).1 = None
  ∧ timers (SyncManager.stop sm w).2 !! tid = None
  ∧ SyncManager.timer_fires tid (SyncManager.stop sm w).1 (SyncManager.stop sm w).2
    = SyncManager.stop sm w.
Proof.
  intros Hid. unfold SyncManager.stop. rewrite Hid. simpl.
  assert (Hgone : delete tid (timers w) !! tid = None) by apply lookup_delete_eq.
  split_and!; [done|done|].
  unfold SyncManager.timer_fires. cbn [timers clearTimeout]. by rewrite Hgone.
Qed.

(** C9, at a failing input. [stop()] is called while the first poll is
    waiting for its fetch: there is no timer to clear. When the fetch comes
    back the poll goes on as if nothing had happened: the observer is
    called with the room, a new timer is set, and when it fires the next
    poll begins. Called between two polls, [stop()] leaves no timer. *)
Theorem stop_misses_poll_in_flight :
  SyncManager.inflight pollInFlight.1 = [waiting]
  ∧ SyncManager.intervalId stoppedInFlight.1 = None
  ∧ timers stoppedInFlight.2 = ∅
  ∧ callbacks (log stoppedInFlight.2) = []
  ∧ callbacks (log resumedAfterStop.2) = [OnRoomUpdate lobby5]
  ∧ SyncManager.intervalId resumedAfterStop.1 = Some 1%nat
  ∧ timers resumedAfterStop.2 !! 1%nat = Some (waiting, 1000)
  ∧ SyncManager.inflight firedAfterStop.1 = [waiting]
  ∧ SyncManager.intervalId stoppedWhileScheduled.1 = None
  ∧ timers stoppedWhileScheduled.2 = ∅.
Proof. split_and!; try (vm_compute; reflexivity). Qed.

(** ** What a poll tells the observer *)

Section PollFacts.
Context {S : Type} `{IGameStorage S}.

Lemma timer_fires_keeps tid sm (w : World S) :
  SyncManager.lastVersion (SyncManager.timer_fires tid sm w).1 = SyncManager.lastVersion sm
  ∧ SyncManager.onUpdate (SyncManager.timer_fires tid sm w).1 = SyncManager.onUpdate sm
  ∧ log (SyncManager.timer_fires tid sm w).2 = log w.
Proof.
  unfold SyncManager.timer_fires. by destruct (timers w !! tid) as [[st ms]|].
Qed.

Lemma poll_resume_onUpdate res sm (w : World S) :
  SyncManager.onUpdate (SyncManager.poll_resume res sm w).1 = SyncManager.onUpdate sm.
Proof.
  unfold SyncManager.poll_resume. destruct (SyncManager.inflight sm); [done|].
  destruct res as [[room|]|]; try done. simpl.
  by destruct (SyncManager.lastVersion sm <? RoomState.version room).
Qed.

(** A poll either leaves the last-seen version and the observer alone, or
    it has fetched a strictly newer room, adopts its version and hands it
    to the observer. *)
Lemma poll_resume_cases res sm (w : World S) :
  (SyncManager.lastVersion (SyncManager.poll_resume res sm w).1 = SyncManager.lastVersion sm
   ∧ callbacks (log (SyncManager.poll_resume res sm w).2) = callbacks (log w)
   ∧ reportedVersions (log (SyncManager.poll_resume res sm w).2)
     = reportedVersions (log w))
  ∨ (∃ room, res = Resolved (Some room)
       ∧ SyncManager.lastVersion sm < RoomState.version room
       ∧ SyncManager.lastVersion (SyncManager.poll_resume res sm w).1
         = RoomState.version room
       ∧ log (SyncManager.poll_resume res sm w).2
         = log w ++ map Called (SyncManager.notify sm room)).
Proof.
  unfold SyncManager.poll_resume. destruct (SyncManager.inflight sm) as [|st rest].
  { by left. }
  destruct res as [[room|]|]; simpl.
  - destruct (Z.ltb_spec (SyncManager.lastVersion sm) (RoomState.version room)).
    + right. exists room. by split_and!.
    + by left.
  - by left.
  - left. unfold callbacks, reportedVersions. rewrite !omap_app. simpl.
    by rewrite !app_nil_r.
Qed.

Lemma poll_resume_monotone res sm (w : World S) :
  SyncManager.lastVersion sm ≤ SyncManager.lastVersion (SyncManager.poll_resume res sm w).1.
Proof.
  destruct (poll_resume_cases res sm w) as [(-> & _)|(room & _ & Hlt & -> & _)]; lia.
Qed.

Lemma pollRounds_monotone results sm (w : World S) :
  SyncManager.lastVersion sm
  ≤ SyncManager.lastVersion (SyncManager.pollRounds results sm w).1.
Proof.
  revert sm w. induction results as [|res results IH]; intros sm w; simpl; [lia|].
  pose proof (poll_resume_monotone res sm w) as Hstep.
  destruct (SyncManager.poll_resume res sm w) as [sm1 w1]. simpl in Hstep.
  destruct (SyncManager.intervalId sm1) as [tid|].
  - pose proof (timer_fires_keeps tid sm1 w1) as (Hv & _).
    destruct (SyncManager.timer_fires tid sm1 w1) as [sm2 w2]. simpl in Hv.
    specialize (IH sm2 w2). lia.
  - specialize (IH sm1 w1). lia.
Qed.

Lemma reportedVersions_app a b :
  reportedVersions (a ++ b) = reportedVersions a ++ reportedVersions b.
Proof. apply omap_app. Qed.

(** Over any number of polls, an observer that records what it is handed
    sees strictly increasing versions, all above the version last seen
    before and none above the one last seen after. *)
Lemma pollRounds_reports_increasing results sm (w : World S) :
  SyncManager.onUpdate sm = Some recorder →
  ∃ vs, reportedVersions (log (SyncManager.pollRounds results sm w).2)
        = reportedVersions (log w) ++ vs
    ∧ StronglySorted Z.lt vs
    ∧ Forall (fun v => SyncManager.lastVersion sm < v
                       ≤ SyncManager.lastVersion (SyncManager.pollRounds results sm w).1)
             vs.
Proof.
  revert sm w. induction results as [|res results IH]; intros sm w Hobs; simpl.
  { exists []. rewrite app_nil_r. split_and!; [done|constructor|constructor]. }
  pose proof (poll_resume_cases res sm w) as Hcase.
  pose proof (poll_resume_onUpdate res sm w) as Hobs1.
  destruct (SyncManager.poll_resume res sm w) as [sm1 w1]. simpl in Hcase, Hobs1.
  assert (∃ sm2 w2,
            match SyncManager.intervalId sm1 with
            | Some tid => SyncManager.timer_fires tid sm1 w1
            | None => (sm1, w1)
            end = (sm2, w2)
            ∧ SyncManager.lastVersion sm2 = SyncManager.lastVersion sm1
            ∧ SyncManager.onUpdate sm2 = SyncManager.onUpdate sm1
            ∧ log w2 = log w1) as (sm2 & w2 & -> & Hv2 & Hobs2 & Hlog2).
  { destruct (SyncManager.intervalId sm1) as [tid|]; [|by exists sm1, w1].
    pose proof (timer_fires_keeps tid sm1 w1) as (? & ? & ?).
    destruct (SyncManager.timer_fires tid sm1 w1) as [sm2 w2]. by exists sm2, w2. }
  destruct (IH sm2 w2) as (vs & Hrep & Hsorted & Hbound); [congruence|].
  pose proof (pollRounds_monotone results sm2 w2) as Hmono.
  rewrite Hlog2 in Hrep. rewrite Hv2 in Hbound, Hmono.
  destruct Hcase as [(Hv & _ & Hsame)|(room & _ & Hlt & Hv & Hlog)].
  - exists vs. rewrite Hrep, Hsame. split_and!; [done|done|].
    eapply Forall_impl; [exact Hbound|]. intros v Hvv. simpl in Hvv. lia.
  - exists (RoomState.version room :: vs).
    rewrite Hrep, Hlog, reportedVersions_app.
    unfold SyncManager.notify. rewrite Hobs. simpl. rewrite <- app_assoc.
    split_and!; [done| |].
    + constructor; [done|]. eapply Forall_impl; [exact Hbound|].
      intros v Hvv. simpl in Hvv. lia.
    + constructor; [lia|]. eapply Forall_impl; [exact Hbound|].
      intros v Hvv. simpl in Hvv. lia.
Qed.

Lemma refresh_overwrites sm (w : World S) room :
  (getRoom (SyncManager.roomId sm) (store w)).1 = Some room →
  (SyncManager.refresh sm w).1.1 = Some room
  ∧ SyncManager.lastVersion (SyncManager.refresh sm w).1.2 = RoomState.version room
  ∧ log (SyncManager.refresh sm w).2
    = log w ++ [GetRoomCall (SyncManager.roomId sm) (Some room)]
        ++ map Called (SyncManager.notify sm room).
Proof.
  intros Hget. unfold SyncManager.refresh, storageGet.
  destruct (getRoom _ (store w)) as [r s1]. simpl in Hget. subst r. simpl.
  split_and!; [done|done|]. by rewrite <- app_assoc.
Qed.

Lemma notify_observer sm cb room :
  SyncManager.onUpdate sm = Some cb → SyncManager.notify sm room = cb room.
Proof. unfold SyncManager.notify. by intros ->. Qed.

Lemma notify_no_observer sm room :
  SyncManager.onUpdate sm = None → SyncManager.notify sm room = [].
Proof. unfold SyncManager.notify. by intros ->. Qed.

Lemma newerVersions_sorted results :
  ∀ seen, StronglySorted Z.lt (newerVersions seen results)
          ∧ Forall (fun v => seen < v) (newerVersions seen results).
Proof.
  induction results as [|[[room|]|] results IH]; intros seen; simpl;
    try apply IH; [split; constructor|].
  destruct (Z.ltb_spec seen (RoomState.version room)) as [Hlt|Hge]; [|apply IH].
  destruct (IH (RoomState.version room)) as [Hs Hf]. split.
  - by constructor.
  - constructor; [done|]. eapply Forall_impl; [exact Hf|]. intros v Hv. simpl in Hv. lia.
Qed.

(** A polling loop whose observer records what it is handed reports
    exactly the versions of [newerVersions], and the version it has last
    seen in the end is the last of them. *)
Lemma pollRounds_reports results :
  ∀ sm (w : World S) st,
    SyncManager.onUpdate sm = Some recorder →
    SyncManager.inflight sm = [st] →
    reportedVersions (log (SyncManager.pollRounds results sm w).2)
    = reportedVersions (log w) ++ newerVersions (SyncManager.lastVersion sm) results
    ∧ SyncManager.lastVersion (SyncManager.pollRounds results sm w).1
      = default (SyncManager.lastVersion sm)
                (last (newerVersions (SyncManager.lastVersion sm) results)).
Proof.
  induction results as [|res results IH]; intros sm w st Hobs Hin.
  { simpl. by rewrite app_nil_r. }
  cbn [SyncManager.pollRounds newerVersions]. unfold SyncManager.poll_resume.
  rewrite Hin. destruct res as [[room|]|]; simpl.
  - destruct (Z.ltb_spec (SyncManager.lastVersion sm) (RoomState.version room))
      as [Hlt|Hge]; simpl;
      unfold SyncManager.timer_fires; simpl; rewrite lookup_insert_eq; simpl.
    + match goal with |- context [SyncManager.pollRounds results ?sm' ?w'] =>
        destruct (IH sm' w' (RoomState.status room) Hobs eq_refl) as [Hrep Hlast] end.
      simpl in Hrep, Hlast. rewrite Hrep, Hlast.
      unfold SyncManager.notify. simpl. rewrite Hobs. simpl.
      rewrite reportedVersions_app. simpl. rewrite <- app_assoc. split; [done|].
      rewrite last_cons. by destruct (last _).
    + match goal with |- context [SyncManager.pollRounds results ?sm' ?w'] =>
        destruct (IH sm' w' st Hobs eq_refl) as [Hrep Hlast] end.
      simpl in Hrep, Hlast. by rewrite Hrep, Hlast.
  - unfold SyncManager.timer_fires; simpl; rewrite lookup_insert_eq; simpl.
    match goal with |- context [SyncManager.pollRounds results ?sm' ?w'] =>
      destruct (IH sm' w' st Hobs eq_refl) as [Hrep Hlast] end.
    simpl in Hrep, Hlast. by rewrite Hrep, Hlast.
  - unfold SyncManager.timer_fires; simpl; rewrite lookup_insert_eq; simpl.
    match goal with |- context [SyncManager.pollRounds results ?sm' ?w'] =>
      destruct (IH sm' w' st Hobs eq_refl) as [Hrep Hlast] end.
    simpl in Hrep, Hlast. rewrite Hrep, Hlast.
    rewrite reportedVersions_app. simpl. by rewrite app_nil_r.
Qed.

End PollFacts.

(** C10. A poll calls the observer with the fetched room exactly when the
    room's version is strictly above the last-seen one, which then becomes
    that version; an equal or older room, no room, or a failed fetch leave
    the last-seen version and the observer alone. So the last-seen version
    never decreases over polls, and an observer that records what it is
    handed is handed, over any run of polls, exactly the rooms that were
    newer than everything fetched before, in strictly increasing versions.
    [refresh] calls the observer with whatever room it fetched and takes
    its version, newer or not. *)
Theorem poll_notifies_only_on_newer_version :
  (∀ (S : Type) (HS : IGameStorage S) sm (w : World S) st rest res,
     SyncManager.inflight sm = st :: rest →
     (∀ room cb, res = Resolved (Some room) →
        SyncManager.onUpdate sm = Some cb →
        SyncManager.lastVersion sm < RoomState.version room →
        SyncManager.lastVersion (SyncManager.poll_resume res sm w).1
          = RoomState.version room
        ∧ log (SyncManager.poll_resume res sm w).2 = log w ++ map Called (cb room))
     ∧ (∀ room, res = Resolved (Some room) →
        SyncManager.onUpdate sm = None →
        SyncManager.lastVersion sm < RoomState.version room →
        SyncManager.lastVersion (SyncManager.poll_resume res sm w).1
          = RoomState.version room
        ∧ log (SyncManager.poll_resume res sm w).2 = log w)
     ∧ (∀ room, res = Resolved (Some room) →
        RoomState.version room ≤ SyncManager.lastVersion sm →
        SyncManager.lastVersion (SyncManager.poll_resume res sm w).1
          = SyncManager.lastVersion sm
        ∧ log (SyncManager.poll_resume res sm w).2 = log w)
     ∧ (res = Resolved None →
        SyncManager.lastVersion (SyncManager.poll_resume res sm w).1
          = SyncManager.lastVersion sm
        ∧ log (SyncManager.poll_resume res sm w).2 = log w)
     ∧ (res = Rejected →
        SyncManager.lastVersion (SyncManager.poll_resume res sm w).1
          = SyncManager.lastVersion sm
        ∧ callbacks (log (SyncManager.poll_resume res sm w).2) = callbacks (log w))
     ∧ SyncManager.lastVersion sm
       ≤ SyncManager.lastVersion (SyncManager.poll_resume res sm w).1)
  ∧ (∀ (S : Type) (HS : IGameStorage S) results sm (w : World S),
       SyncManager.lastVersion sm
       ≤ SyncManager.lastVersion (SyncManager.pollRounds results sm w).1)
  ∧ (∀ (S : Type) (HS : IGameStorage S) results sm (w : World S) st,
       SyncManager.onUpdate sm = Some recorder →
       SyncManager.inflight sm = [st] →
       reportedVersions (log (SyncManager.pollRounds results sm w).2)
       = reportedVersions (log w) ++ newerVersions (SyncManager.lastVersion sm) results
       ∧ SyncManager.lastVersion (SyncManager.pollRounds results sm w).1
         = default (SyncManager.lastVersion sm)
                   (last (newerVersions (SyncManager.lastVersion sm) results))
       ∧ StronglySorted Z.lt (newerVersions (SyncManager.lastVersion sm) results)
       ∧ Forall (fun v => SyncManager.lastVersion sm < v)
                (newerVersions (SyncManager.lastVersion sm) results))
  ∧ (∀ (S : Type) (HS : IGameStorage S) sm (w : World S) room cb,
       (getRoom (SyncManager.roomId sm) (store w)).1 = Some room →
       SyncManager.onUpdate sm = Some cb →
       (SyncManager.refresh sm w).1.1 = Some room
       ∧ SyncManager.lastVersion (SyncManager.refresh sm w).1.2 = RoomState.version room
       ∧ log (SyncManager.refresh sm w).2
         = log w ++ [GetRoomCall (SyncManager.roomId sm) (Some room)]
             ++ map Called (cb room)).
Proof.
  split_and!.
  - intros S HS sm w st rest res Hin.
    split_and!; [| | | | |apply poll_resume_monotone].
    + intros room cb -> Hcb Hlt. unfold SyncManager.poll_resume. rewrite Hin. simpl.
      apply Z.ltb_lt in Hlt as ->. simpl.
      unfold SyncManager.notify. simpl. by rewrite Hcb.
    + intros room -> Hcb Hlt. unfold SyncManager.poll_resume. rewrite Hin. simpl.
      apply Z.ltb_lt in Hlt as ->. simpl.
      unfold SyncManager.notify. simpl. rewrite Hcb. simpl. by rewrite app_nil_r.
    + intros room -> Hle. unfold SyncManager.poll_resume. rewrite Hin. simpl.
      by apply Z.ltb_ge in Hle as ->.
    + intros ->. unfold SyncManager.poll_resume. by rewrite Hin.
    + intros ->. unfold SyncManager.poll_resume. rewrite Hin. simpl.
      unfold callbacks. rewrite omap_app. simpl. by rewrite app_nil_r.
  - intros S HS. apply pollRounds_monotone.
  - intros S HS results sm w st Hobs Hin.
    destruct (pollRounds_reports results sm w st Hobs Hin) as [Hrep Hlast].
    destruct (newerVersions_sorted results (SyncManager.lastVersion sm)) as [Hs Hf].
    by split_and!.
  - intros S HS sm w room cb Hget Hcb.
    destruct (refresh_overwrites sm w room Hget) as (Hres & Hlast & Hlog).
    split_and!; [done|done|]. by rewrite Hlog, (notify_observer sm cb room Hcb).
Qed.

Lemma poll_notifies_only_on_newer_version_witness :
  (SyncManager.lastVersion
     (SyncManager.poll_resume (Resolved (Some (lobbyAt 5))) syncAt5 (memWorld lobby5)).1
   = SyncManager.lastVersion syncAt5
   ∧ log (SyncManager.poll_resume (Resolved (Some (lobbyAt 5))) syncAt5
            (memWorld lobby5)).2
     = log (memWorld lobby5))
  ∧ (SyncManager.lastVersion
       (SyncManager.poll_resume (Resolved (Some (lobbyAt 7))) syncAt5 (memWorld lobby5)).1
     = RoomState.version (lobbyAt 7)
     ∧ log (SyncManager.poll_resume (Resolved (Some (lobbyAt 7))) syncAt5
              (memWorld lobby5)).2
       = log (memWorld lobby5) ++ [Called (OnRoomUpdate (lobbyAt 7))])
  ∧ (SyncManager.lastVersion
       (SyncManager.poll_resume (Resolved (Some (lobbyAt 7)))
          (SyncManager.poll_begin waiting (SyncManager.new "ROOM-1"))
          (memWorld lobby5)).1
     = RoomState.version (lobbyAt 7)
     ∧ log (SyncManager.poll_resume (Resolved (Some (lobbyAt 7)))
              (SyncManager.poll_begin waiting (SyncManager.new "ROOM-1"))
              (memWorld lobby5)).2
       = log (memWorld lobby5))
  ∧ (SyncManager.lastVersion
       (SyncManager.poll_resume (Resolved None) syncAt5 (memWorld lobby5)).1
     = SyncManager.lastVersion syncAt5
     ∧ log (SyncManager.poll_resume (Resolved None) syncAt5 (memWorld lobby5)).2
       = log (memWorld lobby5))
  ∧ (SyncManager.lastVersion
       (SyncManager.poll_resume Rejected syncAt5 (memWorld lobby5)).1
     = SyncManager.lastVersion syncAt5
     ∧ callbacks (log (SyncManager.poll_resume Rejected syncAt5 (memWorld lobby5)).2)
       = callbacks (log (memWorld lobby5)))
  ∧ (reportedVersions
       (log (SyncManager.pollRounds
               [Resolved (Some (lobbyAt 7)); Resolved (Some (lobbyAt 6)); Rejected;
                Resolved (Some (lobbyAt 9)); Resolved (Some (lobbyAt 9))]
               syncAt5 (memWorld lobby5)).2)
     = [7; 9]
     ∧ SyncManager.lastVersion
         (SyncManager.pollRounds
            [Resolved (Some (lobbyAt 7)); Resolved (Some (lobbyAt 6)); Rejected;
             Resolved (Some (lobbyAt 9)); Resolved (Some (lobbyAt 9))]
            syncAt5 (memWorld lobby5)).1
       = 9)
  ∧ ((SyncManager.refresh (SyncManager.with_lastVersion 9 sync1) (memWorld lobby5)).1.1
     = Some lobby5
     ∧ SyncManager.lastVersion
         (SyncManager.refresh (SyncManager.with_lastVersion 9 sync1)
            (memWorld lobby5)).1.2
       = RoomState.version lobby5
     ∧ log (SyncManager.refresh (SyncManager.with_lastVersion 9 sync1)
              (memWorld lobby5)).2
       = log (memWorld lobby5)
           ++ [GetRoomCall "ROOM-1" (Some lobby5); Called (OnRoomUpdate lobby5)]).
Proof.
  destruct poll_notifies_only_on_newer_version as (Hpoll & _ & Hrec & Hrefresh).
  refine (conj _ (conj _ (conj _ (conj _ (conj _ (conj _ _)))))).
  - destruct (Hpoll _ MemStorage syncAt5 (memWorld lobby5) waiting []
                (Resolved (Some (lobbyAt 5))) eq_refl) as (_ & _ & Hold & _).
    apply (Hold (lobbyAt 5)); [reflexivity | vm_compute; discriminate].
  - destruct (Hpoll _ MemStorage syncAt5 (memWorld lobby5) waiting []
                (Resolved (Some (lobbyAt 7))) eq_refl) as (Hnew & _).
    apply (Hnew (lobbyAt 7) recorder);
      [reflexivity | reflexivity | vm_compute; reflexivity].
  - destruct (Hpoll _ MemStorage
                (SyncManager.poll_begin waiting (SyncManager.new "ROOM-1"))
                (memWorld lobby5) waiting [] (Resolved (Some (lobbyAt 7))) eq_refl)
      as (_ & Hmute & _).
    apply (Hmute (lobbyAt 7)); [reflexivity | reflexivity | vm_compute; reflexivity].
  - destruct (Hpoll _ MemStorage syncAt5 (memWorld lobby5) waiting []
                (Resolved None) eq_refl) as (_ & _ & _ & Hnull & _).
    apply Hnull. reflexivity.
  - destruct (Hpoll _ MemStorage syncAt5 (memWorld lobby5) waiting []
                Rejected eq_refl) as (_ & _ & _ & _ & Hrej & _).
    apply Hrej. reflexivity.
  - destruct (Hrec _ MemStorage
                [Resolved (Some (lobbyAt 7)); Resolved (Some (lobbyAt 6)); Rejected;
                 Resolved (Some (lobbyAt 9)); Resolved (Some (lobbyAt 9))]
                syncAt5 (memWorld lobby5) waiting eq_refl eq_refl)
      as (Hrep & Hlast & _).
    exact (conj Hrep Hlast).
  - apply (Hrefresh _ MemStorage (SyncManager.with_lastVersion 9 sync1)
             (memWorld lobby5) lobby5 recorder); reflexivity.
Defined.

(** [refresh] against a store holding an older copy than the one last
    seen: the observer is called and the last-seen version goes back. *)
Example refresh_takes_older_version :
  SyncManager.lastVersion
    (SyncManager.refresh (SyncManager.with_lastVersion 9 sync1) (memWorld lobby5)).1.2 = 5
  ∧ callbacks (log (SyncManager.refresh (SyncManager.with_lastVersion 9 sync1)
                      (memWorld lobby5)).2) = [OnRoomUpdate lobby5].
Proof. split; vm_compute; reflexivity. Qed.

(** ** Stopping the host controller *)

(** [HostController.stop()] called while the handler waits in a [delay]
    cancels it for good: the timer is cleared and the handler never
    resumes. *)
Lemma host_stop_cancels_delay :
  HostController.pending voteStarted = {[1%nat]}
  ∧ HostController.pending (HostController.stop voteStarted) = ∅
  ∧ HostController.timerFires 1 (HostController.stop voteStarted)
    = HostController.stop voteStarted
  ∧ HostController.calls (HostController.stop voteStarted) = [].
Proof. split_and!; vm_compute; reflexivity. Qed.

(** Called while the handler waits for a simulated player's action, it
    clears nothing: once the action settles the handler sets its next
    timer, and when that fires the phase is advanced and written. Only the
    [processPhase] after that sees the flag and ends the chain. *)
Lemma host_stop_misses_action_in_flight :
  HostController.calls voteActionInFlight = [HostController.AIAction "ai-2" "vote"]
  ∧ HostController.parked voteActionInFlight = HostController.VoteAction []
  ∧ HostController.isRunning (HostController.controller voteStoppedInFlight) = false
  ∧ HostController.pending voteStoppedInFlight = ∅
  ∧ HostController.calls voteAfterStop
    = [HostController.AIAction "ai-2" "vote";
       HostController.PhaseChange DAY_RESOLVE;
       HostController.GameStateUpdate (GameState.with_phase DAY_RESOLVE voteGame)]
  ∧ HostController.parked voteChainEnds = HostController.Idle
  ∧ HostController.calls voteChainEnds = HostController.calls voteAfterStop.
Proof. split_and!; vm_compute; reflexivity. Qed.

(** * Further properties *)

(** ** Seat mappings *)

Lemma find_some_unique {A} (P : A → bool) (l : list A) x :
  x ∈ l → P x = true → (∀ y, y ∈ l → P y = true → y = x) → find P l = Some x.
Proof.
  induction l as [|a l IH]; intros Hin Hx Huniq.
  - by apply elem_of_nil in Hin.
  - simpl. destruct (P a) eqn:Ha.
    + f_equal. apply Huniq; [apply list_elem_of_here | done].
    + apply IH; [|done|].
      * apply elem_of_cons in Hin as [->|Hin]; [congruence | done].
      * intros y Hy. apply Huniq. by apply list_elem_of_further.
Qed.

Lemma find_none_forall {A} (P : A → bool) (l : list A) :
  (∀ y, y ∈ l → P y = false) → find P l = None.
Proof.
  induction l as [|a l IH]; intros Hall; [done|]. simpl.
  rewrite (Hall a) by apply list_elem_of_here.
  apply IH. intros y Hy. apply Hall. by apply list_elem_of_further.
Qed.

Lemma createSeatMappings_elem mps n m :
  m ∈ GameSync.createSeatMappings mps n ↔
  ∃ i mp, (i < n)%nat ∧ mps !! i = Some mp ∧ m = GameSync.mappingFor i mp.
Proof.
  rewrite list_elem_of_lookup. split.
  - intros [i Hi]. rewrite createSeatMappings_lookup in Hi.
    case_bool_decide; [|done].
    destruct (mps !! i) as [mp|] eqn:Hmp; [|done]. simplify_eq/=. eauto.
  - intros (i & mp & Hi & Hmp & ->). exists i.
    rewrite createSeatMappings_lookup, bool_decide_eq_true_2 by done.
    by rewrite Hmp.
Qed.

(** X1. [createSeatMappings] seats the first [min(playerCount, length)]
    participants, in join order and under their own ids and names, on the
    seats 1, 2, ... without gap or repetition; later participants get no
    seat. *)
Theorem createSeatMappings_contiguous mps n :
  length (GameSync.createSeatMappings mps n) = Nat.min n (length mps)
  ∧ map gameSeat (GameSync.createSeatMappings mps n) = seq 1 (Nat.min n (length mps))
  ∧ NoDup (map gameSeat (GameSync.createSeatMappings mps n))
  ∧ map multiPlayerId (GameSync.createSeatMappings mps n) = map Player.id (take n mps)
  ∧ map multiPlayerName (GameSync.createSeatMappings mps n)
    = map Player.name (take n mps)
  ∧ (∀ i, (n ≤ i)%nat → GameSync.createSeatMappings mps n !! i = None).
Proof.
  assert (Hseats : map gameSeat (GameSync.createSeatMappings mps n)
                   = seq 1 (Nat.min n (length mps))).
  { apply list_eq. intros i. rewrite list_lookup_fmap, createSeatMappings_lookup.
    case_bool_decide as Hi.
    - destruct (mps !! i) as [mp|] eqn:Hmp; simpl.
      + apply lookup_lt_Some in Hmp as Hlt.
        rewrite lookup_seq_lt by lia. f_equal. lia.
      + apply lookup_ge_None in Hmp. by rewrite lookup_seq_ge by lia.
    - by rewrite lookup_seq_ge by lia. }
  split_and!.
  - apply createSeatMappings_length.
  - exact Hseats.
  - rewrite Hseats. apply NoDup_seq.
  - rewrite createSeatMappings_imap. apply list_eq. intros i.
    rewrite !list_lookup_fmap, list_lookup_imap. by destruct (take n mps !! i).
  - rewrite createSeatMappings_imap. apply list_eq. intros i.
    rewrite !list_lookup_fmap, list_lookup_imap. by destruct (take n mps !! i).
  - intros i Hi. rewrite createSeatMappings_lookup.
    by rewrite bool_decide_eq_false_2 by lia.
Qed.

(** X2. With distinct participant ids, the seat a participant reads back
    from the mappings is the one it was given (index + 1); a participant
    beyond [playerCount], or a stranger, reads no seat. *)
Theorem seat_lookup_round_trip mps n :
  NoDup (map Player.id mps) →
  (∀ i mp, (i < n)%nat → mps !! i = Some mp →
     Atoms.currentGameSeatAtom (Player.id mp) (GameSync.createSeatMappings mps n)
     = Some (S i))
  ∧ (∀ pid, pid ∉ map Player.id (take n mps) →
       Atoms.currentGameSeatAtom pid (GameSync.createSeatMappings mps n) = None).
Proof.
  intros Hnd. split.
  - intros i mp Hi Hmp. unfold Atoms.currentGameSeatAtom.
    rewrite (find_some_unique _ _ (GameSync.mappingFor i mp)).
    + simpl. f_equal. lia.
    + apply createSeatMappings_elem. eauto.
    + simpl. apply String.eqb_refl.
    + intros y (j & mq & Hj & Hmq & ->)%createSeatMappings_elem Heq.
      simpl in Heq. apply String.eqb_eq in Heq.
      assert (j = i) as ->.
      { eapply NoDup_lookup; [exact Hnd| |].
        - rewrite list_lookup_fmap, Hmq. simpl. reflexivity.
        - rewrite list_lookup_fmap, Hmp. simpl. by rewrite Heq. }
      congruence.
  - intros pid Hpid. unfold Atoms.currentGameSeatAtom.
    rewrite find_none_forall; [done|].
    intros y (j & mq & Hj & Hmq & ->)%createSeatMappings_elem. simpl.
    apply String.eqb_neq. intros Heq. apply Hpid.
    apply list_elem_of_fmap. exists mq. split; [done|].
    apply list_elem_of_lookup. exists j. by rewrite lookup_take_lt.
Qed.

Lemma createSeatMappings_same_seat mps n m m' :
  m ∈ GameSync.createSeatMappings mps n → m' ∈ GameSync.createSeatMappings mps n →
  gameSeat m = gameSeat m' → m = m'.
Proof.
  intros (i & mp & _ & Hmp & ->)%createSeatMappings_elem
         (j & mq & _ & Hmq & ->)%createSeatMappings_elem Hseat.
  simpl in Hseat. assert (i = j) as -> by lia. congruence.
Qed.

Lemma createSeatMappings_same_id mps n m m' :
  NoDup (map Player.id mps) →
  m ∈ GameSync.createSeatMappings mps n → m' ∈ GameSync.createSeatMappings mps n →
  multiPlayerId m = multiPlayerId m' → m = m'.
Proof.
  intros Hnd (i & mp & _ & Hmp & ->)%createSeatMappings_elem
         (j & mq & _ & Hmq & ->)%createSeatMappings_elem Hid.
  simpl in Hid. assert (i = j) as ->.
  { eapply NoDup_lookup; [exact Hnd| |].
    - rewrite list_lookup_fmap, Hmp. simpl. reflexivity.
    - rewrite list_lookup_fmap, Hmq. simpl. by rewrite Hid. }
  congruence.
Qed.

(** X3. With distinct participant ids and the mappings of
    [createSeatMappings], it is a participant's turn exactly when the
    speaker's seat is the seat the participant reads for itself; with no
    game state or no speaker it is nobody's turn. *)
Theorem my_turn_iff_my_seat mps n room pid :
  NoDup (map Player.id mps) →
  (∀ g s, Atoms.multiplayerGameStateAtom room = Some g →
     GameState.currentSpeakerSeat g = Some s →
     Atoms.isMyTurnAtom room (GameSync.createSeatMappings mps n) pid = true
     ↔ Atoms.currentGameSeatAtom pid (GameSync.createSeatMappings mps n) = Some s)
  ∧ (Atoms.multiplayerGameStateAtom room = None →
     Atoms.isMyTurnAtom room (GameSync.createSeatMappings mps n) pid = false)
  ∧ (∀ g, Atoms.multiplayerGameStateAtom room = Some g →
     GameState.currentSpeakerSeat g = None →
     Atoms.isMyTurnAtom room (GameSync.createSeatMappings mps n) pid = false).
Proof.
  intros Hnd. split_and!.
  - intros g s Hg Hs.
    unfold Atoms.isMyTurnAtom, Atoms.currentTurnPlayerAtom, Atoms.currentGameSeatAtom.
    rewrite Hg, Hs. split.
    + destruct (find (fun m => Nat.eqb (gameSeat m) s) _) as [m|] eqn:Hfind;
        [|discriminate].
      intros Hid. apply find_some in Hfind as [Hin Hseat].
      apply list_elem_of_In in Hin. apply Nat.eqb_eq in Hseat.
      rewrite (find_some_unique _ _ m); [by rewrite <- Hseat|done|done|].
      intros y Hy Hyid. apply String.eqb_eq in Hid, Hyid.
      apply (createSeatMappings_same_id mps n); try done. congruence.
    + destruct (find (fun m => String.eqb (multiPlayerId m) pid) _) as [m|] eqn:Hfind;
        [|discriminate].
      intros [= Hseat]. apply find_some in Hfind as [Hin Hid].
      apply list_elem_of_In in Hin.
      rewrite (find_some_unique _ _ m); [done|done|by apply Nat.eqb_eq|].
      intros y Hy Hys. apply Nat.eqb_eq in Hys.
      apply (createSeatMappings_same_seat mps n); try done. congruence.
  - intros Hg. unfold Atoms.isMyTurnAtom, Atoms.currentTurnPlayerAtom. by rewrite Hg.
  - intros g Hg Hs. unfold Atoms.isMyTurnAtom, Atoms.currentTurnPlayerAtom.
    by rewrite Hg, Hs.
Qed.

(** ** The shuffle and the roles *)

Lemma shuffle_loop_short {A} rnd k i (l : list A) :
  (length l ≤ 1)%nat → GameSync.shuffle_loop rnd k i l = l.
Proof.
  intros Hlen. revert k. induction i as [|i IH]; intros k; simpl; [done|].
  rewrite <- (IH (S k)) at 2. f_equal.
  unfold GameSync.swap.
  destruct l as [|x [|y l]]; simpl in *; try lia; [done|].
  destruct (i + 1)%nat as [|i'] eqn:Hi; [lia|]. done.
Qed.

(** X4. Whatever the random source draws, [shuffleArray] returns a
    rearrangement of its argument: same length, same elements with the
    same multiplicities; an array of at most one element comes back as it
    is. *)
Theorem shuffleArray_rearranges {A} (rnd : Random) (array : list A) :
  GameSync.shuffleArray rnd array ≡ₚ array
  ∧ length (GameSync.shuffleArray rnd array) = length array
  ∧ (∀ x, x ∈ GameSync.shuffleArray rnd array ↔ x ∈ array)
  ∧ (∀ f : A → bool,
       countWhere f (GameSync.shuffleArray rnd array) = countWhere f array)
  ∧ ((length array ≤ 1)%nat → GameSync.shuffleArray rnd array = array).
Proof.
  pose proof (shuffleArray_Permutation rnd array) as Hperm.
  split_and!.
  - exact Hperm.
  - by rewrite Hperm.
  - intros x. by rewrite Hperm.
  - intros f. by apply countWhere_Permutation.
  - intros Hlen. by apply shuffle_loop_short.
Qed.

Lemma selectRoles_balance n :
  rolesCount Seer (GameSync.selectRoles n) = 1%nat
  ∧ (1 ≤ rolesCount Werewolf (GameSync.selectRoles n))%nat
  ∧ (2 * rolesCount Werewolf (GameSync.selectRoles n)
     < length (GameSync.selectRoles n))%nat.
Proof.
  pose proof (clampCount_range n) as (Hrange & _).
  unfold GameSync.selectRoles. destruct (GameSync.clampCount n) as [|c]; [lia|].
  do 3 (destruct c as [|c]; [lia|]).
  do 9 (destruct c as [|c]; [vm_compute; lia|]). lia.
Qed.

(** X5. For every participant count and every random source, [assignRoles]
    deals as many roles as the count clamped to 4..12, among them exactly
    one Seer and at least one Werewolf, and the Werewolves are fewer than
    the others. *)
Theorem assignRoles_balance rnd playerCount :
  length (GameSync.assignRoles rnd playerCount) = GameSync.clampCount playerCount
  ∧ rolesCount Seer (GameSync.assignRoles rnd playerCount) = 1%nat
  ∧ (1 ≤ rolesCount Werewolf (GameSync.assignRoles rnd playerCount))%nat
  ∧ (2 * rolesCount Werewolf (GameSync.assignRoles rnd playerCount)
     < length (GameSync.assignRoles rnd playerCount))%nat.
Proof.
  pose proof (assignRoles_Permutation rnd playerCount) as Hperm.
  pose proof (selectRoles_balance playerCount) as (Hseer & Hwolf & Hless).
  unfold rolesCount in *.
  rewrite !(countWhere_Permutation _ _ _ Hperm), Hperm.
  split_and!; try done. apply selectRoles_row.
Qed.

Lemma countWhere_ext_in {A} (f g : A → bool) (l : list A) :
  (∀ x, x ∈ l → f x = g x) → countWhere f l = countWhere g l.
Proof.
  induction l as [|x l IH]; intros Hext; [done|]. simpl.
  rewrite (Hext x) by apply list_elem_of_here. f_equal.
  apply IH. intros y Hy. apply Hext. by apply list_elem_of_further.
Qed.

Lemma countWhere_split {A} (f : A → bool) (l : list A) :
  (countWhere f l + countWhere (fun x => negb (f x)) l)%nat = length l.
Proof. induction l as [|x l IH]; [done|]. simpl. destruct (f x); simpl; lia. Qed.

Lemma countWhere_none {A} (f : A → bool) (l : list A) :
  (∀ x, x ∈ l → f x = false) → countWhere f l = 0%nat.
Proof.
  induction l as [|x l IH]; intros Hall; [done|]. simpl.
  rewrite (Hall x) by apply list_elem_of_here. simpl.
  apply IH. intros y Hy. apply Hall. by apply list_elem_of_further.
Qed.

Section FreshGame.
Variables (rnd : Random) (baseState : GameState.t) (mps : list Player.t)
          (n : nat) (difficulty : option Difficulty).

Let roles := GameSync.assignRoles rnd (length mps).
Let g := GameSync.createMultiplayerGameState rnd baseState mps
           (GameSync.createSeatMappings mps n) difficulty.
Let c := GameSync.clampCount (length mps).

(** The first [c] seats carry the shuffled row; no later seat is a
    Werewolf (they are Villagers, or participants left without a role). *)
Lemma fresh_roles_head :
  take c (map GamePlayer.role (GameState.players g)) = Some <$> roles.
Proof.
  assert (Hr : length roles = c) by apply assignRoles_length.
  apply list_eq. intros i. destruct (decide (i < c)%nat) as [Hi|Hi].
  - rewrite lookup_take_lt by done.
    rewrite !list_lookup_fmap. subst g. rewrite initial_players_lookup.
    destruct (lookup_lt_is_Some_2 roles i) as [r Hri]; [lia|].
    fold roles. rewrite Hri. simpl.
    case_bool_decide as Hh.
    + destruct (lookup_lt_is_Some_2 mps i) as [mp Hmp]; [lia|]. rewrite Hmp. simpl.
      by rewrite Hri.
    + rewrite bool_decide_eq_true_2 by (subst c; unfold GameSync.clampCount in *; lia).
      simpl. by rewrite Hri.
  - rewrite lookup_take_ge by lia. rewrite list_lookup_fmap.
    by rewrite (lookup_ge_None_2 roles i) by lia.
Qed.

Lemma fresh_roles_tail r :
  r ∈ drop c (map GamePlayer.role (GameState.players g)) → r ≠ Some Werewolf.
Proof.
  assert (Hr : length roles = GameSync.clampCount (length mps))
    by apply assignRoles_length.
  intros [i Hi]%list_elem_of_lookup. rewrite lookup_drop, list_lookup_fmap in Hi.
  subst g c. rewrite initial_players_lookup in Hi. fold roles in Hi.
  set (k := (GameSync.clampCount (length mps) + i)%nat) in *.
  assert (Hk : roles !! k = None) by (apply lookup_ge_None_2; lia).
  repeat case_bool_decide; simpl in Hi.
  - destruct (mps !! k); simpl in Hi; [|done].
    rewrite Hk in Hi. by injection Hi as <-.
  - rewrite Hk in Hi. by injection Hi as <-.
  - done.
Qed.

Lemma fresh_wolves :
  aliveWolfCount g = rolesCount Werewolf roles.
Proof.
  unfold aliveWolfCount, rolesCount.
  rewrite (countWhere_ext_in _ HostController.isWolf).
  2:{ intros p Hp. subst g. by rewrite (initial_alive _ _ _ _ _ p Hp). }
  change HostController.isWolf
    with ((fun x => bool_decide (x = Some Werewolf)) ∘ GamePlayer.role).
  rewrite <- countWhere_fmap.
  change (GamePlayer.role <$> GameState.players g)
    with (map GamePlayer.role (GameState.players g)).
  rewrite <- (take_drop c (map GamePlayer.role (GameState.players g))).
  rewrite countWhere_app, fresh_roles_head, countWhere_fmap.
  rewrite (countWhere_none _ (drop c _)).
  2:{ intros r Hr. apply bool_decide_eq_false. by apply fresh_roles_tail. }
  rewrite Nat.add_0_r. apply countWhere_ext_in. intros x _. simpl.
  destruct (decide (x = Werewolf)) as [->|Hne].
  - by rewrite !bool_decide_eq_true_2.
  - rewrite !bool_decide_eq_false_2; [done|done|congruence].
Qed.

Lemma fresh_others :
  (aliveWolfCount g + aliveOtherCount g)%nat = Nat.max (length mps) 6.
Proof.
  unfold aliveWolfCount, aliveOtherCount.
  rewrite (countWhere_ext_in _ HostController.isWolf).
  2:{ intros p Hp. subst g. by rewrite (initial_alive _ _ _ _ _ p Hp). }
  rewrite (countWhere_ext_in (fun p => GamePlayer.alive p && negb (HostController.isWolf p))
             (fun p => negb (HostController.isWolf p))).
  2:{ intros p Hp. subst g. by rewrite (initial_alive _ _ _ _ _ p Hp). }
  rewrite countWhere_split. subst g. apply initial_players_length.
Qed.

End FreshGame.

(** X6. A game just created is not over: on the state built by
    [createMultiplayerGameState] over the mappings of [createSeatMappings],
    whatever the participants and the shuffle, [checkGameEnd] answers
    [false] and records no winner. *)
Theorem fresh_game_is_not_over rnd baseState mps n difficulty running timeout :
  HostController.checkGameEnd
    (HostController.mk running
       (Some (GameSync.createMultiplayerGameState rnd baseState mps
                (GameSync.createSeatMappings mps n) difficulty)) timeout)
  = (false,
     HostController.mk running
       (Some (GameSync.createMultiplayerGameState rnd baseState mps
                (GameSync.createSeatMappings mps n) difficulty)) timeout).
Proof.
  set (g := GameSync.createMultiplayerGameState rnd baseState mps
              (GameSync.createSeatMappings mps n) difficulty).
  rewrite (checkGameEnd_unfold (HostController.mk running (Some g) timeout) g eq_refl).
  pose proof (fresh_wolves rnd baseState mps n difficulty) as Hw.
  pose proof (fresh_others rnd baseState mps n difficulty) as Ho.
  fold g in Hw, Ho. clearbody g.
  pose proof (assignRoles_balance rnd (length mps)) as (Hlen & _ & Hone & Hless).
  pose proof (clampCount_range (length mps)) as (Hrange & _).
  assert (GameSync.clampCount (length mps) ≤ Nat.max (length mps) 6)%nat
    by (unfold GameSync.clampCount; lia).
  rewrite (proj2 (Nat.eqb_neq _ _)) by lia.
  rewrite (proj2 (Nat.leb_gt _ _)) by lia. done.
Qed.

(** X7. In the state [createMultiplayerGameState] builds, the phase is
    SETUP, player [i] sits on seat [i + 1], the first
    [min(playerCount, length)] players are the human participants and every
    later one is a simulated player named after its seat, and each player's
    alignment is the wolves' exactly when its role is Werewolf. *)
Theorem initial_state_shape rnd baseState mps n difficulty :
  let g := GameSync.createMultiplayerGameState rnd baseState mps
             (GameSync.createSeatMappings mps n) difficulty in
  GameState.phase g = SETUP
  ∧ GameState.difficulty g = default normal difficulty
  ∧ (∀ i p, GameState.players g !! i = Some p →
       GamePlayer.seat p = S i
       ∧ GamePlayer.alive p = true
       ∧ (GamePlayer.isHuman p = true ↔ (i < Nat.min n (length mps))%nat)
       ∧ (GamePlayer.isHuman p = false →
          GamePlayer.playerId p = "ai-" +:+ pretty (S i)
          ∧ is_Some (GamePlayer.role p))
       ∧ (GamePlayer.alignment p = wolf ↔ GamePlayer.role p = Some Werewolf)).
Proof.
  intros g. split_and!; [done|done|].
  assert (Halign : ∀ r, GameSync.getAlignment r = wolf ↔ r = Some Werewolf).
  { intros r. unfold GameSync.getAlignment.
    destruct (decide (r = Some Werewolf)) as [Hr|Hr].
    - by rewrite bool_decide_eq_true_2.
    - rewrite bool_decide_eq_false_2 by done. split; intros Hx; done. }
  intros i p Hp. subst g. rewrite initial_players_lookup in Hp.
  case_bool_decide as Hi.
  - destruct (mps !! i) as [mp|]; simplify_eq/=.
    split_and!; try done; try lia; try apply Halign.
  - case_bool_decide; simplify_eq/=.
    split_and!; try done; try lia; try apply Halign.
    intros _. replace (i + 1)%nat with (S i) by lia. eauto.
Qed.

(** ** Who has to act *)

Lemma elem_of_List_filter {A} (f : A → bool) (l : list A) x :
  x ∈ List.filter f l ↔ x ∈ l ∧ f x = true.
Proof. rewrite !list_elem_of_In. apply filter_In. Qed.

(** X8. [getRequiredPlayers] only ever names living players of the game;
    outside the night-action, speech and vote phases it names nobody, in a
    speech phase at most one player, and in a vote phase every living
    player. *)
Theorem getRequiredPlayers_sound g :
  (∀ id, id ∈ ActionQueue.getRequiredPlayers g →
     ∃ p, p ∈ GameState.players g ∧ GamePlayer.alive p = true
          ∧ GamePlayer.playerId p = id)
  ∧ (GameState.phase g ∈ [SETUP; NIGHT_START; NIGHT_RESOLVE; DAY_START;
                           DAY_BADGE_SIGNUP; DAY_RESOLVE; GAME_END] →
     ActionQueue.getRequiredPlayers g = [])
  ∧ (GameState.phase g ∈ [DAY_SPEECH; DAY_BADGE_SPEECH; DAY_PK_SPEECH] →
     (length (ActionQueue.getRequiredPlayers g) ≤ 1)%nat)
  ∧ (GameState.phase g ∈ [DAY_VOTE; DAY_BADGE_ELECTION] →
     ∀ p, p ∈ GameState.players g → GamePlayer.alive p = true →
          GamePlayer.playerId p ∈ ActionQueue.getRequiredPlayers g).
Proof.
  split_and!.
  - intros id. unfold ActionQueue.getRequiredPlayers.
    assert (Hrole : ∀ r, id ∈ map GamePlayer.playerId
                           (List.filter (ActionQueue.withRole r)
                              (List.filter GamePlayer.alive (GameState.players g))) →
              ∃ p, p ∈ GameState.players g ∧ GamePlayer.alive p = true
                   ∧ GamePlayer.playerId p = id).
    { intros r (p & -> & Hp)%list_elem_of_fmap.
      apply elem_of_List_filter in Hp as [Hp _].
      apply elem_of_List_filter in Hp as [Hp Halive]. eauto. }
    assert (Hall : id ∈ map GamePlayer.playerId
                     (List.filter GamePlayer.alive (GameState.players g)) →
              ∃ p, p ∈ GameState.players g ∧ GamePlayer.alive p = true
                   ∧ GamePlayer.playerId p = id).
    { intros (p & -> & Hp)%list_elem_of_fmap.
      apply elem_of_List_filter in Hp as [Hp Halive]. eauto. }
    assert (Hspeech :
              id ∈ match GameState.currentSpeakerSeat g with
                   | None => []
                   | Some speaker =>
                       match find (fun p => Nat.eqb (GamePlayer.seat p) speaker)
                               (List.filter GamePlayer.alive (GameState.players g)) with
                       | Some speakerPlayer => [GamePlayer.playerId speakerPlayer]
                       | None => []
                       end
                   end →
              ∃ p, p ∈ GameState.players g ∧ GamePlayer.alive p = true
                   ∧ GamePlayer.playerId p = id).
    { destruct (GameState.currentSpeakerSeat g) as [s|]; [|by intros ?%elem_of_nil].
      destruct (find _ _) as [sp|] eqn:Hfind; [|by intros ?%elem_of_nil].
      intros ->%list_elem_of_singleton. apply find_some in Hfind as [Hin _].
      apply list_elem_of_In, elem_of_List_filter in Hin as [Hin Halive]. eauto. }
    destruct (GameState.phase g); eauto; by intros ?%elem_of_nil.
  - unfold ActionQueue.getRequiredPlayers. intros Hph.
    destruct (GameState.phase g); try done;
      repeat (apply elem_of_cons in Hph as [Hph|Hph]; [discriminate|]);
      by apply elem_of_nil in Hph.
  - unfold ActionQueue.getRequiredPlayers. intros Hph.
    assert (Hle : (length match GameState.currentSpeakerSeat g with
                          | None => []
                          | Some speaker =>
                              match find (fun p => Nat.eqb (GamePlayer.seat p) speaker)
                                      (List.filter GamePlayer.alive
                                         (GameState.players g)) with
                              | Some speakerPlayer => [GamePlayer.playerId speakerPlayer]
                              | None => []
                              end
                          end ≤ 1)%nat).
    { destruct (GameState.currentSpeakerSeat g); [destruct (find _ _)|]; simpl; lia. }
    destruct (GameState.phase g); try done;
      repeat (apply elem_of_cons in Hph as [Hph|Hph]; [discriminate|]);
      by apply elem_of_nil in Hph.
  - unfold ActionQueue.getRequiredPlayers. intros Hph p Hp Halive.
    assert (Hin : GamePlayer.playerId p
                  ∈ map GamePlayer.playerId
                      (List.filter GamePlayer.alive (GameState.players g))).
    { apply list_elem_of_fmap. exists p. split; [done|].
      by apply elem_of_List_filter. }
    destruct (GameState.phase g); try done;
      repeat (apply elem_of_cons in Hph as [Hph|Hph]; [discriminate|]);
      by apply elem_of_nil in Hph.
Qed.

(** X9. Every simulated player the host controller makes act in a
    night-action phase, and every one it makes vote in a vote phase, is a
    player [getRequiredPlayers] requires for that phase; outside the
    night-action phases [getAIPlayersForPhase] returns nobody, and it never
    returns a human or a dead player. *)
Theorem host_turns_are_required hc g :
  HostController.currentGameState hc = Some g →
  (∀ p, p ∈ HostTurns.getAIPlayersForPhase hc (GameState.phase g) →
     GamePlayer.playerId p ∈ ActionQueue.getRequiredPlayers g)
  ∧ (GameState.phase g ∈ [DAY_VOTE; DAY_BADGE_ELECTION] →
     ∀ p, p ∈ HostTurns.votingAIPlayers g →
          GamePlayer.playerId p ∈ ActionQueue.getRequiredPlayers g)
  ∧ (∀ phase p, p ∈ HostTurns.getAIPlayersForPhase hc phase →
       phase ∈ [NIGHT_GUARD_ACTION; NIGHT_WOLF_ACTION; NIGHT_WITCH_ACTION;
                NIGHT_SEER_ACTION]
       ∧ p ∈ GameState.players g
       ∧ GamePlayer.isHuman p = false ∧ GamePlayer.alive p = true
       ∧ GamePlayer.role p = HostTurns.roleMap phase).
Proof.
  intros Hg. split_and!.
  - intros p. unfold HostTurns.getAIPlayersForPhase, ActionQueue.getRequiredPlayers.
    rewrite Hg.
    assert (Hin : ∀ r,
              p ∈ List.filter
                    (fun p => negb (GamePlayer.isHuman p) && GamePlayer.alive p
                              && bool_decide (GamePlayer.role p = Some r))
                    (GameState.players g) →
              GamePlayer.playerId p
              ∈ map GamePlayer.playerId
                  (List.filter (ActionQueue.withRole r)
                     (List.filter GamePlayer.alive (GameState.players g)))).
    { intros r [Hp Hf]%elem_of_List_filter.
      apply andb_true_iff in Hf as [Hf Hrole]. apply andb_true_iff in Hf as [_ Halive].
      apply list_elem_of_fmap. exists p. split; [done|].
      apply elem_of_List_filter. split; [|done]. by apply elem_of_List_filter. }
    destruct (GameState.phase g); simpl; try (by intros ?%elem_of_nil); apply Hin.
  - intros Hph p [Hp Hf]%elem_of_List_filter.
    apply andb_true_iff in Hf as [_ Halive].
    by apply (getRequiredPlayers_sound g).
  - intros phase p. unfold HostTurns.getAIPlayersForPhase. rewrite Hg.
    destruct (HostTurns.roleMap phase) as [r|] eqn:Hr; [|by intros ?%elem_of_nil].
    intros [Hp Hf]%elem_of_List_filter.
    apply andb_true_iff in Hf as [Hf Hrole]. apply andb_true_iff in Hf as [Hh Halive].
    apply negb_true_iff in Hh. apply bool_decide_eq_true in Hrole.
    split_and!; try done.
    destruct phase; try discriminate; rewrite !elem_of_cons; eauto.
Qed.

(** ** The action queue *)

Lemma checkAllActionsComplete_spec g pending req :
  ActionQueue.checkAllActionsComplete g pending req = true
  ↔ ∀ id, id ∈ req → ∃ a, a ∈ pending ∧ actionPlayerId a = id.
Proof.
  unfold ActionQueue.checkAllActionsComplete. rewrite forallb_forall. split.
  - intros Hall id Hid. apply list_elem_of_In in Hid.
    apply Hall, bool_decide_eq_true in Hid.
    apply elem_of_list_to_set, list_elem_of_fmap in Hid as (a & -> & Ha). eauto.
  - intros Hall id Hid. apply list_elem_of_In in Hid.
    destruct (Hall id Hid) as (a & Ha & <-). apply bool_decide_eq_true.
    apply elem_of_list_to_set, list_elem_of_fmap. eauto.
Qed.

Lemma applyActions_pending now gd acts :
  pendingActions (foldl (ActionQueue.applyAction now) gd acts)
  = pendingActions gd ++ acts.
Proof.
  revert gd. induction acts as [|a acts IH]; intros gd; simpl.
  - by rewrite app_nil_r.
  - rewrite IH. simpl. by rewrite <- app_assoc.
Qed.

(** X10. The queue of pending actions only grows at its end, and a phase
    once complete stays complete: [applyAction] keeps every earlier action
    in place, [checkAllActionsComplete] stays [true] under further actions,
    becomes [true] as soon as each required player has an action in the
    queue (however many, in whatever order), is [true] when nobody is
    required, and is [false] while some required player has none. *)
Theorem action_queue_completes g gd now :
  (∀ a, pendingActions (ActionQueue.applyAction now gd a) = pendingActions gd ++ [a]
        ∧ gd_gameState (ActionQueue.applyAction now gd a) = gd_gameState gd)
  ∧ (∀ a req,
       ActionQueue.checkAllActionsComplete g (pendingActions gd) req = true →
       ActionQueue.checkAllActionsComplete g
         (pendingActions (ActionQueue.applyAction now gd a)) req = true)
  ∧ (∀ acts req,
       (∀ id, id ∈ req → ∃ a, a ∈ acts ∧ actionPlayerId a = id) →
       ActionQueue.checkAllActionsComplete g
         (pendingActions (foldl (ActionQueue.applyAction now) gd acts)) req = true)
  ∧ ActionQueue.checkAllActionsComplete g (pendingActions gd) [] = true
  ∧ (∀ req id, id ∈ req →
       (∀ a, a ∈ pendingActions gd → actionPlayerId a ≠ id) →
       ActionQueue.checkAllActionsComplete g (pendingActions gd) req = false).
Proof.
  split_and!.
  - done.
  - intros a req Hdone. apply checkAllActionsComplete_spec.
    intros id Hid. simpl.
    destruct (proj1 (checkAllActionsComplete_spec g _ req) Hdone id Hid)
      as (b & Hb & Hbid).
    exists b. split; [|done]. apply elem_of_app. by left.
  - intros acts req Hcover. apply checkAllActionsComplete_spec.
    intros id Hid. rewrite applyActions_pending.
    destruct (Hcover id Hid) as (a & Ha & Haid).
    exists a. split; [|done]. apply elem_of_app. by right.
  - done.
  - intros req id Hid Hnone.
    destruct (ActionQueue.checkAllActionsComplete g (pendingActions gd) req) eqn:Hc;
      [|done].
    destruct (proj1 (checkAllActionsComplete_spec g _ req) Hc id Hid) as (a & Ha & Haid).
    by destruct (Hnone a Ha).
Qed.

(** ** The polling loop *)

Section LoopFacts.
Context {S : Type} `{IGameStorage S}.

Lemma poll_round_alive res sm (w : World S) st :
  SyncManager.inflight sm = [st] →
  ∃ st' ms,
    SyncManager.intervalId (SyncManager.poll_resume res sm w).1 = Some (nextTimer w)
    ∧ SyncManager.inflight (SyncManager.poll_resume res sm w).1 = []
    ∧ timers (SyncManager.poll_resume res sm w).2 !! nextTimer w = Some (st', ms)
    ∧ ms = SyncManager.getInterval sm st'
    ∧ st' = match res with
            | Resolved (Some room) =>
                if SyncManager.lastVersion sm <? RoomState.version room
                then RoomState.status room else st
            | _ => st
            end.
Proof.
  intros Hin. unfold SyncManager.poll_resume. rewrite Hin.
  destruct res as [[room|]|]; simpl.
  - destruct (SyncManager.lastVersion sm <? RoomState.version room); simpl;
      eexists _, _; by rewrite lookup_insert_eq.
  - eexists _, _; by rewrite lookup_insert_eq.
  - eexists _, _; by rewrite lookup_insert_eq.
Qed.

(** X11. The polling loop neither dies nor multiplies: started with one
    poll in flight, after any number of rounds, whatever the fetches gave
    (rooms, nothing, or errors), exactly one poll is in flight again. After
    each single poll a timer is pending whose interval is the one for the
    status of the room just adopted, or else for the status polled with. *)
Theorem polling_loop_stays_alive :
  (∀ results sm (w : World S) st,
     SyncManager.inflight sm = [st] →
     ∃ st', SyncManager.inflight (SyncManager.pollRounds results sm w).1 = [st'])
  ∧ (∀ res sm (w : World S) st,
       SyncManager.inflight sm = [st] →
       ∃ st' ms,
         SyncManager.intervalId (SyncManager.poll_resume res sm w).1
           = Some (nextTimer w)
         ∧ SyncManager.inflight (SyncManager.poll_resume res sm w).1 = []
         ∧ timers (SyncManager.poll_resume res sm w).2 !! nextTimer w = Some (st', ms)
         ∧ ms = SyncManager.getInterval sm st'
         ∧ st' = match res with
                 | Resolved (Some room) =>
                     if SyncManager.lastVersion sm <? RoomState.version room
                     then RoomState.status room else st
                 | _ => st
                 end).
Proof.
  split; [|apply poll_round_alive].
  intros results. induction results as [|res results IH]; intros sm w st Hin; simpl.
  { eauto. }
  destruct (poll_round_alive res sm w st Hin) as (st' & ms & Hid & Hfl & Htm & _).
  destruct (SyncManager.poll_resume res sm w) as [sm1 w1]. simpl in *.
  rewrite Hid. unfold SyncManager.timer_fires. rewrite Htm.
  apply (IH _ _ st'). unfold SyncManager.poll_begin. simpl. by rewrite Hfl.
Qed.

(** X12. [stop] is idempotent and touches neither the store nor the
    observer; [start] on a manager whose next poll is scheduled cancels
    that timer and leaves exactly one poll in flight, so a restart does not
    double the loop. *)
Theorem sync_stop_idempotent sm (w : World S) :
  SyncManager.stop (SyncManager.stop sm w).1 (SyncManager.stop sm w).2
  = SyncManager.stop sm w
  ∧ SyncManager.intervalId (SyncManager.stop sm w).1 = None
  ∧ SyncManager.lastVersion (SyncManager.stop sm w).1 = SyncManager.lastVersion sm
  ∧ store (SyncManager.stop sm w).2 = store w
  ∧ log (SyncManager.stop sm w).2 = log w
  ∧ (∀ st tid,
       SyncManager.intervalId sm = Some tid → SyncManager.inflight sm = [] →
       timers (SyncManager.start st sm w).2 !! tid = None
       ∧ SyncManager.inflight (SyncManager.start st sm w).1 = [st]
       ∧ SyncManager.intervalId (SyncManager.start st sm w).1 = None).
Proof.
  unfold SyncManager.start, SyncManager.stop.
  destruct (SyncManager.intervalId sm) as [tid|] eqn:Hid; simpl.
  - split_and!; try done. intros st tid' [= <-] Hfl. simpl.
    rewrite Hfl. split_and!; try done. apply lookup_delete_eq.
  - rewrite Hid. split_and!; done.
Qed.

(** X13. A client is not told twice of its own write: after a successful
    [updateWithLock], a poll that fetches the room just written, or any
    room that is not newer, leaves the observer alone. *)
Theorem own_write_is_not_renotified updater maxRetries sm (w w' : World S) r seen st rest :
  (SyncManager.updateWithLock updater maxRetries sm w).1.1 = Some r →
  RoomState.version seen ≤ RoomState.version r →
  SyncManager.inflight (SyncManager.updateWithLock updater maxRetries sm w).1.2
    = st :: rest →
  log (SyncManager.poll_resume (Resolved (Some seen))
         (SyncManager.updateWithLock updater maxRetries sm w).1.2 w').2 = log w'
  ∧ SyncManager.lastVersion
      (SyncManager.poll_resume (Resolved (Some seen))
         (SyncManager.updateWithLock updater maxRetries sm w).1.2 w').1
    = RoomState.version r.
Proof.
  intros Hr Hle Hin.
  destruct (updateWithLock_loop_success updater maxRetries 0 sm w r Hr)
    as (_ & _ & _ & _ & _ & Hlast).
  unfold SyncManager.updateWithLock in *.
  destruct (SyncManager.updateWithLock_loop updater maxRetries 0 sm w) as [[res sm1] w1].
  simpl in *. unfold SyncManager.poll_resume. rewrite Hin. simpl.
  rewrite Hlast. by apply Z.ltb_ge in Hle as ->.
Qed.

End LoopFacts.

(** ** Against a store that accepts every write *)

Lemma updateWithLock_mem updater n sm (w : World (gmap string RoomState.t)) room :
  store w !! SyncManager.roomId sm = Some room →
  let r := updater (RoomState.bump (clock w) room) in
  SyncManager.updateWithLock updater (Datatypes.S n) sm w
  = (Some r,
     SyncManager.with_lastVersion (RoomState.version r) sm,
     mkWorld (<[RoomState.id r := r]> (store w)) (clock w) (timers w) (nextTimer w)
       (log w ++ [GetRoomCall (SyncManager.roomId sm) (Some room); SaveRoomCall r true]
              ++ map Called (SyncManager.notify sm r))).
Proof.
  intros Hroom r. unfold SyncManager.updateWithLock. simpl.
  unfold storageGet, storageSave. simpl. rewrite Hroom. simpl.
  unfold call, emit. simpl. by rewrite <- !app_assoc.
Qed.

Lemma updateWithLock_mem_absent updater n sm (w : World (gmap string RoomState.t)) :
  store w !! SyncManager.roomId sm = None →
  SyncManager.updateWithLock updater (Datatypes.S n) sm w
  = (None, sm,
     mkWorld (store w) (clock w) (timers w) (nextTimer w)
       (log w ++ [GetRoomCall (SyncManager.roomId sm) None])).
Proof.
  intros Hroom. unfold SyncManager.updateWithLock. simpl.
  unfold storageGet. simpl. by rewrite Hroom.
Qed.

(** X14. Against a store that accepts every write, [updateWithLock] lands
    at its first attempt, without waiting: one fetch, one write of the
    updater's result on the bumped copy (the version incremented as
    JavaScript adds, the time stamp renewed); if the updater keeps the room
    id, that result is what the store then holds and what [refresh] reads
    back. With no room in the store it answers null and writes nothing. *)
Theorem updateWithLock_reliable_round_trip updater n sm (w : World (gmap string RoomState.t)) :
  (∀ room,
     store w !! SyncManager.roomId sm = Some room →
     let r := updater (RoomState.bump (clock w) room) in
     let run := SyncManager.updateWithLock updater (Datatypes.S n) sm w in
     run.1.1 = Some r
     ∧ sleeps (log run.2) = sleeps (log w)
     ∧ clock run.2 = clock w
     ∧ SyncManager.lastVersion run.1.2 = RoomState.version r
     ∧ (RoomState.id r = SyncManager.roomId sm →
        store run.2 !! SyncManager.roomId sm = Some r
        ∧ (SyncManager.refresh run.1.2 run.2).1.1 = Some r))
  ∧ (store w !! SyncManager.roomId sm = None →
     (SyncManager.updateWithLock updater (Datatypes.S n) sm w).1.1 = None
     ∧ store (SyncManager.updateWithLock updater (Datatypes.S n) sm w).2 = store w).
Proof.
  split.
  - intros room Hroom r run. subst run.
    rewrite (updateWithLock_mem updater n sm w room Hroom). fold r.
    cbn [fst snd log clock store SyncManager.lastVersion SyncManager.with_lastVersion].
    split_and!; try done.
    + rewrite !sleeps_app, sleeps_called. simpl. by rewrite app_nil_r.
    + intros Hid. rewrite Hid.
      assert (Hst : <[SyncManager.roomId sm := r]> (store w) !! SyncManager.roomId sm
                    = Some r) by apply lookup_insert_eq.
      split; [done|]. unfold SyncManager.refresh, storageGet. simpl. by rewrite Hst.
  - intros Hnone. by rewrite (updateWithLock_mem_absent updater n sm w Hnone).
Qed.

Lemma lockedUpdate_mem updater m sm (w : World (gmap string RoomState.t)) room :
  MultiplayerManager.sync m = Some sm →
  store w !! SyncManager.roomId sm = Some room →
  let r := updater (RoomState.bump (clock w) room) in
  MultiplayerManager.lockedUpdate updater m w
  = (Some r,
     MultiplayerManager.with_sync
       (Some (SyncManager.with_lastVersion (RoomState.version r) sm)) m,
     mkWorld (<[RoomState.id r := r]> (store w)) (clock w) (timers w) (nextTimer w)
       (log w ++ [GetRoomCall (SyncManager.roomId sm) (Some room); SaveRoomCall r true]
              ++ map Called (SyncManager.notify sm r))).
Proof.
  intros Hsm Hroom r. unfold MultiplayerManager.lockedUpdate. rewrite Hsm.
  by rewrite (updateWithLock_mem updater 2 sm w room Hroom).
Qed.

Lemma hostInvariant_map (f : Player.t → Player.t) room room' :
  (∀ p, Player.isHost (f p) = Player.isHost p ∧ Player.id (f p) = Player.id p) →
  RoomState.players room' = map f (RoomState.players room) →
  RoomState.hostId room' = RoomState.hostId room →
  hostInvariant room' = hostInvariant room.
Proof.
  intros Hf Hps Hh. unfold hostInvariant. rewrite Hps, Hh.
  assert (Hfilter : List.filter Player.isHost (map f (RoomState.players room))
                    = map f (List.filter Player.isHost (RoomState.players room))).
  { clear Hps. induction (RoomState.players room) as [|p l IH]; [done|]. simpl.
    rewrite (proj1 (Hf p)). destruct (Player.isHost p); simpl; by rewrite IH. }
  rewrite Hfilter.
  destruct (List.filter Player.isHost (RoomState.players room)) as [|h [|h' l]];
    simpl; try done.
  by rewrite (proj2 (Hf h)).
Qed.

(** X15. [setReady] changes one flag and nothing else. Against a store that
    accepts every write, the room is written back under the version it was
    read at plus 1, as JavaScript adds (so unchanged at [2 ^ 53]), with
    the same host, status and players in the same order; the caller's
    [isReady] is the value asked for, every other player is untouched, and
    the host invariant is as before. A caller who is not a member changes
    no player at all. *)
Theorem setReady_changes_one_flag ready m sm (w : World (gmap string RoomState.t)) room :
  MultiplayerManager.sync m = Some sm →
  store w !! SyncManager.roomId sm = Some room →
  RoomState.id room = SyncManager.roomId sm →
  ∃ room',
    store (MultiplayerManager.setReady ready m w).2 !! SyncManager.roomId sm = Some room'
    ∧ RoomState.version room' = Number.add (RoomState.version room) 1
    ∧ RoomState.hostId room' = RoomState.hostId room
    ∧ RoomState.status room' = RoomState.status room
    ∧ RoomState.gameState room' = RoomState.gameState room
    ∧ map Player.id (RoomState.players room') = map Player.id (RoomState.players room)
    ∧ (∀ i p, RoomState.players room !! i = Some p →
         RoomState.players room' !! i
         = Some (if String.eqb (Player.id p) (MultiplayerManager.playerId m)
                 then Player.with_isReady ready p else p))
    ∧ hostInvariant room' = hostInvariant room
    ∧ (MultiplayerManager.playerId m ∉ map Player.id (RoomState.players room) →
       RoomState.players room' = RoomState.players room)
    ∧ MultiplayerManager.isHost (MultiplayerManager.setReady ready m w).1
      = MultiplayerManager.isHost m.
Proof.
  intros Hsm Hroom Hid. unfold MultiplayerManager.setReady. rewrite Hsm.
  rewrite (lockedUpdate_mem _ m sm w room Hsm Hroom).
  set (f := fun p : Player.t =>
              if String.eqb (Player.id p) (MultiplayerManager.playerId m)
              then Player.with_isReady ready p else p).
  assert (Hf : ∀ p, Player.isHost (f p) = Player.isHost p ∧ Player.id (f p) = Player.id p).
  { intros p. subst f. simpl. by destruct (String.eqb _ _). }
  exists (RoomState.with_players (map f (RoomState.players room))
            (RoomState.bump (clock w) room)).
  cbn [fst snd store RoomState.id RoomState.with_players RoomState.bump
       RoomState.version RoomState.hostId RoomState.status RoomState.gameState
       RoomState.players].
  rewrite Hid. split; [apply lookup_insert_eq|].
  split_and!; try done.
  - apply list_eq. intros i. rewrite !list_lookup_fmap.
    destruct (RoomState.players room !! i) as [p|]; [|done]. simpl. f_equal.
    apply Hf.
  - intros i p Hp. change (map f (RoomState.players room) !! i = Some (f p)).
    by rewrite list_lookup_fmap, Hp.
  - by apply (hostInvariant_map f).
  - intros Hnot. change (map f (RoomState.players room) = RoomState.players room).
    apply list_eq. intros i. rewrite list_lookup_fmap.
    destruct (RoomState.players room !! i) as [p|] eqn:Hp; [|done]. simpl. f_equal.
    subst f. simpl. destruct (String.eqb_spec (Player.id p) (MultiplayerManager.playerId m))
      as [Heq|Hne]; [|done].
    exfalso. apply Hnot. rewrite <- Heq. apply list_elem_of_fmap. exists p.
    split; [done|]. by apply list_elem_of_lookup_2 with i.
Qed.

(** ** Joining, creating and leaving, against a store that accepts writes *)

Lemma startSync_store {S : Type} `{IGameStorage S} room m (w : World S) :
  store (MultiplayerManager.startSync room m w).2 = store w
  ∧ log (MultiplayerManager.startSync room m w).2 = log w
  ∧ clock (MultiplayerManager.startSync room m w).2 = clock w
  ∧ MultiplayerManager.isHost (MultiplayerManager.startSync room m w).1
    = MultiplayerManager.isHost m
  ∧ MultiplayerManager.playerId (MultiplayerManager.startSync room m w).1
    = MultiplayerManager.playerId m
  ∧ MultiplayerManager.roomId (MultiplayerManager.startSync room m w).1
    = MultiplayerManager.roomId m.
Proof.
  unfold MultiplayerManager.startSync.
  destruct (negb (MultiplayerManager.storage m) || falsy (MultiplayerManager.roomId m));
    done.
Qed.

Lemma startSync_sync {S : Type} `{IGameStorage S} room m (w : World S) :
  MultiplayerManager.storage m = true → falsy (MultiplayerManager.roomId m) = false →
  ∃ sm, MultiplayerManager.sync (MultiplayerManager.startSync room m w).1 = Some sm
        ∧ SyncManager.roomId sm = theString (MultiplayerManager.roomId m)
        ∧ SyncManager.onUpdate sm = Some (MultiplayerManager.syncObserver room)
        ∧ SyncManager.lastVersion sm = 0
        ∧ SyncManager.inflight sm = [RoomState.status room]
        ∧ SyncManager.intervalId sm = None.
Proof.
  intros Hst Hrid. unfold MultiplayerManager.startSync. rewrite Hst, Hrid. simpl.
  eexists. split; [done|]. done.
Qed.

(** X16. A newcomer joins at the end. Against a store that accepts every
    write, [joinRoom] by a client that is not yet a member of a room that
    is not playing returns and stores the room, under the version it was
    read at plus 1 as JavaScript adds (so unchanged at [2 ^ 53]), with the
    newcomer appended after the existing players (not host, not ready,
    online), host and status unchanged; the host invariant and the
    distinctness of the ids carry over, and the client's host flag is
    down. *)
Theorem joinRoom_appends_newcomer m (w : World (gmap string RoomState.t)) room :
  MultiplayerManager.storage m = true →
  falsy (MultiplayerManager.roomId m) = false →
  falsy (MultiplayerManager.playerName m) = false →
  store w !! theString (MultiplayerManager.roomId m) = Some room →
  RoomState.id room = theString (MultiplayerManager.roomId m) →
  MultiplayerManager.playerId m ∉ map Player.id (RoomState.players room) →
  RoomState.status room ≠ playing →
  ∃ room',
    (MultiplayerManager.joinRoom None m w).1.1 = Some room'
    ∧ store (MultiplayerManager.joinRoom None m w).2
        !! theString (MultiplayerManager.roomId m) = Some room'
    ∧ RoomState.players room'
      = RoomState.players room
        ++ [Player.mk (MultiplayerManager.playerId m)
              (theString (MultiplayerManager.playerName m)) false false true (clock w)]
    ∧ RoomState.version room' = Number.add (RoomState.version room) 1
    ∧ RoomState.hostId room' = RoomState.hostId room
    ∧ RoomState.status room' = RoomState.status room
    ∧ hostInvariant room' = hostInvariant room
    ∧ (NoDup (map Player.id (RoomState.players room)) →
       NoDup (map Player.id (RoomState.players room')))
    ∧ MultiplayerManager.getIsHost (MultiplayerManager.joinRoom None m w).1.2 = false.
Proof.
  intros Hst Hrid Hname Hroom Hid Hnew Hstatus.
  assert (Hfind : find (fun p => String.eqb (Player.id p) (MultiplayerManager.playerId m))
                       (RoomState.players room) = None).
  { apply find_none_forall. intros p Hp. apply String.eqb_neq. intros Heq.
    apply Hnew. rewrite <- Heq. apply list_elem_of_fmap. eauto. }
  unfold MultiplayerManager.joinRoom. rewrite Hst, Hrid. simpl. rewrite Hname.
  unfold storageGet. simpl. rewrite Hroom, Hfind.
  rewrite bool_decide_eq_false_2 by done.
  unfold storageSave. simpl.
  match goal with |- context [MultiplayerManager.startSync ?r ?m' ?w'] =>
    pose proof (startSync_store r m' w') as (Hs & _ & _ & Hh & _);
    destruct (MultiplayerManager.startSync r m' w') as [m2 w2] end.
  simpl in Hs, Hh. eexists. simpl. rewrite Hs, Hid. unfold MultiplayerManager.getIsHost.
  split; [reflexivity|]. split; [apply lookup_insert_eq|].
  split_and!; try done.
  - unfold hostInvariant. simpl. rewrite List.filter_app. simpl. by rewrite app_nil_r.
  - intros Hnd. simpl. rewrite map_app. simpl. apply NoDup_app. split_and!.
    + done.
    + intros x Hx ->%list_elem_of_singleton. by apply Hnew.
    + apply NoDup_singleton.
Qed.

(** X17. A stranger cannot join a running game: [joinRoom] by a client
    that is not a member of a room in status [playing] answers null after
    its one fetch, reports the refusal and writes nothing. The client keeps
    its host flag and its sync; a name passed to the call has been set on
    it before the refusal, and nothing else of it changes. *)
Theorem joinRoom_refused_while_playing {S : Type} `{IGameStorage S}
    nameArg m (w : World S) room :
  MultiplayerManager.storage m = true →
  falsy (MultiplayerManager.roomId m) = false →
  falsy nameArg = false ∨ falsy (MultiplayerManager.playerName m) = false →
  (getRoom (theString (MultiplayerManager.roomId m)) (store w)).1 = Some room →
  MultiplayerManager.playerId m ∉ map Player.id (RoomState.players room) →
  RoomState.status room = playing →
  (MultiplayerManager.joinRoom nameArg m w).1.1 = None
  ∧ (MultiplayerManager.joinRoom nameArg m w).1.2
    = (if falsy nameArg then m
       else MultiplayerManager.setPlayerName (theString nameArg) m)
  ∧ MultiplayerManager.getIsHost (MultiplayerManager.joinRoom nameArg m w).1.2
    = MultiplayerManager.getIsHost m
  ∧ MultiplayerManager.sync (MultiplayerManager.joinRoom nameArg m w).1.2
    = MultiplayerManager.sync m
  ∧ log (MultiplayerManager.joinRoom nameArg m w).2
    = log w ++ [GetRoomCall (theString (MultiplayerManager.roomId m)) (Some room);
                Called (OnError "游戏已开始，无法加入")]
  ∧ store (MultiplayerManager.joinRoom nameArg m w).2
    = (getRoom (theString (MultiplayerManager.roomId m)) (store w)).2.
Proof.
  intros Hst Hrid Hname Hget Hnew Hstatus.
  assert (Hfind : find (fun p => String.eqb (Player.id p) (MultiplayerManager.playerId m))
                       (RoomState.players room) = None).
  { apply find_none_forall. intros p Hp. apply String.eqb_neq. intros Heq.
    apply Hnew. rewrite <- Heq. apply list_elem_of_fmap. eauto. }
  unfold MultiplayerManager.joinRoom. rewrite Hst, Hrid. cbn [negb orb].
  set (m1 := if falsy nameArg then m else _).
  assert (Hm1 : MultiplayerManager.playerId m1 = MultiplayerManager.playerId m
                ∧ MultiplayerManager.isHost m1 = MultiplayerManager.isHost m
                ∧ MultiplayerManager.sync m1 = MultiplayerManager.sync m
                ∧ falsy (MultiplayerManager.playerName m1) = false).
  { subst m1. destruct (falsy nameArg) eqn:Harg.
    - destruct Hname as [Hn|Hn]; [discriminate | done].
    - split_and!; try done. simpl. by destruct nameArg. }
  destruct Hm1 as (Hpid & Hhost & Hsync & Hnamed). rewrite Hnamed.
  unfold storageGet. destruct (getRoom _ (store w)) as [fetched s1]. simpl in Hget.
  subst fetched. rewrite Hpid, Hfind, (bool_decide_eq_true_2 _ Hstatus). simpl.
  unfold MultiplayerManager.getIsHost. split_and!; try done. by rewrite <- app_assoc.
Qed.

(** The room [createRoom] writes for a client at clock [now]. *)
Lemma createRoom_mem m (w : World (gmap string RoomState.t)) :
  MultiplayerManager.storage m = true →
  falsy (MultiplayerManager.roomId m) = false →
  falsy (MultiplayerManager.playerName m) = false →
  (∀ e, store w !! theString (MultiplayerManager.roomId m) = Some e →
        RoomState.status e = ended) →
  let fresh :=
    RoomState.mk (theString (MultiplayerManager.roomId m)) 1
      (MultiplayerManager.playerId m) waiting
      [Player.mk (MultiplayerManager.playerId m)
         (theString (MultiplayerManager.playerName m)) true true true (clock w)]
      None (clock w) (clock w) in
  (MultiplayerManager.createRoom None m w).1.1 = Some fresh
  ∧ store (MultiplayerManager.createRoom None m w).2
    = <[theString (MultiplayerManager.roomId m) := fresh]> (store w)
  ∧ MultiplayerManager.getIsHost (MultiplayerManager.createRoom None m w).1.2 = true
  ∧ log (MultiplayerManager.createRoom None m w).2
    = log w ++ [GetRoomCall (theString (MultiplayerManager.roomId m))
                  (store w !! theString (MultiplayerManager.roomId m));
                SaveRoomCall fresh true; Called (OnRoomUpdate fresh)].
Proof.
  intros Hst Hrid Hname Hold fresh.
  unfold MultiplayerManager.createRoom. rewrite Hst, Hrid. simpl. rewrite Hname.
  unfold storageGet. simpl.
  assert (Hgate : match store w !! theString (MultiplayerManager.roomId m) with
                  | Some e => negb (bool_decide (RoomState.status e = ended))
                  | None => false
                  end = false).
  { destruct (store w !! _) as [e|] eqn:He; [|done].
    by rewrite (bool_decide_eq_true_2 _ (Hold e eq_refl)). }
  rewrite Hgate. unfold storageSave. simpl.
  match goal with |- context [MultiplayerManager.startSync ?r ?m' ?w'] =>
    pose proof (startSync_store r m' w') as (Hs & Hl & _ & Hh & _);
    destruct (MultiplayerManager.startSync r m' w') as [m2 w2] end.
  simpl in Hs, Hl, Hh. simpl. unfold MultiplayerManager.getIsHost.
  rewrite Hs, Hl, Hh. split_and!; try done. by rewrite <- !app_assoc.
Qed.

(** X18. [createRoom] never overwrites a live room: when the fetch finds a
    room that is not [ended] it answers null, reports it and makes no
    write. Against a store that accepts writes, with no room or an ended
    one, it writes and returns a fresh room at version 1 whose only player
    is the caller, host and ready, which satisfies the host invariant; and
    [joinRoom] on an absent room does just that. *)
Theorem createRoom_protects_live_room :
  (∀ (S : Type) (HS : IGameStorage S) m (w : World S) e,
     MultiplayerManager.storage m = true →
     falsy (MultiplayerManager.roomId m) = false →
     falsy (MultiplayerManager.playerName m) = false →
     (getRoom (theString (MultiplayerManager.roomId m)) (store w)).1 = Some e →
     RoomState.status e ≠ ended →
     (MultiplayerManager.createRoom None m w).1.1 = None
     ∧ (MultiplayerManager.createRoom None m w).1.2 = m
     ∧ log (MultiplayerManager.createRoom None m w).2
       = log w ++ [GetRoomCall (theString (MultiplayerManager.roomId m)) (Some e);
                   Called (OnError "房间已存在，请直接加入")])
  ∧ (∀ m (w : World (gmap string RoomState.t)),
       MultiplayerManager.storage m = true →
       falsy (MultiplayerManager.roomId m) = false →
       falsy (MultiplayerManager.playerName m) = false →
       (∀ e, store w !! theString (MultiplayerManager.roomId m) = Some e →
             RoomState.status e = ended) →
       ∃ fresh,
         (MultiplayerManager.createRoom None m w).1.1 = Some fresh
         ∧ store (MultiplayerManager.createRoom None m w).2
             !! theString (MultiplayerManager.roomId m) = Some fresh
         ∧ RoomState.version fresh = 1
         ∧ RoomState.status fresh = waiting
         ∧ RoomState.hostId fresh = MultiplayerManager.playerId m
         ∧ map Player.id (RoomState.players fresh) = [MultiplayerManager.playerId m]
         ∧ hostInvariant fresh = true
         ∧ forallb Player.isReady (RoomState.players fresh) = true
         ∧ MultiplayerManager.getIsHost (MultiplayerManager.createRoom None m w).1.2
           = true
         ∧ (store w !! theString (MultiplayerManager.roomId m) = None →
            (MultiplayerManager.joinRoom None m w).1.1 = Some fresh)).
Proof.
  split.
  - intros S HS m w e Hst Hrid Hname Hget Hlive.
    unfold MultiplayerManager.createRoom. rewrite Hst, Hrid. simpl. rewrite Hname.
    unfold storageGet. destruct (getRoom _ (store w)) as [fetched s1]. simpl in Hget.
    subst fetched. rewrite (bool_decide_eq_false_2 _ Hlive). simpl.
    split_and!; try done. by rewrite <- app_assoc.
  - intros m w Hst Hrid Hname Hold.
    destruct (createRoom_mem m w Hst Hrid Hname Hold) as (Hres & Hstore & Hhost & _).
    eexists. split; [exact Hres|]. rewrite Hstore.
    split; [apply lookup_insert_eq|]. simpl.
    split_and!; try done.
    + unfold hostInvariant. simpl. apply String.eqb_refl.
    + intros Habsent. unfold MultiplayerManager.joinRoom.
      rewrite Hst, Hrid. simpl. rewrite Hname. unfold storageGet. simpl.
      rewrite Habsent.
      match goal with |- (MultiplayerManager.createRoom None m ?w1).1.1 = _ =>
        destruct (createRoom_mem m w1 Hst Hrid Hname) as (Hres1 & _) end.
      { simpl. intros e He. rewrite Habsent in He. done. }
      exact Hres1.
Qed.

Lemma markFirstHost_ids ps :
  map Player.id (MultiplayerManager.markFirstHost ps) = map Player.id ps.
Proof. by destruct ps. Qed.

Lemma stay_ids pid (ps : list Player.t) :
  map Player.id (filter (fun p => Player.id p ≠ pid) ps)
  = filter (fun i => i ≠ pid) (map Player.id ps).
Proof.
  induction ps as [|p ps IH]; [done|]. simpl.
  rewrite !filter_cons. destruct (decide (Player.id p ≠ pid)); simpl; by rewrite IH.
Qed.

(** X19. [leaveRoom] takes the caller out and nobody else. Against a store
    that accepts every write: when the caller was the only player the room
    object is deleted; otherwise the room is written back, under the
    version it was read at plus 1 as JavaScript adds (so unchanged at
    [2 ^ 53]), with the remaining players in their order, the caller's id
    gone and distinct ids still distinct. Either way the client ends without
    sync and with its host flag down. *)
Theorem leaveRoom_removes_caller m sm (w : World (gmap string RoomState.t)) room :
  MultiplayerManager.sync m = Some sm →
  MultiplayerManager.storage m = true →
  falsy (MultiplayerManager.roomId m) = false →
  store w !! theString (MultiplayerManager.roomId m) = Some room →
  RoomState.id room = theString (MultiplayerManager.roomId m) →
  let stay := filter (fun i => i ≠ MultiplayerManager.playerId m)
                     (map Player.id (RoomState.players room)) in
  (stay = [] →
   (store (MultiplayerManager.leaveRoom m w).2
      !! theString (MultiplayerManager.roomId m)) = None)
  ∧ (stay ≠ [] →
     ∃ room',
       (store (MultiplayerManager.leaveRoom m w).2
          !! theString (MultiplayerManager.roomId m)) = Some room'
       ∧ map Player.id (RoomState.players room') = stay
       ∧ (MultiplayerManager.playerId m ∉ map Player.id (RoomState.players room'))
       ∧ (NoDup (map Player.id (RoomState.players room)) →
          NoDup (map Player.id (RoomState.players room')))
       ∧ RoomState.version room' = Number.add (RoomState.version room) 1
       ∧ RoomState.status room' = RoomState.status room)
  ∧ MultiplayerManager.sync (MultiplayerManager.leaveRoom m w).1 = None
  ∧ MultiplayerManager.getIsHost (MultiplayerManager.leaveRoom m w).1 = false
  ∧ last (callbacks (log (MultiplayerManager.leaveRoom m w).2))
    = Some (OnPlayerLeave (MultiplayerManager.playerId m)).
Proof.
  intros Hsm Hst Hrid Hroom Hid stay.
  unfold MultiplayerManager.leaveRoom. rewrite Hsm, Hst, Hrid. simpl.
  destruct (SyncManager.stop sm w) as [sm1 w1] eqn:Hstop.
  pose proof (sync_stop_idempotent sm w) as (_ & _ & _ & Hs & _).
  rewrite Hstop in Hs. simpl in Hs.
  unfold storageGet. simpl. rewrite Hs, Hroom.
  set (rest := filter (fun p => Player.id p ≠ MultiplayerManager.playerId m)
                      (RoomState.players room)).
  assert (Hstay : stay = map Player.id rest) by (subst stay rest; by rewrite stay_ids).
  set (ups := if MultiplayerManager.isHost m && bool_decide (0 < length rest)%nat
              then MultiplayerManager.markFirstHost rest else rest).
  assert (Hups : map Player.id ups = stay).
  { subst ups. rewrite Hstay. destruct (_ && _); [apply markFirstHost_ids | done]. }
  assert (Hlen : length ups = length stay) by (by rewrite <- Hups, length_map).
  assert (Hcb : ∀ w' : World (gmap string RoomState.t), last (callbacks (log (call [OnPlayerLeave (MultiplayerManager.playerId m)] w')))
                      = Some (OnPlayerLeave (MultiplayerManager.playerId m))).
  { intros w'. unfold call, emit, callbacks. simpl. rewrite omap_app. simpl.
    by rewrite last_snoc. }
  split_and!; try done.
  - intros Hnone. rewrite bool_decide_eq_true_2 by (rewrite Hlen, Hnone; done).
    unfold storageDelete. simpl. rewrite ?Hs. apply lookup_delete_eq.
  - intros Hsome.
    rewrite bool_decide_eq_false_2 by (rewrite Hlen; by destruct stay).
    unfold storageSave. simpl. rewrite ?Hs, Hid. eexists.
    split; [apply lookup_insert_eq|]. simpl. split_and!; try done.
    + rewrite Hups. subst stay. intros [Hne _]%list_elem_of_filter. done.
    + intros Hnd. rewrite Hups. subst stay. by apply NoDup_filter.
  - apply Hcb.
Qed.

(** ** Host-only operations, against a store that accepts writes *)

(** X20. With its host flag up and everybody ready, the host's [startGame]
    succeeds against a store that accepts writes: it answers [true], calls
    [onGameStart], and the room is stored as the bumped copy (the version
    incremented as JavaScript adds, the time stamp renewed) in status
    [playing], with the same players and host. With somebody unready in a
    room that is not playing it answers [false] and the stored status is
    unchanged. *)
Theorem startGame_all_ready m sm (w : World (gmap string RoomState.t)) room :
  MultiplayerManager.isHost m = true →
  MultiplayerManager.sync m = Some sm →
  store w !! SyncManager.roomId sm = Some room →
  RoomState.id room = SyncManager.roomId sm →
  (forallb Player.isReady (RoomState.players room) = true →
   (MultiplayerManager.startGame m w).1.1 = true
   ∧ store (MultiplayerManager.startGame m w).2 !! SyncManager.roomId sm
     = Some (RoomState.with_status playing (RoomState.bump (clock w) room))
   ∧ last (callbacks (log (MultiplayerManager.startGame m w).2)) = Some OnGameStart)
  ∧ (forallb Player.isReady (RoomState.players room) = false →
     RoomState.status room ≠ playing →
     (MultiplayerManager.startGame m w).1.1 = false
     ∧ RoomState.status <$>
         store (MultiplayerManager.startGame m w).2 !! SyncManager.roomId sm
       = Some (RoomState.status room)
     ∧ RoomState.players <$>
         store (MultiplayerManager.startGame m w).2 !! SyncManager.roomId sm
       = Some (RoomState.players room)).
Proof.
  intros Hflag Hsm Hroom Hid.
  unfold MultiplayerManager.startGame. rewrite Hflag, Hsm. simpl.
  rewrite (lockedUpdate_mem _ m sm w room Hsm Hroom).
  unfold MultiplayerManager.startGameUpdater. simpl. split.
  - intros ->. simpl. split; [done|]. rewrite Hid.
    split; [apply lookup_insert_eq|].
    unfold call, emit, callbacks. simpl. rewrite !omap_app. simpl.
    by rewrite last_snoc.
  - intros -> Hnot. simpl. rewrite (bool_decide_eq_false_2 _ Hnot). simpl.
    rewrite Hid, lookup_insert_eq. done.
Qed.

(** X21. [updateGameState] and [endGame] by a client whose host flag is
    down do nothing at all: no storage call, no callback. With the flag up
    and a store that accepts writes, [updateGameState] stores the game
    state in the bumped copy of the room (the version incremented as
    JavaScript adds, the time stamp renewed), where the game-state atom
    reads it back; [endGame] stores the bumped copy in status [ended] and
    calls [onGameEnd]. *)
Theorem host_only_updates :
  (∀ (S : Type) (HS : IGameStorage S) g m (w : World S),
     MultiplayerManager.isHost m = false →
     MultiplayerManager.updateGameState g m w = (false, m, w)
     ∧ MultiplayerManager.endGame m w = (m, w))
  ∧ (∀ g m sm (w : World (gmap string RoomState.t)) room,
       MultiplayerManager.isHost m = true →
       MultiplayerManager.sync m = Some sm →
       store w !! SyncManager.roomId sm = Some room →
       RoomState.id room = SyncManager.roomId sm →
       (MultiplayerManager.updateGameState g m w).1.1 = true
       ∧ store (MultiplayerManager.updateGameState g m w).2 !! SyncManager.roomId sm
         = Some (RoomState.with_gameState (Some g) (RoomState.bump (clock w) room))
       ∧ Atoms.multiplayerGameStateAtom
           (store (MultiplayerManager.updateGameState g m w).2 !! SyncManager.roomId sm)
         = Some g
       ∧ store (MultiplayerManager.endGame m w).2 !! SyncManager.roomId sm
         = Some (RoomState.with_status ended (RoomState.bump (clock w) room))
       ∧ last (callbacks (log (MultiplayerManager.endGame m w).2)) = Some OnGameEnd).
Proof.
  split.
  - intros S HS g m w Hflag.
    unfold MultiplayerManager.updateGameState, MultiplayerManager.endGame.
    by rewrite Hflag.
  - intros g m sm w room Hflag Hsm Hroom Hid.
    unfold MultiplayerManager.updateGameState, MultiplayerManager.endGame.
    rewrite Hflag, Hsm. simpl.
    rewrite !(lockedUpdate_mem _ m sm w room Hsm Hroom). simpl. rewrite Hid.
    rewrite !lookup_insert_eq. split_and!; try done.
    unfold call, emit, callbacks. simpl. rewrite !omap_app. simpl.
    by rewrite last_snoc.
Qed.

(** ** Coming back *)

Lemma find_by_id_host room pid player :
  NoDup (map Player.id (RoomState.players room)) →
  hostInvariant room = true →
  find (fun p => String.eqb (Player.id p) pid) (RoomState.players room) = Some player →
  Player.isHost player = String.eqb (RoomState.hostId room) pid.
Proof.
  intros Hnd Hinv Hfind. apply find_some in Hfind as [Hin Hid].
  apply list_elem_of_In in Hin. apply String.eqb_eq in Hid. subst pid.
  destruct (Player.isHost player) eqn:Hh.
  - symmetry. apply String.eqb_eq. symmetry. by apply only_host_is_hostId.
  - symmetry. apply String.eqb_neq. intros Heq.
    unfold hostInvariant in Hinv.
    destruct (List.filter Player.isHost (RoomState.players room)) as [|h [|h' l]] eqn:Hf;
      try discriminate.
    apply String.eqb_eq in Hinv.
    assert (Hhin : In h (List.filter Player.isHost (RoomState.players room)))
      by (rewrite Hf; by left).
    apply filter_In in Hhin as [Hhin Hhh]. apply list_elem_of_In in Hhin.
    assert (h = player); [|congruence].
    apply list_elem_of_lookup in Hhin as [i Hi]. apply list_elem_of_lookup in Hin as [j Hj].
    assert (i = j) as ->; [|congruence].
    eapply NoDup_lookup; [exact Hnd| |];
      rewrite list_lookup_fmap; [rewrite Hi|rewrite Hj]; simpl; [done|].
    by rewrite <- Heq, Hinv.
Qed.

(** X22. Coming back resynchronises the host flag. When a client that is
    already a member calls [joinRoom], or [reconnect], against a store that
    accepts writes, it ends with its host flag equal to the [isHost] of its
    player record, the room is stored under the version it was read at plus
    1 as JavaScript adds, its player is stored online with the others
    untouched in their order, and, for a room with distinct ids that
    satisfies the host invariant, the flag agrees with
    [room.hostId === playerId]. *)
Theorem rejoin_resyncs_host_flag m (w : World (gmap string RoomState.t)) room player :
  MultiplayerManager.storage m = true →
  falsy (MultiplayerManager.roomId m) = false →
  falsy (MultiplayerManager.playerName m) = false →
  store w !! theString (MultiplayerManager.roomId m) = Some room →
  RoomState.id room = theString (MultiplayerManager.roomId m) →
  find (fun p => String.eqb (Player.id p) (MultiplayerManager.playerId m))
       (RoomState.players room) = Some player →
  ((MultiplayerManager.joinRoom None m w).1.1 = Some room
   ∧ MultiplayerManager.getIsHost (MultiplayerManager.joinRoom None m w).1.2
     = Player.isHost player
   ∧ (MultiplayerManager.reconnect true m w).1.1 = true
   ∧ MultiplayerManager.getIsHost (MultiplayerManager.reconnect true m w).1.2
     = Player.isHost player
   ∧ store (MultiplayerManager.reconnect true m w).2
     = store (MultiplayerManager.joinRoom None m w).2)
  ∧ (∃ room',
       store (MultiplayerManager.joinRoom None m w).2
         !! theString (MultiplayerManager.roomId m) = Some room'
       ∧ RoomState.version room' = Number.add (RoomState.version room) 1
       ∧ RoomState.hostId room' = RoomState.hostId room
       ∧ map Player.id (RoomState.players room') = map Player.id (RoomState.players room)
       ∧ (∀ i p, RoomState.players room !! i = Some p →
            RoomState.players room' !! i
            = Some (if String.eqb (Player.id p) (MultiplayerManager.playerId m)
                    then Player.with_online true (clock w) p else p)))
  ∧ (NoDup (map Player.id (RoomState.players room)) → hostInvariant room = true →
     MultiplayerManager.getIsHost (MultiplayerManager.reconnect true m w).1.2
     = isHostAtom (Some room) (MultiplayerManager.playerId m)).
Proof.
  intros Hst Hrid Hname Hroom Hid Hfind.
  assert (Hcore : ∀ m0 : MultiplayerManager.t,
            MultiplayerManager.storage m0 = true →
            MultiplayerManager.roomId m0 = MultiplayerManager.roomId m →
            MultiplayerManager.playerId m0 = MultiplayerManager.playerId m →
            ∀ w0 : World (gmap string RoomState.t),
              store w0 = store w → clock w0 = clock w →
              let out := MultiplayerManager.updateOnlineStatus true
                           (MultiplayerManager.startSync room m0 w0).1
                           (MultiplayerManager.startSync room m0 w0).2 in
              MultiplayerManager.isHost out.1 = MultiplayerManager.isHost m0
              ∧ store out.2
                = <[theString (MultiplayerManager.roomId m) :=
                      RoomState.with_players
                        (map (fun p => if String.eqb (Player.id p)
                                            (MultiplayerManager.playerId m)
                                       then Player.with_online true (clock w) p else p)
                             (RoomState.players room))
                        (RoomState.bump (clock w) room)]> (store w)).
  { intros m0 Hst0 Hrid0 Hpid0 w0 Hs0 Hc0.
    pose proof (startSync_store room m0 w0) as (Hs & _ & Hc & Hh & Hp & _).
    destruct (startSync_sync room m0 w0 Hst0) as (sm & Hsm & Hsrid & _).
    { by rewrite Hrid0. }
    destruct (MultiplayerManager.startSync room m0 w0) as [m1 w1]. simpl in *.
    unfold MultiplayerManager.updateOnlineStatus. rewrite Hsm.
    assert (Hroom1 : store w1 !! SyncManager.roomId sm = Some room)
      by (by rewrite Hs, Hs0, Hsrid, Hrid0).
    rewrite (lockedUpdate_mem _ m1 sm w1 room Hsm Hroom1). simpl.
    rewrite Hh, Hp, Hpid0, Hs, Hs0, Hc, Hc0, Hid. done. }
  assert (Hjoin : let out := MultiplayerManager.joinRoom None m w in
            out.1.1 = Some room
            ∧ MultiplayerManager.isHost out.1.2 = Player.isHost player
            ∧ store out.2
              = <[theString (MultiplayerManager.roomId m) :=
                    RoomState.with_players
                      (map (fun p => if String.eqb (Player.id p)
                                          (MultiplayerManager.playerId m)
                                     then Player.with_online true (clock w) p else p)
                           (RoomState.players room))
                      (RoomState.bump (clock w) room)]> (store w)).
  { unfold MultiplayerManager.joinRoom. rewrite Hst, Hrid. simpl. rewrite Hname.
    unfold storageGet. simpl. rewrite Hroom, Hfind.
    match goal with |- context [MultiplayerManager.startSync room ?m0 ?w0] =>
      opose proof* (Hcore m0 _ _ _ w0) as (Hh & Hs); [by simpl..|];
      destruct (MultiplayerManager.startSync room m0 w0) as [m1 w1] end.
    simpl in Hh, Hs.
    destruct (MultiplayerManager.updateOnlineStatus true m1 w1) as [m2 w2].
    simpl in *. done. }
  assert (Hrec : let out := MultiplayerManager.reconnect true m w in
            out.1.1 = true
            ∧ MultiplayerManager.isHost out.1.2 = Player.isHost player
            ∧ store out.2
              = <[theString (MultiplayerManager.roomId m) :=
                    RoomState.with_players
                      (map (fun p => if String.eqb (Player.id p)
                                          (MultiplayerManager.playerId m)
                                     then Player.with_online true (clock w) p else p)
                           (RoomState.players room))
                      (RoomState.bump (clock w) room)]> (store w)).
  { unfold MultiplayerManager.reconnect. rewrite Hrid. simpl.
    unfold storageGet. simpl. rewrite Hroom, Hfind.
    match goal with |- context [MultiplayerManager.startSync room ?m0 ?w0] =>
      opose proof* (Hcore m0 _ _ _ w0) as (Hh & Hs); [by simpl..|];
      destruct (MultiplayerManager.startSync room m0 w0) as [m1 w1] end.
    simpl in Hh, Hs.
    destruct (MultiplayerManager.updateOnlineStatus true m1 w1) as [m2 w2].
    simpl in *. done. }
  simpl in Hjoin, Hrec.
  destruct Hjoin as (Hj1 & Hj2 & Hj3). destruct Hrec as (Hr1 & Hr2 & Hr3).
  unfold MultiplayerManager.getIsHost. split_and!; try done.
  - by rewrite Hr3, Hj3.
  - eexists. rewrite Hj3. split; [apply lookup_insert_eq|]. simpl.
    split_and!; try done.
    + apply list_eq. intros i. rewrite !list_lookup_fmap.
      destruct (RoomState.players room !! i) as [p|]; [|done]. simpl.
      by destruct (String.eqb _ _).
    + intros i p Hp. by rewrite list_lookup_fmap, Hp.
  - intros Hnd Hinv. rewrite Hr2. simpl. by apply find_by_id_host.
Qed.

(** ** After [destroy] *)



(** ** The host controller's handlers *)

Lemma voteLoop_runs todo : ∀ r,
  let r1 := voteTurns (length todo) (HostController.voteLoop todo r) in
  HostController.calls r1 = HostController.calls r ++ map voteCall todo
  ∧ HostController.currentGameState (HostController.controller r1)
    = HostController.currentGameState (HostController.controller r)
  ∧ HostController.isRunning (HostController.controller r1)
    = HostController.isRunning (HostController.controller r)
  ∧ ∃ tid, HostController.parked r1 = HostController.VoteLastDelay tid
           ∧ HostController.aiActionTimeout (HostController.controller r1) = Some tid
           ∧ tid ∈ HostController.pending r1.
Proof.
  induction todo as [|p rest IH]; intros r.
  - simpl. rewrite app_nil_r. split_and!; try done.
    eexists. split_and!; [done..|]. apply elem_of_union_l. by apply elem_of_singleton.
  - cbn [length voteTurns].
    assert (Hturn : voteTurn (HostController.voteLoop (p :: rest) r)
              = HostController.voteLoop rest
                  (HostController.mkRunning
                     (HostController.mk
                        (HostController.isRunning (HostController.controller r))
                        (HostController.currentGameState (HostController.controller r))
                        (Some (HostController.nextId r)))
                     (HostController.VoteAction rest)
                     (({[HostController.nextId r]} ∪ HostController.pending r)
                        ∖ {[HostController.nextId r]})
                     (Datatypes.S (HostController.nextId r))
                     (HostController.calls r ++ [voteCall p]))).
    { unfold voteTurn, fireCurrent, HostController.voteLoop at 1, HostController.delay.
      simpl. unfold HostController.timerFires. simpl.
      rewrite bool_decide_eq_true_2
        by (apply elem_of_union_l; by apply elem_of_singleton).
      rewrite bool_decide_eq_true_2 by done. done. }
    rewrite Hturn.
    match goal with |- context [HostController.voteLoop rest ?r'] =>
      destruct (IH r') as (Hc & Hg & Hr & Htid) end.
    simpl in Hc, Hg, Hr. split_and!; try done.
    rewrite Hc. by rewrite <- app_assoc.
Qed.

(** X24. Left undisturbed, the vote handler started on a game in a vote
    phase makes every living simulated player vote exactly once, in the
    order of the player list, and nobody else; it then waits once more and
    moves the game to [DAY_RESOLVE], reporting the phase change and the new
    game state. *)
Theorem vote_handler_polls_each_AI_once g r0 :
  GameState.phase g = DAY_VOTE ∨ GameState.phase g = DAY_BADGE_ELECTION →
  let ai := HostTurns.votingAIPlayers g in
  let r1 := voteTurns (length ai) (HostController.start g r0) in
  HostController.calls r1 = HostController.calls r0 ++ map voteCall ai
  ∧ (∀ p, voteCall p ∈ map voteCall ai →
       ∃ q, q ∈ GameState.players g ∧ GamePlayer.playerId q = GamePlayer.playerId p
            ∧ GamePlayer.isHuman q = false ∧ GamePlayer.alive q = true)
  ∧ HostController.calls (fireCurrent r1)
    = HostController.calls r1
      ++ [HostController.PhaseChange DAY_RESOLVE;
          HostController.GameStateUpdate (GameState.with_phase DAY_RESOLVE g)]
  ∧ HostController.currentGameState (HostController.controller (fireCurrent r1))
    = Some (GameState.with_phase DAY_RESOLVE g).
Proof.
  intros Hphase ai r1.
  assert (Hstart : HostController.start g r0
            = HostController.voteLoop ai
                (HostController.mkRunning
                   (HostController.mk true (Some g)
                      (HostController.aiActionTimeout (HostController.controller r0)))
                   (HostController.parked r0) (HostController.pending r0)
                   (HostController.nextId r0) (HostController.calls r0))).
  { unfold HostController.start, HostController.processPhase. simpl.
    destruct Hphase as [-> | ->]; by unfold HostController.handleVote. }
  subst r1. rewrite Hstart.
  match goal with |- context [HostController.voteLoop ai ?r] =>
    pose proof (voteLoop_runs ai r) as Hrun end.
  simpl in Hrun. destruct Hrun as (Hc & Hg & Hr & tid & Hp & Ht & Hin).
  set (r1 := voteTurns (length ai) _) in *.
  split; [exact Hc|]. split.
  - intros p (q & Heq & Hq)%list_elem_of_fmap.
    apply list_elem_of_In, filter_In in Hq as [Hq Hb].
    apply andb_prop in Hb as [Hh Ha]. apply negb_true_iff in Hh.
    exists q. split_and!; try done; [by apply list_elem_of_In|].
    unfold voteCall in Heq. congruence.
  - unfold fireCurrent. rewrite Ht. unfold HostController.timerFires.
    rewrite bool_decide_eq_true_2 by done. rewrite Hp.
    rewrite bool_decide_eq_true_2 by done.
    unfold HostController.transitionTo. simpl. rewrite Hg. simpl. done.
Qed.

(** X25. Whatever [getNextNightPhase] is, as long as it never answers
    [GAME_END] itself: a handler hands [GAME_END] to [transitionTo] only
    from a resolve phase, only when no wolf lives or the wolves are at
    least as many as the others, and then the winner has been recorded in
    the controller's game state. From [GAME_END] and from [DAY_BADGE_SIGNUP]
    no handler makes a transition. *)
Theorem game_end_only_with_winner next hc g :
  HostController.currentGameState hc = Some g →
  (∀ p s, next p s ≠ GAME_END) →
  ((HostTurns.handlerTarget next hc).1 = Some GAME_END →
   (GameState.phase g = NIGHT_RESOLVE ∨ GameState.phase g = DAY_RESOLVE)
   ∧ (aliveWolfCount g = 0%nat ∨ (aliveOtherCount g ≤ aliveWolfCount g)%nat)
   ∧ HostController.currentGameState (HostTurns.handlerTarget next hc).2
     = Some (GameState.with_winner
               (if Nat.eqb (aliveWolfCount g) 0 then village else wolf) g))
  ∧ (GameState.phase g = GAME_END ∨ GameState.phase g = DAY_BADGE_SIGNUP →
     HostTurns.handlerTarget next hc = (None, hc)).
Proof.
  intros Hg Hnext. unfold HostTurns.handlerTarget. rewrite Hg.
  rewrite (checkGameEnd_unfold hc g Hg). split.
  - destruct (GameState.phase g) eqn:Hp; simpl;
      try (intros [= Heq]; by apply Hnext in Heq);
      try (destruct (Z.eqb _ _); done);
      try (destruct (GameState.currentSpeakerSeat g); done);
      try done.
    all: destruct (Nat.eqb (aliveWolfCount g) 0) eqn:Hw; simpl;
      [intros _; apply Nat.eqb_eq in Hw; split_and!; auto|].
    all: destruct (Nat.leb (aliveOtherCount g) (aliveWolfCount g)) eqn:Hle; simpl;
      [intros _; apply Nat.leb_le in Hle; split_and!; auto | done].
  - by intros [-> | ->].
Qed.

(** ** What the observer of [startSync] compares with *)

Section ObserverFacts.
Context {S : Type} `{IGameStorage S}.

Lemma gameStarts_app a b : gameStarts (a ++ b) = (gameStarts a + gameStarts b)%nat.
Proof.
  unfold gameStarts, callbacks. by rewrite omap_app, List.filter_app, length_app.
Qed.

(** X26. The observer installed by [startSync] compares every update with
    the room the client held when it started syncing, not with the previous
    update. So a client that started syncing in a waiting room has
    [onGameStart] called at every poll that finds a newer version of the
    room in status [playing]: over a run of polls that fetch such rooms in
    increasing versions, once per poll. *)
Theorem game_start_reported_on_every_update rooms :
  ∀ room0 sm (w : World S) st,
    SyncManager.onUpdate sm = Some (MultiplayerManager.syncObserver room0) →
    RoomState.status room0 = waiting →
    SyncManager.inflight sm = [st] →
    Forall (fun r => RoomState.status r = playing) rooms →
    StronglySorted Z.lt (SyncManager.lastVersion sm :: map RoomState.version rooms) →
    gameStarts (log (SyncManager.pollRounds
                       (map (fun r => Resolved (Some r)) rooms) sm w).2)
    = (gameStarts (log w) + length rooms)%nat.
Proof.
  induction rooms as [|r rest IH]; intros room0 sm w st Hobs Hwait Hin Hplay Hsorted.
  - simpl. lia.
  - apply Forall_cons in Hplay as [Hr Hrest].
    apply StronglySorted_inv in Hsorted as [Htail Hall].
    assert (Hlt : SyncManager.lastVersion sm < RoomState.version r)
      by (by apply Forall_cons in Hall as [? _]).
    cbn [map SyncManager.pollRounds]. unfold SyncManager.poll_resume. rewrite Hin.
    apply Z.ltb_lt in Hlt. simpl. rewrite Hlt. simpl.
    unfold SyncManager.timer_fires. simpl. rewrite lookup_insert_eq. simpl.
    erewrite (IH room0); [| exact Hobs | exact Hwait | reflexivity | exact Hrest
                          | exact Htail].
    simpl. unfold SyncManager.notify. simpl. rewrite Hobs.
    unfold MultiplayerManager.syncObserver. rewrite Hwait, Hr. simpl.
    rewrite gameStarts_app. unfold gameStarts at 2. simpl. lia.
Qed.
End ObserverFacts.

(** ** Instances of the further properties *)

Lemma createSeatMappings_contiguous_witness :
  GameSync.createSeatMappings [alice; bob] 1 !! 1%nat = None.
Proof.
  destruct (createSeatMappings_contiguous [alice; bob] 1) as (_ & _ & _ & _ & _ & Hnone).
  apply Hnone. lia.
Defined.

Lemma seat_lookup_round_trip_witness :
  Atoms.currentGameSeatAtom "p-bob" (GameSync.createSeatMappings [alice; bob] 2)
  = Some 2%nat
  ∧ Atoms.currentGameSeatAtom "p-bob" (GameSync.createSeatMappings [alice; bob] 1)
    = None.
Proof.
  split.
  - refine (proj1 (seat_lookup_round_trip [alice; bob] 2 _) 1%nat bob _ _).
    + by_computation.
    + lia.
    + reflexivity.
  - refine (proj2 (seat_lookup_round_trip [alice; bob] 1 _) "p-bob" _);
      by_computation.
Defined.

Lemma my_turn_iff_my_seat_witness :
  (Atoms.isMyTurnAtom (Some speechRoom) (GameSync.createSeatMappings [alice; bob] 2)
     "p-bob" = true
   ↔ Atoms.currentGameSeatAtom "p-bob" (GameSync.createSeatMappings [alice; bob] 2)
     = Some 2%nat)
  ∧ Atoms.isMyTurnAtom (Some lobby5) (GameSync.createSeatMappings [alice; bob] 2)
      "p-bob" = false
  ∧ Atoms.isMyTurnAtom (Some voteRoom) (GameSync.createSeatMappings [alice; bob] 2)
      "p-bob" = false.
Proof.
  refine (conj _ (conj _ _)).
  - refine (proj1 (my_turn_iff_my_seat [alice; bob] 2 (Some speechRoom) "p-bob" _)
              speechGame 2%nat _ _); [by_computation | reflexivity | reflexivity].
  - refine (proj1 (proj2 (my_turn_iff_my_seat [alice; bob] 2 (Some lobby5) "p-bob" _)) _);
      [by_computation | reflexivity].
  - refine (proj2 (proj2 (my_turn_iff_my_seat [alice; bob] 2 (Some voteRoom) "p-bob" _))
              voteGame _ _); [by_computation | reflexivity | reflexivity].
Defined.

Lemma shuffleArray_rearranges_witness :
  GameSync.shuffleArray (fun k => k) [alice] = [alice].
Proof.
  destruct (shuffleArray_rearranges (fun k => k) [alice]) as (_ & _ & _ & _ & Hshort).
  apply Hshort. simpl. lia.
Defined.

Lemma initial_state_shape_witness :
  let g := GameSync.createMultiplayerGameState (fun k => (7 * k + 3)%nat) blankGame
             (participants 2) (GameSync.createSeatMappings (participants 2) 2) None in
  let p6 := GamePlayer.mk "ai-6" 6 "AI玩家6" true (Some Villager) village false in
  GamePlayer.seat p6 = 6%nat
  ∧ (GamePlayer.isHuman p6 = true ↔ (5 < Nat.min 2 (length (participants 2)))%nat)
  ∧ GamePlayer.playerId p6 = "ai-" +:+ pretty 6%nat
  ∧ (GamePlayer.alignment p6 = wolf ↔ GamePlayer.role p6 = Some Werewolf).
Proof.
  intros g p6.
  destruct (initial_state_shape (fun k => (7 * k + 3)%nat) blankGame (participants 2)
              2 None) as (_ & _ & Hplayers).
  destruct (Hplayers 5%nat p6) as (Hseat & _ & Hhuman & Hai & Halign).
  { vm_compute. reflexivity. }
  destruct Hai as [Hid _]; [reflexivity|].
  exact (conj Hseat (conj Hhuman (conj Hid Halign))).
Defined.

Lemma getRequiredPlayers_sound_witness :
  (∃ p, p ∈ GameState.players voteGame ∧ GamePlayer.alive p = true
        ∧ GamePlayer.playerId p = "ai-2")
  ∧ ActionQueue.getRequiredPlayers blankGame = []
  ∧ (length (ActionQueue.getRequiredPlayers speechGame) ≤ 1)%nat
  ∧ "player-1" ∈ ActionQueue.getRequiredPlayers voteGame.
Proof.
  refine (conj _ (conj _ (conj _ _))).
  - apply (proj1 (getRequiredPlayers_sound voteGame)). by_computation.
  - apply (proj1 (proj2 (getRequiredPlayers_sound blankGame))). by_computation.
  - apply (proj1 (proj2 (proj2 (getRequiredPlayers_sound speechGame)))).
    by_computation.
  - refine (proj2 (proj2 (proj2 (getRequiredPlayers_sound voteGame))) _
              (GamePlayer.mk "player-1" 1 "Alice" true (Some Seer) village true) _ _).
    + by_computation.
    + by_computation.
    + reflexivity.
Defined.

Lemma host_turns_are_required_witness :
  "ai-2" ∈ ActionQueue.getRequiredPlayers wolfNight
  ∧ "ai-2" ∈ ActionQueue.getRequiredPlayers voteGame
  ∧ GamePlayer.isHuman
      (GamePlayer.mk "ai-2" 2 "AI-2" true (Some Werewolf) wolf false) = false.
Proof.
  refine (conj _ (conj _ _)).
  - refine (proj1 (host_turns_are_required (controllerOn wolfNight) wolfNight eq_refl)
              (GamePlayer.mk "ai-2" 2 "AI-2" true (Some Werewolf) wolf false) _).
    by_computation.
  - refine (proj1 (proj2 (host_turns_are_required (controllerOn voteGame) voteGame
                            eq_refl)) _
              (GamePlayer.mk "ai-2" 2 "AI-2" true (Some Werewolf) wolf false) _);
      by_computation.
  - destruct (host_turns_are_required (controllerOn wolfNight) wolfNight eq_refl)
      as (_ & _ & Hkind).
    destruct (Hkind NIGHT_WOLF_ACTION
                (GamePlayer.mk "ai-2" 2 "AI-2" true (Some Werewolf) wolf false))
      as (_ & _ & Hai & _); [by_computation | exact Hai].
Defined.

Lemma action_queue_completes_witness :
  ActionQueue.checkAllActionsComplete voteGame
    (pendingActions (ActionQueue.applyAction 5 oneVote (Vote "player-1" 2))) ["ai-2"]
  = true
  ∧ ActionQueue.checkAllActionsComplete voteGame
      (pendingActions
         (foldl (ActionQueue.applyAction 5) emptyQueue
                [Vote "ai-2" 1; Vote "player-1" 2; Vote "ai-2" 1]))
      ["player-1"; "ai-2"]
    = true
  ∧ ActionQueue.checkAllActionsComplete voteGame (pendingActions oneVote)
      ["player-1"; "ai-2"]
    = false.
Proof.
  refine (conj _ (conj _ _)).
  - refine (proj1 (proj2 (action_queue_completes voteGame oneVote 5)) _ _ _).
    vm_compute. reflexivity.
  - refine (proj1 (proj2 (proj2 (action_queue_completes voteGame emptyQueue 5))) _ _ _).
    intros id Hid.
    apply elem_of_cons in Hid as [-> | Hid].
    + exists (Vote "player-1" 2). split; [by_computation | reflexivity].
    + apply elem_of_cons in Hid as [-> | Hid].
      * exists (Vote "ai-2" 1). split; [by_computation | reflexivity].
      * by apply elem_of_nil in Hid.
  - refine (proj2 (proj2 (proj2 (proj2 (action_queue_completes voteGame oneVote 5))))
              _ "player-1" _ _).
    + by_computation.
    + intros a Ha. apply elem_of_cons in Ha as [-> | Ha].
      * by_computation.
      * by apply elem_of_nil in Ha.
Defined.

Lemma polling_loop_stays_alive_witness :
  (∃ st', SyncManager.inflight
            (SyncManager.pollRounds [Resolved (Some started6); Rejected; Resolved None]
               syncAt5 (memWorld lobby5)).1 = [st'])
  ∧ (∃ st' ms,
       SyncManager.intervalId
         (SyncManager.poll_resume (Resolved (Some started6)) syncAt5 (memWorld lobby5)).1
       = Some (nextTimer (memWorld lobby5))
       ∧ SyncManager.inflight
           (SyncManager.poll_resume (Resolved (Some started6)) syncAt5
              (memWorld lobby5)).1 = []
       ∧ timers (SyncManager.poll_resume (Resolved (Some started6)) syncAt5
                   (memWorld lobby5)).2 !! nextTimer (memWorld lobby5) = Some (st', ms)
       ∧ ms = SyncManager.getInterval syncAt5 st'
       ∧ st' = (if SyncManager.lastVersion syncAt5 <? RoomState.version started6
                then RoomState.status started6 else waiting)).
Proof.
  split.
  - exact (proj1 (polling_loop_stays_alive (S := gmap string RoomState.t))
             [Resolved (Some started6); Rejected; Resolved None] syncAt5
             (memWorld lobby5) waiting eq_refl).
  - exact (proj2 (polling_loop_stays_alive (S := gmap string RoomState.t))
             (Resolved (Some started6)) syncAt5 (memWorld lobby5) waiting eq_refl).
Defined.

Lemma sync_stop_idempotent_witness :
  timers (SyncManager.start playing pollScheduled.1 pollScheduled.2).2 !! 1%nat = None
  ∧ SyncManager.inflight (SyncManager.start playing pollScheduled.1 pollScheduled.2).1
    = [playing]
  ∧ SyncManager.intervalId (SyncManager.start playing pollScheduled.1 pollScheduled.2).1
    = None.
Proof.
  destruct (sync_stop_idempotent pollScheduled.1 pollScheduled.2)
    as (_ & _ & _ & _ & _ & Hrestart).
  apply Hrestart; vm_compute; reflexivity.
Defined.

Lemma own_write_is_not_renotified_witness :
  let run := SyncManager.updateWithLock (RoomState.with_status playing) 3 syncAt5
               (memWorld lobby5) in
  log (SyncManager.poll_resume (Resolved (Some started6)) run.1.2 run.2).2 = log run.2
  ∧ SyncManager.lastVersion
      (SyncManager.poll_resume (Resolved (Some started6)) run.1.2 run.2).1
    = RoomState.version started6.
Proof.
  intros run.
  refine (own_write_is_not_renotified (RoomState.with_status playing) 3 syncAt5
            (memWorld lobby5) run.2 started6 started6 waiting [] _ _ _).
  - vm_compute. reflexivity.
  - simpl. lia.
  - vm_compute. reflexivity.
Defined.

Lemma updateWithLock_reliable_round_trip_witness :
  (let run := SyncManager.updateWithLock (RoomState.with_status playing) 3 sync1
                (memWorld lobby5) in
   run.1.1 = Some started6
   ∧ store run.2 !! "ROOM-1" = Some started6
   ∧ (SyncManager.refresh run.1.2 run.2).1.1 = Some started6)
  ∧ (SyncManager.updateWithLock (RoomState.with_status playing) 3 sync1 emptyWorld).1.1
    = None.
Proof.
  split.
  - destruct (proj1 (updateWithLock_reliable_round_trip (RoomState.with_status playing)
                       2 sync1 (memWorld lobby5)) lobby5)
      as (Hres & _ & _ & _ & Hstored); [vm_compute; reflexivity|].
    destruct Hstored as [Hst Hre]; [reflexivity|].
    exact (conj Hres (conj Hst Hre)).
  - refine (proj1 (proj2 (updateWithLock_reliable_round_trip
                            (RoomState.with_status playing) 2 sync1 emptyWorld) _)).
    vm_compute. reflexivity.
Defined.

Lemma setReady_changes_one_flag_witness :
  (∃ room',
     store (MultiplayerManager.setReady true guestClient lobbyWorld).2 !! "ROOM-1"
       = Some room'
     ∧ RoomState.version room' = 3
     ∧ RoomState.players room' !! 0%nat = Some (Player.mk "p-alice" "Alice" true true true 1000)
     ∧ RoomState.players room' !! 1%nat = Some (Player.mk "p-bob" "Bob" false true true 1000))
  ∧ (∃ room',
       store (MultiplayerManager.setReady true strangerClient lobbyWorld).2 !! "ROOM-1"
         = Some room'
       ∧ RoomState.players room' = RoomState.players lobbyOfTwoRoom).
Proof.
  split.
  - destruct (setReady_changes_one_flag true guestClient (syncOf guestClient) lobbyWorld
                lobbyOfTwoRoom)
      as (room' & Hst & Hv & _ & _ & _ & _ & Hp & _);
      [vm_compute; reflexivity ..|].
    exists room'.
    exact (conj Hst (conj Hv (conj (Hp 0%nat _ eq_refl) (Hp 1%nat _ eq_refl)))).
  - destruct (setReady_changes_one_flag true strangerClient (syncOf guestClient)
                lobbyWorld lobbyOfTwoRoom)
      as (room' & Hst & _ & _ & _ & _ & _ & _ & _ & Hout & _);
      [vm_compute; reflexivity ..|].
    exists room'. split; [exact Hst|]. apply Hout. by_computation.
Defined.

Lemma joinRoom_appends_newcomer_witness :
  ∃ room',
    (MultiplayerManager.joinRoom None clientC lobbyWorld).1.1 = Some room'
    ∧ RoomState.players room'
      = RoomState.players lobbyOfTwoRoom
        ++ [Player.mk "p-carol" "Carol" false false true 1000]
    ∧ RoomState.version room' = 3
    ∧ NoDup (map Player.id (RoomState.players room')).
Proof.
  destruct (joinRoom_appends_newcomer clientC lobbyWorld lobbyOfTwoRoom)
    as (room' & Hres & _ & Hp & Hv & _ & _ & _ & Hnd & _).
  - reflexivity.
  - reflexivity.
  - reflexivity.
  - vm_compute. reflexivity.
  - reflexivity.
  - by_computation.
  - by_computation.
  - exists room'. refine (conj Hres (conj Hp (conj Hv (Hnd _)))). by_computation.
Defined.

Lemma joinRoom_refused_while_playing_witness :
  ((MultiplayerManager.joinRoom None clientC (memWorld started6)).1.1 = None
   ∧ (MultiplayerManager.joinRoom None clientC (memWorld started6)).1.2 = clientC
   ∧ store (MultiplayerManager.joinRoom None clientC (memWorld started6)).2
     = store (memWorld started6))
  ∧ ((MultiplayerManager.joinRoom (Some "Dora") namelessClient (memWorld started6)).1.1
     = None
     ∧ (MultiplayerManager.joinRoom (Some "Dora") namelessClient
          (memWorld started6)).1.2
       = MultiplayerManager.setPlayerName "Dora" namelessClient
     ∧ store (MultiplayerManager.joinRoom (Some "Dora") namelessClient
                (memWorld started6)).2
       = store (memWorld started6)).
Proof.
  split.
  - destruct (joinRoom_refused_while_playing None clientC (memWorld started6) started6)
      as (Hres & Hm & _ & _ & _ & Hst).
    + reflexivity.
    + reflexivity.
    + right. reflexivity.
    + vm_compute. reflexivity.
    + by_computation.
    + reflexivity.
    + exact (conj Hres (conj Hm Hst)).
  - destruct (joinRoom_refused_while_playing (Some "Dora") namelessClient
                (memWorld started6) started6)
      as (Hres & Hm & _ & _ & _ & Hst).
    + reflexivity.
    + reflexivity.
    + left. reflexivity.
    + vm_compute. reflexivity.
    + by_computation.
    + reflexivity.
    + exact (conj Hres (conj Hm Hst)).
Defined.

Lemma createRoom_protects_live_room_witness :
  ((MultiplayerManager.createRoom None clientC (memWorld lobby5)).1.1 = None
   ∧ saves (log (MultiplayerManager.createRoom None clientC (memWorld lobby5)).2) = 0%nat)
  ∧ (∃ fresh,
       (MultiplayerManager.createRoom None clientC (memWorld finished5)).1.1 = Some fresh
       ∧ RoomState.version fresh = 1
       ∧ map Player.id (RoomState.players fresh) = ["p-carol"])
  ∧ (∃ fresh,
       (MultiplayerManager.createRoom None clientA emptyWorld).1.1 = Some fresh
       ∧ (MultiplayerManager.joinRoom None clientA emptyWorld).1.1 = Some fresh).
Proof.
  destruct createRoom_protects_live_room as [Hlive Hfresh].
  refine (conj _ (conj _ _)).
  - destruct (Hlive _ _ clientC (memWorld lobby5) lobby5) as (Hres & _ & Hlog).
    + reflexivity.
    + reflexivity.
    + reflexivity.
    + vm_compute. reflexivity.
    + by_computation.
    + split; [exact Hres|]. rewrite Hlog. vm_compute. reflexivity.
  - destruct (Hfresh clientC (memWorld finished5))
      as (fresh & Hres & _ & Hv & _ & _ & Hids & _).
    + reflexivity.
    + reflexivity.
    + reflexivity.
    + intros e He. vm_compute in He. injection He as <-. reflexivity.
    + exists fresh. exact (conj Hres (conj Hv Hids)).
  - destruct (Hfresh clientA emptyWorld)
      as (fresh & Hres & _ & _ & _ & _ & _ & _ & _ & _ & Hjoin).
    + reflexivity.
    + reflexivity.
    + reflexivity.
    + intros e He. vm_compute in He. discriminate He.
    + exists fresh. split; [exact Hres|]. apply Hjoin. vm_compute. reflexivity.
Defined.

Lemma leaveRoom_removes_caller_witness :
  store (MultiplayerManager.leaveRoom aliceAlone.1 aliceAlone.2).2 !! "ROOM-1" = None
  ∧ (∃ room',
       store (MultiplayerManager.leaveRoom guestClient lobbyWorld).2 !! "ROOM-1"
         = Some room'
       ∧ map Player.id (RoomState.players room') = ["p-alice"]
       ∧ NoDup (map Player.id (RoomState.players room'))
       ∧ RoomState.version room' = 3)
  ∧ MultiplayerManager.sync (MultiplayerManager.leaveRoom guestClient lobbyWorld).1 = None.
Proof.
  refine (conj _ (conj _ _)).
  - destruct (leaveRoom_removes_caller aliceAlone.1 (syncOf aliceAlone.1) aliceAlone.2
                (storedRoom aliceAlone.2)) as (Hgone & _);
      [vm_compute; reflexivity ..|].
    apply Hgone. vm_compute. reflexivity.
  - destruct (leaveRoom_removes_caller guestClient (syncOf guestClient) lobbyWorld
                lobbyOfTwoRoom) as (_ & Hstay & _);
      [vm_compute; reflexivity ..|].
    destruct Hstay as (room' & Hst & Hids & _ & Hnd & Hv & _); [by_computation|].
    exists room'. refine (conj Hst (conj Hids (conj (Hnd _) Hv))). by_computation.
  - destruct (leaveRoom_removes_caller guestClient (syncOf guestClient) lobbyWorld
                lobbyOfTwoRoom) as (_ & _ & Hsync & _);
      [vm_compute; reflexivity ..|].
    exact Hsync.
Defined.

Lemma startGame_all_ready_witness :
  ((MultiplayerManager.startGame readyToStart.1 readyToStart.2).1.1 = true
   ∧ RoomState.status <$>
       store (MultiplayerManager.startGame readyToStart.1 readyToStart.2).2 !! "ROOM-1"
     = Some playing)
  ∧ ((MultiplayerManager.startGame hostClient lobbyWorld).1.1 = false
     ∧ RoomState.status <$>
         store (MultiplayerManager.startGame hostClient lobbyWorld).2 !! "ROOM-1"
       = Some waiting).
Proof.
  split.
  - destruct (startGame_all_ready readyToStart.1 (syncOf readyToStart.1) readyToStart.2
                (storedRoom readyToStart.2)) as [Hgo _];
      [vm_compute; reflexivity ..|].
    destruct Hgo as (Hres & Hst & _); [vm_compute; reflexivity|].
    split; [exact Hres|].
    change (SyncManager.roomId (syncOf readyToStart.1)) with "ROOM-1" in Hst.
    rewrite Hst. reflexivity.
  - destruct (startGame_all_ready hostClient (syncOf hostClient) lobbyWorld
                lobbyOfTwoRoom) as [_ Hno];
      [vm_compute; reflexivity ..|].
    destruct Hno as (Hres & Hst & _); [vm_compute; reflexivity | by_computation |].
    exact (conj Hres Hst).
Defined.

Lemma host_only_updates_witness :
  MultiplayerManager.updateGameState voteGame guestClient lobbyWorld
  = (false, guestClient, lobbyWorld)
  ∧ Atoms.multiplayerGameStateAtom
      (store (MultiplayerManager.updateGameState voteGame hostClient lobbyWorld).2
         !! "ROOM-1")
    = Some voteGame
  ∧ RoomState.status <$>
      store (MultiplayerManager.endGame hostClient lobbyWorld).2 !! "ROOM-1"
    = Some ended.
Proof.
  destruct host_only_updates as [Hguest Hhost].
  refine (conj _ _).
  - refine (proj1 (Hguest _ _ voteGame guestClient lobbyWorld _)). reflexivity.
  - destruct (Hhost voteGame hostClient (syncOf hostClient) lobbyWorld lobbyOfTwoRoom)
      as (_ & _ & Hatom & Hend & _);
      [vm_compute; reflexivity ..|].
    split; [exact Hatom|].
    change (SyncManager.roomId (syncOf hostClient)) with "ROOM-1" in Hend.
    rewrite Hend. reflexivity.
Defined.

Lemma rejoin_resyncs_host_flag_witness :
  MultiplayerManager.getIsHost afterHostLeft.1.1 = false
  ∧ isHostAtom (Some (storedRoom afterHostLeft.2)) "p-bob" = true
  ∧ MultiplayerManager.getIsHost
      (MultiplayerManager.joinRoom None afterHostLeft.1.1 afterHostLeft.2).1.2 = true
  ∧ MultiplayerManager.getIsHost
      (MultiplayerManager.reconnect true afterHostLeft.1.1 afterHostLeft.2).1.2
    = isHostAtom (Some (storedRoom afterHostLeft.2)) "p-bob"
  ∧ (∃ room',
       store (MultiplayerManager.joinRoom None afterHostLeft.1.1 afterHostLeft.2).2
         !! "ROOM-1" = Some room'
       ∧ RoomState.players room' !! 1%nat
         = Some (Player.mk "p-carol" "Carol" false false true 1000)).
Proof.
  destruct (rejoin_resyncs_host_flag afterHostLeft.1.1 afterHostLeft.2
              (storedRoom afterHostLeft.2)
              (Player.mk "p-bob" "Bob" true false true 1000))
    as ((_ & Hjoin & _ & _ & _) & (room' & Hst & _ & _ & _ & Hp) & Hagree);
    [vm_compute; reflexivity ..|].
  refine (conj _ (conj _ (conj Hjoin (conj _ _)))).
  - reflexivity.
  - reflexivity.
  - apply Hagree; [by_computation | reflexivity].
  - exists room'. split; [exact Hst|].
    exact (Hp 1%nat (Player.mk "p-carol" "Carol" false false true 1000) eq_refl).
Defined.

Lemma vote_handler_polls_each_AI_once_witness :
  HostController.calls (voteTurns 1 (HostController.start voteGame hostIdle))
  = [voteCall (GamePlayer.mk "ai-2" 2 "AI-2" true (Some Werewolf) wolf false)]
  ∧ (∃ q, q ∈ GameState.players voteGame ∧ GamePlayer.playerId q = "ai-2"
          ∧ GamePlayer.isHuman q = false ∧ GamePlayer.alive q = true)
  ∧ HostController.currentGameState
      (HostController.controller
         (fireCurrent (voteTurns 1 (HostController.start voteGame hostIdle))))
    = Some (GameState.with_phase DAY_RESOLVE voteGame).
Proof.
  destruct (vote_handler_polls_each_AI_once voteGame hostIdle (or_introl eq_refl))
    as (Hcalls & Honly & _ & Hnext).
  refine (conj Hcalls (conj _ Hnext)).
  apply (Honly (GamePlayer.mk "ai-2" 2 "AI-2" true (Some Werewolf) wolf false)).
  apply list_elem_of_here.
Defined.

Lemma game_end_only_with_winner_witness :
  (aliveWolfCount twoVersusTwo = 0%nat
   ∨ (aliveOtherCount twoVersusTwo ≤ aliveWolfCount twoVersusTwo)%nat)
  ∧ HostController.currentGameState
      (HostTurns.handlerTarget straightToResolve (controllerOn twoVersusTwo)).2
    = Some (GameState.with_winner wolf twoVersusTwo)
  ∧ HostTurns.handlerTarget straightToResolve (controllerOn overGame)
    = (None, controllerOn overGame).
Proof.
  refine (conj _ (conj _ _)).
  - destruct (game_end_only_with_winner straightToResolve (controllerOn twoVersusTwo)
                twoVersusTwo eq_refl) as [Hend _].
    { intros p s. discriminate. }
    destruct Hend as (_ & Hcount & _); [reflexivity | exact Hcount].
  - destruct (game_end_only_with_winner straightToResolve (controllerOn twoVersusTwo)
                twoVersusTwo eq_refl) as [Hend _].
    { intros p s. discriminate. }
    destruct Hend as (_ & _ & Hwin); [reflexivity | exact Hwin].
  - destruct (game_end_only_with_winner straightToResolve (controllerOn overGame)
                overGame eq_refl) as [_ Hstay].
    { intros p s. discriminate. }
    apply Hstay. left. reflexivity.
Defined.

Lemma game_start_reported_on_every_update_witness :
  gameStarts (log (SyncManager.pollRounds
                     [Resolved (Some (playingAt 6)); Resolved (Some (playingAt 7));
                      Resolved (Some (playingAt 9))] watcher (memWorld lobby5)).2)
  = 3%nat.
Proof.
  refine (game_start_reported_on_every_update
            [playingAt 6; playingAt 7; playingAt 9] lobby5 watcher (memWorld lobby5)
            waiting _ _ _ _ _).
  - reflexivity.
  - reflexivity.
  - reflexivity.
  - repeat constructor.
  - repeat (constructor; [|repeat constructor; simpl; lia]). constructor.
Defined.

